(** * AvgDeliveryTimeReview: shipment metrics, compensation breakdown,
      per-day reduction and cost projection

    A shallow embedding of the four analysis scripts
    [delivery_time.py], [compensation_analysis.py], [sc_review.py] and
    [new_cost_per_parcel_analysis.py], and the properties of their
    aggregation code.

    Conventions of the embedding.
    - A pandas DataFrame over the shipment schema is a list of typed rows
      ([Shipment]) together with the columns that the scripts add to it by
      assignment ([extra], a finite map from column name to column).
    - A missing cell (NaN, NaT, None) is [None].  The cells of [route],
      [from_sc_code] and [to_sc_code] hold a text in every row: a table with
      a blank cell in one of these columns is outside the model.
    - Floating-point numbers are exact rationals extended with NaN and the
      two infinities ([float]).  Rounding, overflow and the sign of zero
      are left out: a decimal literal such as [6.81] stands for the rational
      681/100 and a zero divisor counts as +0.  Orderings survive a rounding
      that is monotone; equalities between computed numbers need not, and
      [binary64] gives the cost projection over the doubles.
    - Python exceptions are the left summand of [result]. *)

From stdpp Require Import base gmap strings.
From Stdlib Require PrimFloat.
From Stdlib Require Import String Ascii.
From Stdlib Require Import ZArith QArith Lia Lqa List Permutation Sorted OrdersEx.
Import ListNotations.

Local Open Scope Z_scope.
Local Open Scope string_scope.

(** ** Exceptions *)

Inductive exn : Type :=
| ZeroDivisionError
| KeyError (column : string)
| TypeError
| DateParseError (text : string).

Definition result (A : Type) : Type := (exn + A)%type.

Definition ret {A : Type} (a : A) : result A := inr a.
Definition raise {A : Type} (e : exn) : result A := inl e.
Definition bind {A B : Type} (m : result A) (k : A -> result B) : result B :=
  match m with
  | inl e => inl e
  | inr a => k a
  end.

Notation "'let!' x ':=' m 'in' k" := (bind m (fun x => k))
  (at level 10, x name, m at level 100, k at level 200).

Fixpoint mapM {A B : Type} (f : A -> result B) (l : list A) : result (list B) :=
  match l with
  | [] => ret []
  | a :: l' => let! b := f a in let! bs := mapM f l' in ret (b :: bs)
  end.

(** ** Numbers *)

Inductive float : Type :=
| Fin (q : Q)
| Inf (neg : bool)
| NaN.

Definition Qzero (q : Q) : bool := Qeq_bool q 0.
Definition Qneg (q : Q) : bool := (Qnum q <? 0)%Z.

Definition fadd (x y : float) : float :=
  match x, y with
  | NaN, _ | _, NaN => NaN
  | Fin a, Fin b => Fin (a + b)
  | Inf s, Fin _ | Fin _, Inf s => Inf s
  | Inf s, Inf t => if Bool.eqb s t then Inf s else NaN
  end.

Definition fsub (x y : float) : float :=
  match x, y with
  | NaN, _ | _, NaN => NaN
  | Fin a, Fin b => Fin (a - b)
  | Inf s, Fin _ => Inf s
  | Fin _, Inf s => Inf (negb s)
  | Inf s, Inf t => if Bool.eqb s t then NaN else Inf s
  end.

Definition fmul (x y : float) : float :=
  match x, y with
  | NaN, _ | _, NaN => NaN
  | Fin a, Fin b => Fin (a * b)
  | Inf s, Fin a | Fin a, Inf s => if Qzero a then NaN else Inf (xorb s (Qneg a))
  | Inf s, Inf t => Inf (xorb s t)
  end.

(** numpy division: a zero divisor gives an infinity or NaN, never an
    exception. *)
Definition fdiv (x y : float) : float :=
  match x, y with
  | NaN, _ | _, NaN => NaN
  | Fin a, Fin b =>
      if Qzero b then (if Qzero a then NaN else Inf (Qneg a)) else Fin (a / b)
  | Fin _, Inf _ => Fin 0
  | Inf s, Fin b => Inf (xorb s (Qneg b))
  | Inf _, Inf _ => NaN
  end.

Definition of_int (z : Z) : float := Fin (inject_Z z).
Definition of_nat (n : nat) : float := of_int (Z.of_nat n).

(** Python [int / int]: true division, [ZeroDivisionError] on a zero
    divisor. *)
Definition int_truediv (a b : Z) : result float :=
  if (b =? 0)%Z then raise ZeroDivisionError
  else ret (Fin (inject_Z a / inject_Z b)).

(** Values stored in a metrics dict. *)
Inductive pyval : Type :=
| PInt (z : Z)
| PFloat (x : float)
| PStr (s : string).

(** ** Dates *)

Record Timestamp : Type := mkTimestamp { year : Z; month : Z; day : Z }.

(** Days since 1970-01-01 of a proleptic Gregorian date. *)
Definition days_from_civil (t : Timestamp) : Z :=
  let y := if (month t <=? 2)%Z then year t - 1 else year t in
  let era := y / 400 in
  let yoe := y - era * 400 in
  let mp := (month t + 9) mod 12 in
  let doy := (153 * mp + 2) / 5 + day t - 1 in
  let doe := yoe * 365 + yoe / 4 - yoe / 100 + doy in
  era * 146097 + doe - 719468.

Definition digit (n : Z) : ascii := ascii_of_nat (48 + Z.to_nat (n mod 10)).

Definition two_digits (n : Z) : string :=
  String (digit (n / 10)) (String (digit n) EmptyString).

(** [strftime('%m-%d')] *)
Definition strftime_md (t : Timestamp) : string :=
  two_digits (month t) ++ "-" ++ two_digits (day t).

(** ** Shipment tables *)

(** One row of the shipment schema.  [D] is the type of a date cell: [string]
    as read from the CSV file, [Timestamp] after preprocessing. *)
Record Shipment (D : Type) : Type := mkShipment {
  shipped_date : D;
  compensated_at_date : option D;
  delivery_time_business_days : option Q;
  has_marketplace_cs_ticket : bool;
  total_compensation : option Q;
  compensation_reason : option string;
  route : string;
  from_sc_code : string;
  to_sc_code : string
}.

Arguments mkShipment {D}.
Arguments shipped_date {D}.
Arguments compensated_at_date {D}.
Arguments delivery_time_business_days {D}.
Arguments has_marketplace_cs_ticket {D}.
Arguments total_compensation {D}.
Arguments compensation_reason {D}.
Arguments route {D}.
Arguments from_sc_code {D}.
Arguments to_sc_code {D}.

(** A column added by assignment: float64 or object (strings). *)
Inductive column : Type :=
| NumCol (cells : list (option Q))
| StrCol (cells : list (option string)).

Record DataFrame : Type := mkDataFrame {
  data : list (Shipment Timestamp);
  extra : gmap string column
}.

Definition len (df : DataFrame) : nat := length (data df).

(** [df[name] = c] *)
Definition setitem (df : DataFrame) (name : string) (c : column) : DataFrame :=
  {| data := data df; extra := <[name := c]> (extra df) |}.

(** [df[name]] for an added float64 column *)
Definition getitem_num (df : DataFrame) (name : string) : result (list (option Q)) :=
  match extra df !! name with
  | Some (NumCol c) => ret c
  | Some (StrCol _) => raise TypeError
  | None => raise (KeyError name)
  end.

(** ** Series operations *)

Fixpoint dropna {A : Type} (s : list (option A)) : list A :=
  match s with
  | [] => []
  | Some a :: s' => a :: dropna s'
  | None :: s' => dropna s'
  end.

Definition notnull {A : Type} (s : list (option A)) : list bool :=
  map (fun c => match c with Some _ => true | None => false end) s.

Definition Qsum (l : list Q) : Q := fold_right Qplus 0%Q l.

(** Mean of the values; NaN when there is none. *)
Definition mean_values (l : list Q) : float :=
  match l with
  | [] => NaN
  | _ => Fin (Qsum l / inject_Z (Z.of_nat (length l)))
  end.

(** [Series.mean()] of a float64 column: missing cells are skipped. *)
Definition mean (s : list (option Q)) : float := mean_values (dropna s).

Definition count_true (s : list bool) : nat := length (filter (fun b : bool => b) s).

(** [Series.mean()] of a boolean column: the fraction of [True]. *)
Definition mean_bool (s : list bool) : float :=
  match s with
  | [] => NaN
  | _ => Fin (inject_Z (Z.of_nat (count_true s)) / inject_Z (Z.of_nat (length s)))
  end.

(** [series <= k] and [series > k]; a missing cell compares false. *)
Definition le_scalar (s : list (option Q)) (k : Q) : list bool :=
  map (fun c => match c with Some q => Qle_bool q k | None => false end) s.

Definition gt_scalar (s : list (option Q)) (k : Q) : list bool :=
  map (fun c => match c with Some q => negb (Qle_bool q k) | None => false end) s.

(** [(df['compensated_at_date'] - df['shipped_date']).dt.days] *)
Definition resolution_days (r : Shipment Timestamp) : option Q :=
  match compensated_at_date r with
  | Some c => Some (inject_Z (days_from_civil c - days_from_civil (shipped_date r)))
  | None => None
  end.

(** [df[mask]]: the rows (and the cells of every added column) where the mask
    holds, as a new frame. *)
Fixpoint select {A : Type} (mask : list bool) (l : list A) : list A :=
  match mask, l with
  | b :: mask', a :: l' => if b then a :: select mask' l' else select mask' l'
  | _, _ => []
  end.

Definition select_col (mask : list bool) (c : column) : column :=
  match c with
  | NumCol l => NumCol (select mask l)
  | StrCol l => StrCol (select mask l)
  end.

Definition loc (df : DataFrame) (mask : list bool) : DataFrame :=
  {| data := select mask (data df); extra := select_col mask <$> extra df |}.

(** [df.dropna(subset=['total_compensation'])] *)
Definition dropna_total_compensation (df : DataFrame) : DataFrame :=
  loc df (notnull (map total_compensation (data df))).

(** [df[name]] for an added object column *)
Definition getitem_str (df : DataFrame) (name : string) : result (list (option string)) :=
  match extra df !! name with
  | Some (StrCol c) => ret c
  | Some (NumCol _) => raise TypeError
  | None => raise (KeyError name)
  end.

(** ** Group-by

    [groupby(key)] with the library defaults: rows whose key is missing
    belong to no group, the groups come in ascending key order, and the rows
    of a group keep their order. *)

Fixpoint insert_key (k : string) (ks : list string) : list string :=
  match ks with
  | [] => [k]
  | k' :: ks' =>
      match String.compare k k' with
      | Lt => k :: ks
      | Eq => ks
      | Gt => k' :: insert_key k ks'
      end
  end.

Definition group_keys (keys : list (option string)) : list string :=
  fold_right insert_key [] (dropna keys).

Definition has_key (k : string) (c : option string) : bool :=
  match c with
  | Some k' => String.eqb k k'
  | None => false
  end.

Definition groupby {A : Type} (keyed : list (option string * A)) : list (string * list A) :=
  map (fun k => (k, map snd (filter (fun kr => has_key k (fst kr)) keyed)))
      (group_keys (map fst keyed)).

Definition is_nan (x : float) : bool :=
  match x with
  | NaN => true
  | _ => false
  end.

(** One row of the per-day table [grouped_df]. *)
Record day_row : Type := mkDayRow {
  shipped_date_mmdd : string;
  avg_delivery_time : float;
  avg_compensation_amount : float
}.

(** [groupby(...).agg(avg_delivery_time=(..., 'mean'),
    avg_compensation_amount=(..., 'mean'))] *)
Definition agg_day (g : string * list (Shipment Timestamp)) : day_row :=
  {| shipped_date_mmdd := fst g;
     avg_delivery_time := mean (map delivery_time_business_days (snd g));
     avg_compensation_amount := mean (map total_compensation (snd g)) |}.

(** [DataFrame.dropna()] on the per-day table *)
Definition dropna_days (t : list day_row) : list day_row :=
  filter (fun d => negb (is_nan (avg_delivery_time d)) &&
                   negb (is_nan (avg_compensation_amount d)))%bool t.

(** [sort_values(by=..., ascending=False)]: insertion into a list that is
    already in descending order of [key]. *)
Fixpoint insert_desc {A : Type} (key : A -> Z) (x : A) (l : list A) : list A :=
  match l with
  | [] => [x]
  | y :: l' => if (key y <=? key x)%Z then x :: l else y :: insert_desc key x l'
  end.

Definition sort_values_desc {A : Type} (key : A -> Z) (l : list A) : list A :=
  fold_right (insert_desc key) [] l.

(** [mask1 & mask2] *)
Fixpoint mask_and (m1 m2 : list bool) : list bool :=
  match m1, m2 with
  | a :: m1', b :: m2' => (a && b)%bool :: mask_and m1' m2'
  | _, _ => []
  end.

(** [Series.unique()]: the distinct values, in order of first appearance. *)
Fixpoint unique (l : list string) : list string :=
  match l with
  | [] => []
  | x :: l' => x :: filter (fun y => negb (String.eqb x y)) (unique l')
  end.

(** Group-by on two key columns: the key of a row is the pair of its cells,
    missing when either cell is; the groups come in ascending order of the
    pair (first component, then second). *)
Definition pair_compare (a b : string * string) : comparison :=
  match String.compare (fst a) (fst b) with
  | Eq => String.compare (snd a) (snd b)
  | c => c
  end.

Fixpoint insert_pair (k : string * string) (ks : list (string * string))
  : list (string * string) :=
  match ks with
  | [] => [k]
  | k' :: ks' =>
      match pair_compare k k' with
      | Lt => k :: ks
      | Eq => ks
      | Gt => k' :: insert_pair k ks'
      end
  end.

Definition pair_keys (keys : list (option (string * string))) : list (string * string) :=
  fold_right insert_pair [] (dropna keys).

Definition pair_eqb (a b : string * string) : bool :=
  (String.eqb (fst a) (fst b) && String.eqb (snd a) (snd b))%bool.

Definition has_pair (k : string * string) (c : option (string * string)) : bool :=
  match c with
  | Some k' => pair_eqb k k'
  | None => false
  end.

Definition groupby_pairs {A : Type} (keyed : list (option (string * string) * A))
  : list ((string * string) * list A) :=
  map (fun k => (k, map snd (filter (fun kr => has_pair k (fst kr)) keyed)))
      (pair_keys (map fst keyed)).

Definition key_pair (a b : option string) : option (string * string) :=
  match a, b with
  | Some x, Some y => Some (x, y)
  | _, _ => None
  end.

(** Sorting of values, for [Series.median()]. *)
Fixpoint Qinsert (x : Q) (l : list Q) : list Q :=
  match l with
  | [] => [x]
  | y :: l' => if Qle_bool x y then x :: l else y :: Qinsert x l'
  end.

Definition Qsort (l : list Q) : list Q := fold_right Qinsert [] l.

(** [Series.median()] of the values: the middle one of the sorted values, the
    mean of the two middle ones when their number is even; NaN when there is
    none. *)
Definition median_values (l : list Q) : float :=
  let sorted := Qsort l in
  let n := length sorted in
  match sorted with
  | [] => NaN
  | _ =>
      if Nat.even n
      then Fin ((nth (n / 2 - 1) sorted 0%Q + nth (n / 2) sorted 0%Q) / 2)
      else Fin (nth (n / 2) sorted 0%Q)
  end.

Definition Qmax2 (a b : Q) : Q := if Qle_bool a b then b else a.
Definition Qmin2 (a b : Q) : Q := if Qle_bool a b then a else b.

(** [Series.max()] and [Series.min()] of the values; NaN when there is none. *)
Definition max_values (l : list Q) : float :=
  match l with
  | [] => NaN
  | x :: l' => Fin (fold_left Qmax2 l' x)
  end.

Definition min_values (l : list Q) : float :=
  match l with
  | [] => NaN
  | x :: l' => Fin (fold_left Qmin2 l' x)
  end.

(** Exceptions of the reshaping and of the column fallback, beside those of
    [exn]. *)
Inductive exn2 : Type :=
| Raised (e : exn)
| ValueError (message : string).

Definition result2 (A : Type) : Type := (exn2 + A)%type.

Definition lift {A : Type} (m : result A) : result2 A :=
  match m with
  | inl e => inl (Raised e)
  | inr a => inr a
  end.

Definition bind2 {A B : Type} (m : result2 A) (k : A -> result2 B) : result2 B :=
  match m with
  | inl e => inl e
  | inr a => k a
  end.

Notation "'let!!' x ':=' m 'in' k" := (bind2 m (fun x => k))
  (at level 10, x name, m at level 100, k at level 200).

(** [DataFrame.pivot(index, columns, values)] of a table of (index, column,
    value) rows, followed by [fillna(0)]: index and columns are the sorted
    distinct labels, a cell holds the value of the row with its labels, 0
    when there is no such row.  Two rows with the same labels raise. *)
Record pivot_table : Type := mkPivot {
  index : list string;
  columns : list string;
  values : list (list float)
}.

Fixpoint has_duplicates (l : list (string * string)) : bool :=
  match l with
  | [] => false
  | x :: l' => (existsb (pair_eqb x) l' || has_duplicates l')%bool
  end.

Definition cell_of (t : list (string * string * float)) (i c : string) : float :=
  match filter (fun e => pair_eqb (i, c) (fst e)) t with
  | e :: _ => snd e
  | [] => NaN
  end.

Definition pivot (t : list (string * string * float)) : result2 pivot_table :=
  if has_duplicates (map fst t)
  then inl (ValueError "Index contains duplicate entries, cannot reshape")
  else
    let index := group_keys (map (fun e => Some (fst (fst e))) t) in
    let columns := group_keys (map (fun e => Some (snd (fst e))) t) in
    inr {| index := index;
           columns := columns;
           values := map (fun i => map (fun c => cell_of t i c) columns) index |}.

Definition fillna (x : float) (p : pivot_table) : pivot_table :=
  {| index := index p;
     columns := columns p;
     values := map (map (fun v => if is_nan v then x else v)) (values p) |}.

(** ** Date preprocessing

    [parse_date] is the parser of a date column: it says which texts of the
    column are dates.  Here it is given, and the same for both date columns;
    [by_column] below derives it from the column, as the library does. *)

Section Preprocessing.

Variable parse_date : string -> option Timestamp.

(** [pd.to_datetime(column)]: the first text that is no date raises. *)
Definition to_datetime (s : string) : result Timestamp :=
  match parse_date s with
  | Some t => ret t
  | None => raise (DateParseError s)
  end.

(** [pd.to_datetime(column, errors='coerce')]: an empty cell and a text
    that is no date both become NaT. *)
Definition to_datetime_coerce (c : option string) : option Timestamp :=
  match c with
  | Some s => parse_date s
  | None => None
  end.

Definition with_dates (r : Shipment string) (s : Timestamp) (c : option Timestamp)
  : Shipment Timestamp :=
  {| shipped_date := s;
     compensated_at_date := c;
     delivery_time_business_days := delivery_time_business_days r;
     has_marketplace_cs_ticket := has_marketplace_cs_ticket r;
     total_compensation := total_compensation r;
     compensation_reason := compensation_reason r;
     route := route r;
     from_sc_code := from_sc_code r;
     to_sc_code := to_sc_code r |}.

Fixpoint assign_dates (rows : list (Shipment string)) (shipped : list Timestamp)
    (comp : list (option Timestamp)) : list (Shipment Timestamp) :=
  match rows, shipped, comp with
  | r :: rows', s :: shipped', c :: comp' =>
      with_dates r s c :: assign_dates rows' shipped' comp'
  | _, _, _ => []
  end.

(** The two assignments shared by every script:
    [df['shipped_date'] = pd.to_datetime(df['shipped_date'])] and
    [df['compensated_at_date'] =
       pd.to_datetime(df['compensated_at_date'], errors='coerce')]. *)
Definition convert_dates (rows : list (Shipment string)) : result DataFrame :=
  let! shipped := mapM to_datetime (map shipped_date rows) in
  let comp := map to_datetime_coerce (map compensated_at_date rows) in
  ret {| data := assign_dates rows shipped comp; extra := ∅ |}.

End Preprocessing.

(** ** delivery_time.py *)

Module delivery_time.

(** The CSV files are given as the tables read from them; [pd.concat]
    appends them.  Any exception gives [None]. *)
Definition load_and_preprocess_data (parse_date : string -> option Timestamp)
    (files : list (list (Shipment string))) : option DataFrame :=
  let df := concat files in
  match convert_dates parse_date df with
  | inr df => Some df
  | inl _ => None
  end.

(** Returns the metrics dict and the frame [df] as the call leaves it. *)
Definition calculate_metrics (df : DataFrame)
  : result (gmap string pyval * DataFrame) :=
  let metrics : gmap string pyval := ∅ in
  let total_shipments := len df in
  let total_compensated_shipments := len (dropna_total_compensation df) in
  let metrics := <["avg_delivery_time" :=
    PFloat (mean (map delivery_time_business_days (data df)))]> metrics in
  let expected_delivery_days := 7%Q in
  let metrics := <["on_time_delivery_rate" :=
    PFloat (fmul (mean_bool (le_scalar (map delivery_time_business_days (data df))
                                       expected_delivery_days)) (of_int 100))]> metrics in
  let metrics := <["late_delivery_rate" :=
    PFloat (fmul (mean_bool (gt_scalar (map delivery_time_business_days (data df))
                                       expected_delivery_days)) (of_int 100))]> metrics in
  let metrics := <["cs_ticket_rate" :=
    PFloat (fmul (mean_bool (map has_marketplace_cs_ticket (data df))) (of_int 100))]>
    metrics in
  let metrics := <["compensation_rate" :=
    PFloat (fmul (mean_bool (notnull (map total_compensation (data df)))) (of_int 100))]>
    metrics in
  let metrics := <["avg_compensation_amount" :=
    PFloat (mean_values (dropna (map total_compensation (data df))))]> metrics in
  let metrics := <["count_parcels" := PInt (Z.of_nat total_shipments)]> metrics in
  let! shipment_weight :=
    if negb (Nat.eqb total_compensated_shipments 0) then
      let! ratio := int_truediv (Z.of_nat total_shipments)
                                (Z.of_nat total_compensated_shipments) in
      ret (PFloat (fmul ratio (of_int 100)))
    else ret (PInt 0) in
  let metrics := <["shipment_weight" := shipment_weight]> metrics in
  let df := setitem df "resolution_time" (NumCol (map resolution_days (data df))) in
  let! resolution_time := getitem_num df "resolution_time" in
  let metrics := <["resolution_time_avg" :=
    PFloat (mean_values (dropna resolution_time))]> metrics in
  ret (metrics, df).

(** Lines 102-106: the per-day table [grouped_df] (the one written to the
    CSV file), and the frame as the call leaves it.  The correlation
    coefficient and the plot are left out. *)
Definition analyze_correlation (df : DataFrame) : result (list day_row * DataFrame) :=
  let df := setitem df "shipped_date_mmdd"
              (StrCol (map (fun r => Some (strftime_md (shipped_date r))) (data df))) in
  let! keys := getitem_str df "shipped_date_mmdd" in
  let grouped_df := dropna_days (map agg_day (groupby (combine keys (data df)))) in
  ret (grouped_df, df).

(** The six numbers that [analyze_to_text] formats into its report. *)
Record report : Type := mkReport {
  average_delivery_time : float;
  on_time_delivery_rate : float;
  compensation_rate : float;
  avg_compensation_amount : float;
  cs_ticket_rate : float;
  resolution_time_avg : float
}.

Definition analyze_to_text (df : DataFrame) : result (report * DataFrame) :=
  let average_delivery_time := mean (map delivery_time_business_days (data df)) in
  let expected_days := 5%Q in
  let on_time_delivery_rate :=
    mean_bool (le_scalar (map delivery_time_business_days (data df)) expected_days) in
  let compensation_rate := mean_bool (notnull (map total_compensation (data df))) in
  let avg_compensation_amount := mean_values (dropna (map total_compensation (data df))) in
  let cs_ticket_rate := mean_bool (map has_marketplace_cs_ticket (data df)) in
  let df := setitem df "resolution_time" (NumCol (map resolution_days (data df))) in
  let! resolution_time := getitem_num df "resolution_time" in
  let resolution_time_avg := mean_values (dropna resolution_time) in
  ret ({| average_delivery_time := average_delivery_time;
          on_time_delivery_rate := on_time_delivery_rate;
          compensation_rate := compensation_rate;
          avg_compensation_amount := avg_compensation_amount;
          cs_ticket_rate := cs_ticket_rate;
          resolution_time_avg := resolution_time_avg |}, df).

(** The metrics dict of a partition, with its two tags. *)
Definition tagged (metrics : gmap string pyval) (type identifier : string)
  : gmap string pyval :=
  let metrics := <["type" := PStr type]> metrics in
  let metrics := <["identifier" := PStr identifier]> metrics in
  metrics.

(** The list [consolidated_data] that the CSV file is written from.  A
    partition is a frame of its own: what [calculate_metrics] assigns on it
    does not reach [df]. *)
Definition analyze_and_consolidate (df : DataFrame) : result (list (gmap string pyval)) :=
  let routes := unique (map route (data df)) in
  let! by_route :=
    mapM (fun route0 =>
            let route_df := loc df (map (fun r => String.eqb (route r) route0) (data df)) in
            let! metrics := calculate_metrics route_df in
            ret (tagged (fst metrics) "Route" route0))
         routes in
  let sortation_centers :=
    pair_keys (map (fun r => Some (from_sc_code r, to_sc_code r)) (data df)) in
  let! by_center :=
    mapM (fun key : string * string =>
            let group_df :=
              loc df (map (fun r => pair_eqb key (from_sc_code r, to_sc_code r)) (data df)) in
            let! metrics := calculate_metrics group_df in
            ret (tagged (fst metrics) "Sortation Center" (fst key ++ " -> " ++ snd key)))
         sortation_centers in
  ret (by_route ++ by_center)%list.

(** Lines 84-88: the per-day table that is plotted, and the frame as the
    call leaves it. *)
Definition analyze_seasonal_patterns (df : DataFrame) : result (list day_row * DataFrame) :=
  let df := setitem df "shipped_month_day"
              (StrCol (map (fun r => Some (strftime_md (shipped_date r))) (data df))) in
  let! keys := getitem_str df "shipped_month_day" in
  let grouped_df := dropna_days (map agg_day (groupby (combine keys (data df)))) in
  ret (grouped_df, df).

(** What a run of [main] produces, and the frame at its end. *)
Record outputs : Type := mkOutputs {
  consolidated_data : list (gmap string pyval);
  seasonal_table : list day_row;
  correlation_table : list day_row;
  text_report : report;
  final_frame : DataFrame
}.

Definition main (parse_date : string -> option Timestamp)
    (files : list (list (Shipment string))) : result (option outputs) :=
  match load_and_preprocess_data parse_date files with
  | Some df =>
      let! consolidated_data := analyze_and_consolidate df in
      let! seasonal := analyze_seasonal_patterns df in
      let df := snd seasonal in
      let! correlation := analyze_correlation df in
      let df := snd correlation in
      let! text := analyze_to_text df in
      let df := snd text in
      ret (Some {| consolidated_data := consolidated_data;
                   seasonal_table := fst seasonal;
                   correlation_table := fst correlation;
                   text_report := fst text;
                   final_frame := df |})
  | None => ret None
  end.

End delivery_time.

(** ** compensation_analysis.py *)

Module compensation_analysis.

Definition preprocess_data (parse_date : string -> option Timestamp)
    (df : list (Shipment string)) : result DataFrame :=
  convert_dates parse_date df.

(** One row of [compensation_by_reason]. *)
Record reason_row : Type := mkReasonRow {
  reason : string;
  count : Z;
  total_amount : float;
  avg_amount : float;
  transaction_weight : float;
  amount_weight : float
}.

(** What the report is written from; of the amounts summary the total and
    the mean are kept. *)
Record analysis : Type := mkAnalysis {
  total_compensated_transactions : nat;
  total_compensation_amount : float;
  avg_compensation : float;
  compensation_by_reason : list reason_row
}.

Definition analyze_compensations (df : DataFrame) : analysis :=
  let compensation_df := dropna_total_compensation df in
  let total_compensated_transactions := len compensation_df in
  let total_compensation_amount :=
    Fin (Qsum (dropna (map total_compensation (data compensation_df)))) in
  let avg_compensation := mean (map total_compensation (data compensation_df)) in
  let compensation_by_reason :=
    map (fun g : string * list (Shipment Timestamp) =>
           let count := Z.of_nat (length (snd g)) in
           let total_amount := Fin (Qsum (dropna (map total_compensation (snd g)))) in
           {| reason := fst g;
              count := count;
              total_amount := total_amount;
              avg_amount := mean (map total_compensation (snd g));
              transaction_weight :=
                fmul (fdiv (of_int count) (of_nat total_compensated_transactions))
                     (of_int 100);
              amount_weight :=
                fmul (fdiv total_amount total_compensation_amount) (of_int 100) |})
        (groupby (map (fun r => (compensation_reason r, r)) (data compensation_df))) in
  {| total_compensated_transactions := total_compensated_transactions;
     total_compensation_amount := total_compensation_amount;
     avg_compensation := avg_compensation;
     compensation_by_reason := compensation_by_reason |}.

(** The tables are given as read; [pd.concat] appends them. *)
Definition load_data (files : list (list (Shipment string)))
  : option (list (Shipment string)) :=
  Some (concat files).

(** Lines 46-48: the other three numbers of the amounts summary. *)
Definition median_compensation (df : DataFrame) : float :=
  median_values (dropna (map total_compensation (data (dropna_total_compensation df)))).

Definition max_compensation (df : DataFrame) : float :=
  max_values (dropna (map total_compensation (data (dropna_total_compensation df)))).

Definition min_compensation (df : DataFrame) : float :=
  min_values (dropna (map total_compensation (data (dropna_total_compensation df)))).

(** Lines 96-108: the table [pivot_df] that the stacked area chart is drawn
    from, and the frame as the call leaves it.  The chart is not modelled;
    the library refuses to draw a table without columns, so where no row has
    a reason the script stops after this point. *)
Definition analyze_seasonal_patterns (df : DataFrame) : result2 (pivot_table * DataFrame) :=
  let df := setitem df "shipped_month_day"
              (StrCol (map (fun r => Some (strftime_md (shipped_date r))) (data df))) in
  let!! days := lift (getitem_str df "shipped_month_day") in
  let keyed :=
    combine (map (fun dr => key_pair (fst dr) (compensation_reason (snd dr)))
                 (combine days (data df)))
            (data df) in
  let grouped_df :=
    map (fun g : (string * string) * list (Shipment Timestamp) =>
           (fst g, Fin (Qsum (dropna (map total_compensation (snd g))))))
        (groupby_pairs keyed) in
  let grouped_df := filter (fun e => negb (is_nan (snd e))) grouped_df in
  let!! pivot_df := pivot grouped_df in
  let pivot_df := fillna (Fin 0) pivot_df in
  inr (pivot_df, df).

(** [main], up to the table of [analyze_seasonal_patterns]. *)
Definition main (parse_date : string -> option Timestamp)
    (files : list (list (Shipment string)))
  : result2 (option (analysis * pivot_table)) :=
  match load_data files with
  | Some df =>
      let!! df := lift (preprocess_data parse_date df) in
      let compensations := analyze_compensations df in
      let!! seasonal := analyze_seasonal_patterns df in
      inr (Some (compensations, fst seasonal))
  | None => inr None
  end.

End compensation_analysis.

(** ** sc_review.py *)

Module sc_review.

(** The per-day table [grouped_df] of the LYO1 -> PAR1 rows.  The column is
    assigned on the filtered frame, which is local to the call. *)
Definition analyze_correlation (df : DataFrame) : result (list day_row) :=
  let df := loc df (mask_and (map (fun r => String.eqb (from_sc_code r) "LYO1") (data df))
                             (map (fun r => String.eqb (to_sc_code r) "PAR1") (data df))) in
  let df := setitem df "shipped_date_mmdd"
              (StrCol (map (fun r => Some (strftime_md (shipped_date r))) (data df))) in
  let! keys := getitem_str df "shipped_date_mmdd" in
  let grouped_df := map agg_day (groupby (combine keys (data df))) in
  let grouped_df := dropna_days grouped_df in
  ret grouped_df.

(** One row of [reasons_df]. *)
Record reason_count : Type := mkReasonCount {
  reason : string;
  count : Z;
  average_compensation_amount : float
}.

Definition analyze_compensation_reasons (df : DataFrame) : list reason_count :=
  let reasons_df :=
    map (fun g : string * list (Shipment Timestamp) =>
           {| reason := fst g;
              count := Z.of_nat (length (snd g));
              average_compensation_amount := mean (map total_compensation (snd g)) |})
        (groupby (map (fun r => (compensation_reason r, r)) (data df))) in
  sort_values_desc count reasons_df.

(** [main].  The frame read from the files is given by its rows and by the
    names of the columns it has; the cells of a column that the frame lacks
    are never read: the two date columns are looked up first, which raises
    when one is not there, and a required column that is not there is
    assigned before the analyses run. *)
Definition required_columns : list string :=
  ["route"; "from_sc_code"; "to_sc_code"; "delivery_time_business_days";
   "total_compensation"; "shipped_date"; "compensation_reason"].

Definition has_column (columns : list string) (name : string) : bool :=
  existsb (String.eqb name) columns.

(** [[even if i % 2 == 0 else odd for i in range(n)]] *)
Definition alternate {A : Type} (even odd : A) (n : nat) : list A :=
  map (fun i => if Nat.even i then even else odd) (seq 0 n).

(** [pd.date_range(start='1/1/2021', end='1/31/2021', freq='D')] *)
Definition date_rng : list Timestamp :=
  map (fun i => mkTimestamp 2021 1 (Z.of_nat (S i))) (seq 0 31).

Definition with_route (r : Shipment Timestamp) (v : string) : Shipment Timestamp :=
  {| shipped_date := shipped_date r;
     compensated_at_date := compensated_at_date r;
     delivery_time_business_days := delivery_time_business_days r;
     has_marketplace_cs_ticket := has_marketplace_cs_ticket r;
     total_compensation := total_compensation r;
     compensation_reason := compensation_reason r;
     route := v;
     from_sc_code := from_sc_code r;
     to_sc_code := to_sc_code r |}.

Definition with_from_sc_code (r : Shipment Timestamp) (v : string) : Shipment Timestamp :=
  {| shipped_date := shipped_date r;
     compensated_at_date := compensated_at_date r;
     delivery_time_business_days := delivery_time_business_days r;
     has_marketplace_cs_ticket := has_marketplace_cs_ticket r;
     total_compensation := total_compensation r;
     compensation_reason := compensation_reason r;
     route := route r;
     from_sc_code := v;
     to_sc_code := to_sc_code r |}.

Definition with_to_sc_code (r : Shipment Timestamp) (v : string) : Shipment Timestamp :=
  {| shipped_date := shipped_date r;
     compensated_at_date := compensated_at_date r;
     delivery_time_business_days := delivery_time_business_days r;
     has_marketplace_cs_ticket := has_marketplace_cs_ticket r;
     total_compensation := total_compensation r;
     compensation_reason := compensation_reason r;
     route := route r;
     from_sc_code := from_sc_code r;
     to_sc_code := v |}.

Definition with_delivery_time (r : Shipment Timestamp) (v : option Q) : Shipment Timestamp :=
  {| shipped_date := shipped_date r;
     compensated_at_date := compensated_at_date r;
     delivery_time_business_days := v;
     has_marketplace_cs_ticket := has_marketplace_cs_ticket r;
     total_compensation := total_compensation r;
     compensation_reason := compensation_reason r;
     route := route r;
     from_sc_code := from_sc_code r;
     to_sc_code := to_sc_code r |}.

Definition with_total_compensation (r : Shipment Timestamp) (v : option Q)
  : Shipment Timestamp :=
  {| shipped_date := shipped_date r;
     compensated_at_date := compensated_at_date r;
     delivery_time_business_days := delivery_time_business_days r;
     has_marketplace_cs_ticket := has_marketplace_cs_ticket r;
     total_compensation := v;
     compensation_reason := compensation_reason r;
     route := route r;
     from_sc_code := from_sc_code r;
     to_sc_code := to_sc_code r |}.

Definition with_shipped_date (r : Shipment Timestamp) (v : Timestamp) : Shipment Timestamp :=
  {| shipped_date := v;
     compensated_at_date := compensated_at_date r;
     delivery_time_business_days := delivery_time_business_days r;
     has_marketplace_cs_ticket := has_marketplace_cs_ticket r;
     total_compensation := total_compensation r;
     compensation_reason := compensation_reason r;
     route := route r;
     from_sc_code := from_sc_code r;
     to_sc_code := to_sc_code r |}.

Definition with_compensation_reason (r : Shipment Timestamp) (v : option string)
  : Shipment Timestamp :=
  {| shipped_date := shipped_date r;
     compensated_at_date := compensated_at_date r;
     delivery_time_business_days := delivery_time_business_days r;
     has_marketplace_cs_ticket := has_marketplace_cs_ticket r;
     total_compensation := total_compensation r;
     compensation_reason := v;
     route := route r;
     from_sc_code := from_sc_code r;
     to_sc_code := to_sc_code r |}.

(** [df[name] = cells], for cells as many as the rows. *)
Definition set_column {A : Type} (set : Shipment Timestamp -> A -> Shipment Timestamp)
    (cells : list A) (df : DataFrame) : DataFrame :=
  {| data := zip_with set (data df) cells; extra := extra df |}.

(** One turn of the loop over [required_columns], on the frame and the names
    of its columns. *)
Definition fill_column (column : string) (state : DataFrame * list string)
  : result2 (DataFrame * list string) :=
  let df := fst state in
  let columns := snd state in
  let n := len df in
  if has_column columns column then inr state
  else if String.eqb column "route" then
    inr (set_column with_route (alternate "IT->FR" "FR->IT" n) df, column :: columns)
  else if String.eqb column "from_sc_code" then
    inr (set_column with_from_sc_code (alternate "LYO1" "XYZ1" n) df, column :: columns)
  else if String.eqb column "to_sc_code" then
    inr (set_column with_to_sc_code (alternate "PAR1" "ABC1" n) df, column :: columns)
  else if String.eqb column "delivery_time_business_days" then
    inr (set_column with_delivery_time
           (map (fun i => Some (inject_Z (Z.of_nat i))) (seq 0 n)) df,
         column :: columns)
  else if String.eqb column "total_compensation" then
    inr (set_column with_total_compensation
           (map (fun i => Some (inject_Z (100 + Z.of_nat i))) (seq 0 n)) df,
         column :: columns)
  else if String.eqb column "shipped_date" then
    if Nat.eqb (length date_rng) n
    then inr (set_column with_shipped_date date_rng df, column :: columns)
    else inl (ValueError "Length of values does not match length of index")
  else if String.eqb column "compensation_reason" then
    inr (set_column with_compensation_reason
           (alternate (Some "Reason A") (Some "Reason B") n) df,
         column :: columns)
  else inr state.

Fixpoint fill_columns (names : list string) (state : DataFrame * list string)
  : result2 (DataFrame * list string) :=
  match names with
  | [] => inr state
  | column :: names' =>
      let!! state := fill_column column state in
      fill_columns names' state
  end.

Definition main (parse_date : string -> option Timestamp)
    (files : list (list (Shipment string))) (columns : list string)
  : result2 (list day_row * list reason_count) :=
  let df := concat files in
  let!! shipped :=
    if has_column columns "shipped_date"
    then lift (mapM (to_datetime parse_date) (map shipped_date df))
    else inl (Raised (KeyError "shipped_date")) in
  let!! compensated :=
    if has_column columns "compensated_at_date"
    then inr (map (to_datetime_coerce parse_date) (map compensated_at_date df))
    else inl (Raised (KeyError "compensated_at_date")) in
  let df := {| data := assign_dates df shipped compensated; extra := ∅ |} in
  let!! state := fill_columns required_columns (df, columns) in
  let df := fst state in
  let!! correlation := lift (analyze_correlation df) in
  let reasons := analyze_compensation_reasons df in
  inr (correlation, reasons).

End sc_review.

(** ** new_cost_per_parcel_analysis.py *)

Module new_cost_per_parcel_analysis.

Definition ORIGINAL_COST_PER_PARCEL : float := Fin (681 # 100).

Definition calculate_metrics (df : DataFrame) (volume_increase_per_day : float)
  : gmap string pyval :=
  let metrics : gmap string pyval := ∅ in
  let total_shipments := len df in
  let avg_delivery_time := mean (map delivery_time_business_days (data df)) in
  let improved_avg_delivery_time := fmul avg_delivery_time (Fin (9 # 10)) in
  let delivery_time_reduction := fsub avg_delivery_time improved_avg_delivery_time in
  let volume_increase_percentage :=
    fmul (fmul delivery_time_reduction volume_increase_per_day) (of_int 100) in
  let new_total_volume :=
    fmul (of_nat total_shipments)
         (fadd (of_int 1) (fdiv volume_increase_percentage (of_int 100))) in
  let original_total_cost := fmul (of_nat total_shipments) ORIGINAL_COST_PER_PARCEL in
  let new_cost_per_parcel := fdiv original_total_cost new_total_volume in
  let metrics := <["average_volume_increase_per_day" := PFloat volume_increase_per_day]>
                 metrics in
  let metrics := <["original_avg_delivery_time" := PFloat avg_delivery_time]> metrics in
  let metrics := <["improved_avg_delivery_time" := PFloat improved_avg_delivery_time]>
                 metrics in
  let metrics := <["original_total_volume" := PInt (Z.of_nat total_shipments)]> metrics in
  let metrics := <["new_total_volume" := PFloat new_total_volume]> metrics in
  let metrics := <["original_total_cost" := PFloat original_total_cost]> metrics in
  let metrics := <["new_cost_per_parcel" := PFloat new_cost_per_parcel]> metrics in
  let metrics := <["volume_increase_percentage" := PFloat volume_increase_percentage]>
                 metrics in
  let metrics := <["delivery_time_reduction" := PFloat delivery_time_reduction]> metrics in
  metrics.

Definition scenarios : list (string * float) :=
  [("pessimistic", Fin (1 # 100)); ("neutral", Fin (5 # 100));
   ("optimistic", Fin (8 # 100))].

(** The loop of [main]: one metrics dict per scenario, in the order of the
    [scenarios] dict. *)
Definition main_results (df : DataFrame) : list (gmap string pyval) :=
  map (fun sv : string * float =>
         let metrics := calculate_metrics df (snd sv) in
         <["scenario" := PStr (fst sv)]> metrics)
      scenarios.

Definition main (parse_date : string -> option Timestamp)
    (files : list (list (Shipment string))) : result (list (gmap string pyval)) :=
  let! df := convert_dates parse_date (concat files) in
  ret (main_results df).

End new_cost_per_parcel_analysis.

(** ** Date conversion with an inferred format

    [pd.to_datetime] converts a column at a time.  Given no [format], it
    takes the first cell of the column that is not missing and guesses a
    format from that text alone.  When it finds one, every cell is read in
    that format, and a text that does not match it is no date, whatever it
    would be by itself; when it finds none, every text is parsed by itself.
    So the parser of a column, the [parse_date] of [convert_dates], is
    decided by the first text of the column, and the two date columns have a
    parser each.  The guess, the reading of a text in a format and the
    parsing of a text by itself are the library's, and are parameters
    here. *)

Module by_column.

Section Inference.

Variable guess_datetime_format : string -> option string.
Variable strptime : string -> string -> option Timestamp.
Variable parse : string -> option Timestamp.

Fixpoint first_non_null (cells : list (option string)) : option string :=
  match cells with
  | [] => None
  | Some text :: _ => Some text
  | None :: cells' => first_non_null cells'
  end.

Definition column_parser (cells : list (option string)) : string -> option Timestamp :=
  match first_non_null cells with
  | Some text =>
      match guess_datetime_format text with
      | Some format => strptime format
      | None => parse
      end
  | None => parse
  end.

(** [pd.to_datetime(column)]: the first text that is no date raises. *)
Definition to_datetime_column (cells : list string) : result (list Timestamp) :=
  mapM (to_datetime (column_parser (map Some cells))) cells.

(** [pd.to_datetime(column, errors='coerce')] *)
Definition to_datetime_column_coerce (cells : list (option string))
  : list (option Timestamp) :=
  map (to_datetime_coerce (column_parser cells)) cells.

Definition convert_dates (rows : list (Shipment string)) : result DataFrame :=
  let! shipped := to_datetime_column (map shipped_date rows) in
  let comp := to_datetime_column_coerce (map compensated_at_date rows) in
  ret {| data := assign_dates rows shipped comp; extra := ∅ |}.

(** [load_and_preprocess_data] of delivery_time.py *)
Definition load_and_preprocess_data (files : list (list (Shipment string)))
  : option DataFrame :=
  let df := concat files in
  match convert_dates df with
  | inr df => Some df
  | inl _ => None
  end.

(** [preprocess_data] of compensation_analysis.py *)
Definition preprocess_data (df : list (Shipment string)) : result DataFrame :=
  convert_dates df.

End Inference.

End by_column.

(** * Properties *)

Local Open Scope Q_scope.

(** ** Lists, sums and means *)

Definition present {A : Type} (c : option A) : bool :=
  match c with
  | Some _ => true
  | None => false
  end.

(** The number of rows with a compensation amount. *)
Definition count_compensated (df : DataFrame) : nat :=
  length (filter (fun r => present (total_compensation r)) (data df)).

Lemma select_notnull {A B : Type} (f : A -> option B) (l : list A) :
  select (notnull (map f l)) l = filter (fun r => present (f r)) l.
Proof.
  induction l as [|a l IH]; simpl; [reflexivity|].
  destruct (f a); simpl; rewrite IH; reflexivity.
Qed.

Lemma data_dropna_total_compensation df :
  data (dropna_total_compensation df) =
  filter (fun r => present (total_compensation r)) (data df).
Proof. unfold dropna_total_compensation, loc. simpl. apply select_notnull. Qed.

Lemma len_dropna_total_compensation df :
  len (dropna_total_compensation df) = count_compensated df.
Proof.
  unfold len, count_compensated. rewrite data_dropna_total_compensation. reflexivity.
Qed.

Lemma dropna_all_present {A B : Type} (f : A -> option B) (l : list A) :
  Forall (fun r => f r <> None) l -> length (dropna (map f l)) = length l.
Proof.
  induction 1 as [|a l Ha _ IH]; simpl; [reflexivity|].
  destruct (f a); [simpl; rewrite IH; reflexivity | congruence].
Qed.

Lemma count_true_notnull {A : Type} (s : list (option A)) :
  count_true (notnull s) = length (dropna s).
Proof.
  unfold count_true. induction s as [|[a|] s IH]; simpl; [reflexivity| |assumption].
  rewrite IH. reflexivity.
Qed.

Lemma dropna_map_filter {A B : Type} (f : A -> option B) (l : list A) :
  dropna (map f (filter (fun r => present (f r)) l)) = dropna (map f l).
Proof.
  induction l as [|a l IH]; simpl; [reflexivity|].
  destruct (f a) eqn:E; simpl; rewrite ?E, IH; reflexivity.
Qed.

Lemma length_dropna_filter {A B : Type} (f : A -> option B) (l : list A) :
  length (dropna (map f l)) = length (filter (fun r => present (f r)) l).
Proof.
  induction l as [|a l IH]; simpl; [reflexivity|].
  destruct (f a); simpl; rewrite IH; reflexivity.
Qed.

Lemma inject_nat_pos (n : nat) : (0 < n)%nat -> 0 < inject_Z (Z.of_nat n).
Proof. intros H. change 0%Q with (inject_Z 0). rewrite <- Zlt_Qlt. lia. Qed.

Lemma inject_nat_nonneg (n : nat) : 0 <= inject_Z (Z.of_nat n).
Proof. change 0%Q with (inject_Z 0). rewrite <- Zle_Qle. lia. Qed.

Lemma inject_nat_le (n m : nat) :
  (n <= m)%nat -> inject_Z (Z.of_nat n) <= inject_Z (Z.of_nat m).
Proof. intros H. rewrite <- Zle_Qle. lia. Qed.

Lemma Qzero_false (q : Q) : ~ q == 0 -> Qzero q = false.
Proof.
  intros H. unfold Qzero. destruct (Qeq_bool q 0) eqn:E; [|reflexivity].
  apply Qeq_bool_eq in E. contradiction.
Qed.

Lemma mean_values_nonempty (l : list Q) :
  l <> [] -> mean_values l = Fin (Qsum l / inject_Z (Z.of_nat (length l))).
Proof. destruct l; [congruence | reflexivity]. Qed.

Lemma mean_bool_nonempty (s : list bool) :
  s <> [] ->
  mean_bool s = Fin (inject_Z (Z.of_nat (count_true s)) / inject_Z (Z.of_nat (length s))).
Proof. destruct s; [congruence | reflexivity]. Qed.

Lemma mean_all_present {A : Type} (f : A -> option Q) (l : list A) :
  l <> [] -> Forall (fun r => f r <> None) l ->
  mean (map f l) = Fin (Qsum (dropna (map f l)) / inject_Z (Z.of_nat (length l))).
Proof.
  intros Hne Hall. unfold mean. rewrite mean_values_nonempty.
  - rewrite (dropna_all_present f l Hall). reflexivity.
  - intros E. apply (f_equal (@length Q)) in E.
    rewrite (dropna_all_present f l Hall) in E. destruct l; [congruence | discriminate].
Qed.

(** ** The metrics aggregator of delivery_time.py *)

(** The frame as [calculate_metrics] and [analyze_to_text] leave it. *)
Definition with_resolution_time (df : DataFrame) : DataFrame :=
  setitem df "resolution_time" (NumCol (map resolution_days (data df))).

Lemma getitem_num_setitem df name c :
  getitem_num (setitem df name (NumCol c)) name = ret c.
Proof. unfold getitem_num, setitem. simpl. rewrite lookup_insert_eq. reflexivity. Qed.

Lemma getitem_str_setitem df name c :
  getitem_str (setitem df name (StrCol c)) name = ret c.
Proof. unfold getitem_str, setitem. simpl. rewrite lookup_insert_eq. reflexivity. Qed.

(** The call always returns; it returns the frame with the added column and
    a dict with these nine entries. *)
Lemma calculate_metrics_entries df :
  exists m,
    delivery_time.calculate_metrics df = inr (m, with_resolution_time df) /\
    m !! "avg_delivery_time" =
      Some (PFloat (mean (map delivery_time_business_days (data df)))) /\
    m !! "on_time_delivery_rate" =
      Some (PFloat (fmul (mean_bool (le_scalar (map delivery_time_business_days (data df)) 7))
                         (of_int 100))) /\
    m !! "late_delivery_rate" =
      Some (PFloat (fmul (mean_bool (gt_scalar (map delivery_time_business_days (data df)) 7))
                         (of_int 100))) /\
    m !! "cs_ticket_rate" =
      Some (PFloat (fmul (mean_bool (map has_marketplace_cs_ticket (data df))) (of_int 100))) /\
    m !! "compensation_rate" =
      Some (PFloat (fmul (mean_bool (notnull (map total_compensation (data df))))
                         (of_int 100))) /\
    m !! "avg_compensation_amount" =
      Some (PFloat (mean (map total_compensation (data df)))) /\
    m !! "count_parcels" = Some (PInt (Z.of_nat (length (data df)))) /\
    m !! "shipment_weight" =
      Some (if Nat.eqb (count_compensated df) 0 then PInt 0
            else PFloat (Fin (inject_Z (Z.of_nat (length (data df)))
                              / inject_Z (Z.of_nat (count_compensated df))
                              * inject_Z 100))) /\
    m !! "resolution_time_avg" = Some (PFloat (mean (map resolution_days (data df)))).
Proof.
  unfold delivery_time.calculate_metrics. cbv zeta.
  rewrite len_dropna_total_compensation, getitem_num_setitem.
  destruct (Nat.eqb (count_compensated df) 0) eqn:E; simpl.
  - eexists. repeat split; reflexivity.
  - unfold int_truediv. apply Nat.eqb_neq in E.
    destruct (Z.of_nat (count_compensated df) =? 0)%Z eqn:E2; [apply Z.eqb_eq in E2; lia|].
    simpl. eexists. repeat split; reflexivity.
Qed.

Lemma analyze_to_text_returns df :
  exists r,
    delivery_time.analyze_to_text df = inr (r, with_resolution_time df) /\
    delivery_time.compensation_rate r =
      mean_bool (notnull (map total_compensation (data df))).
Proof.
  unfold delivery_time.analyze_to_text. cbv zeta. rewrite getitem_num_setitem. simpl.
  eexists. split; reflexivity.
Qed.

(** C2: the shipment-weight metric is (rows / compensated rows) * 100 when
    some row is compensated and the integer 0 when none is, and the call
    returns without raising, whatever the table. *)
Theorem shipment_weight_guarded (df : DataFrame) :
  exists m df',
    delivery_time.calculate_metrics df = inr (m, df') /\
    m !! "shipment_weight" =
      Some (if Nat.eqb (count_compensated df) 0 then PInt 0
            else PFloat (Fin (inject_Z (Z.of_nat (length (data df)))
                              / inject_Z (Z.of_nat (count_compensated df))
                              * inject_Z 100))).
Proof.
  destruct (calculate_metrics_entries df) as (m & Hm & _ & _ & _ & _ & _ & _ & _ & Hw & _).
  exists m, (with_resolution_time df). split; assumption.
Qed.

(** C9: on a partition with no rows the call returns, and the seven mean and
    rate metrics are all NaN. *)
Theorem empty_partition_no_data (df : DataFrame) :
  data df = [] ->
  exists m df',
    delivery_time.calculate_metrics df = inr (m, df') /\
    m !! "avg_delivery_time" = Some (PFloat NaN) /\
    m !! "on_time_delivery_rate" = Some (PFloat NaN) /\
    m !! "late_delivery_rate" = Some (PFloat NaN) /\
    m !! "cs_ticket_rate" = Some (PFloat NaN) /\
    m !! "compensation_rate" = Some (PFloat NaN) /\
    m !! "avg_compensation_amount" = Some (PFloat NaN) /\
    m !! "resolution_time_avg" = Some (PFloat NaN).
Proof.
  intros Hempty.
  destruct (calculate_metrics_entries df)
    as (m & Hm & Ha & Ho & Hl & Ht & Hc & Hp & _ & _ & Hr).
  rewrite Hempty in *. simpl in *.
  exists m, (with_resolution_time df). repeat split; assumption.
Qed.

Definition no_rows : DataFrame := {| data := []; extra := ∅ |}.

Lemma empty_partition_no_data_witness :
  exists m df',
    delivery_time.calculate_metrics no_rows = inr (m, df') /\
    m !! "avg_delivery_time" = Some (PFloat NaN) /\
    m !! "on_time_delivery_rate" = Some (PFloat NaN) /\
    m !! "late_delivery_rate" = Some (PFloat NaN) /\
    m !! "cs_ticket_rate" = Some (PFloat NaN) /\
    m !! "compensation_rate" = Some (PFloat NaN) /\
    m !! "avg_compensation_amount" = Some (PFloat NaN) /\
    m !! "resolution_time_avg" = Some (PFloat NaN).
Proof. apply (empty_partition_no_data no_rows). reflexivity. Defined.

(** Rows for the examples: shipped on [y]-[m]-[d], never given a
    compensation date, no ticket. *)
Definition parcel (y m d : Z) (days amount : option Q) (reason : option string)
    (from to : string) : Shipment Timestamp :=
  {| shipped_date := mkTimestamp y m d;
     compensated_at_date := None;
     delivery_time_business_days := days;
     has_marketplace_cs_ticket := false;
     total_compensation := amount;
     compensation_reason := reason;
     route := "IT->FR";
     from_sc_code := from;
     to_sc_code := to |}.

Definition one_compensated : DataFrame :=
  {| data := [parcel 2023 1 15 (Some 2) (Some 10) (Some "Lost") "LYO1" "PAR1"];
     extra := ∅ |}.

(** C3, as stated, fails: on a one-row frame without added columns the call
    returns a frame that differs from its input (it has the column
    [resolution_time]). *)
Lemma calculate_metrics_adds_column :
  ~ (forall df m df', delivery_time.calculate_metrics df = inr (m, df') -> df' = df).
Proof.
  intros H.
  destruct (calculate_metrics_entries one_compensated) as (m & Hm & _).
  specialize (H _ _ _ Hm).
  apply (f_equal (fun d => extra d !! "resolution_time")) in H.
  discriminate H.
Qed.

(** C3, amended: [calculate_metrics] and [analyze_to_text] both return, and
    leave the input frame with its rows unchanged and with one column
    assigned, [resolution_time] (the days from shipment to compensation,
    missing where there is no compensation date); every other added column
    is as it was. *)
Theorem metrics_frame_effect (df : DataFrame) :
  exists m r df',
    delivery_time.calculate_metrics df = inr (m, df') /\
    delivery_time.analyze_to_text df = inr (r, df') /\
    data df' = data df /\
    extra df' = <["resolution_time" := NumCol (map resolution_days (data df))]> (extra df).
Proof.
  destruct (calculate_metrics_entries df) as (m & Hm & _).
  destruct (analyze_to_text_returns df) as (r & Hr & _).
  exists m, r, (with_resolution_time df). repeat split; assumption.
Qed.

(** C4, as stated, fails for the aggregator: with one row, which is
    compensated, its [compensation_rate] is 100, outside [0,1]. *)
Lemma compensation_rate_is_percentage :
  ~ (forall df, data df <> [] ->
       exists m df' q,
         delivery_time.calculate_metrics df = inr (m, df') /\
         m !! "compensation_rate" = Some (PFloat (Fin q)) /\
         0 <= q /\ q <= 1 /\
         q == inject_Z (Z.of_nat (count_compensated df))
              / inject_Z (Z.of_nat (length (data df)))).
Proof.
  intros H.
  destruct (H one_compensated ltac:(discriminate)) as (m & df' & q & Hm & Hq & _ & Hle & _).
  destruct (calculate_metrics_entries one_compensated)
    as (m' & Hm' & _ & _ & _ & _ & Hc & _).
  rewrite Hm in Hm'. injection Hm' as <- _.
  rewrite Hq in Hc. injection Hc as ->.
  revert Hle. vm_compute. intros Hle. apply Hle. reflexivity.
Qed.

(** C4, amended: for a non-empty table the compensation rate of
    [analyze_to_text] is the fraction (rows with a compensation amount) /
    (rows), in [0,1]; the [compensation_rate] of [calculate_metrics] is that
    fraction times 100, a percentage in [0,100]. *)
Theorem compensation_rate_fraction (df : DataFrame) :
  data df <> [] ->
  exists m r df' q,
    delivery_time.calculate_metrics df = inr (m, df') /\
    delivery_time.analyze_to_text df = inr (r, df') /\
    delivery_time.compensation_rate r = Fin q /\
    m !! "compensation_rate" = Some (PFloat (Fin (q * inject_Z 100))) /\
    q == inject_Z (Z.of_nat (count_compensated df))
         / inject_Z (Z.of_nat (length (data df))) /\
    0 <= q /\ q <= 1 /\
    0 <= q * inject_Z 100 /\ q * inject_Z 100 <= 100.
Proof.
  intros Hne.
  destruct (calculate_metrics_entries df) as (m & Hm & _ & _ & _ & _ & Hc & _).
  destruct (analyze_to_text_returns df) as (r & Hr & Hrate).
  assert (Hmask : notnull (map total_compensation (data df)) <> []).
  { destruct (data df); [congruence | discriminate]. }
  rewrite (mean_bool_nonempty _ Hmask), count_true_notnull, length_dropna_filter in Hc, Hrate.
  fold (count_compensated df) in Hc, Hrate.
  replace (length (notnull (map total_compensation (data df)))) with (length (data df))
    in Hc, Hrate by (unfold notnull; rewrite !length_map; reflexivity).
  assert (Hn : 0 < inject_Z (Z.of_nat (length (data df)))).
  { apply inject_nat_pos. destruct (data df); [congruence | simpl; lia]. }
  assert (Hk : 0 <= inject_Z (Z.of_nat (count_compensated df)))
    by apply inject_nat_nonneg.
  assert (Hkn : inject_Z (Z.of_nat (count_compensated df))
                <= inject_Z (Z.of_nat (length (data df)))).
  { apply inject_nat_le. unfold count_compensated. apply filter_length_le. }
  set (n := inject_Z (Z.of_nat (length (data df)))) in *.
  set (k := inject_Z (Z.of_nat (count_compensated df))) in *.
  assert (H0 : 0 <= k / n) by (apply Qle_shift_div_l; [assumption | lra]).
  assert (H1 : k / n <= 1) by (apply Qle_shift_div_r; [assumption | lra]).
  exists m, r, (with_resolution_time df), (k / n).
  repeat split; try assumption; try reflexivity.
  - change (inject_Z 100) with 100. lra.
  - change (inject_Z 100) with 100. lra.
Qed.

Lemma compensation_rate_fraction_witness :
  exists m r df' q,
    delivery_time.calculate_metrics one_compensated = inr (m, df') /\
    delivery_time.analyze_to_text one_compensated = inr (r, df') /\
    delivery_time.compensation_rate r = Fin q /\
    m !! "compensation_rate" = Some (PFloat (Fin (q * inject_Z 100))) /\
    q == inject_Z (Z.of_nat (count_compensated one_compensated))
         / inject_Z (Z.of_nat (length (data one_compensated))) /\
    0 <= q /\ q <= 1 /\
    0 <= q * inject_Z 100 /\ q * inject_Z 100 <= 100.
Proof. apply (compensation_rate_fraction one_compensated). discriminate. Defined.

(** ** The cost projection of new_cost_per_parcel_analysis.py *)

(** The formula chain, on a mean [avg] and a row count [n]. *)
Definition improved_of (avg : float) : float := fmul avg (Fin (9 # 10)).
Definition reduction_of (avg : float) : float := fsub avg (improved_of avg).
Definition increase_of (avg rate : float) : float :=
  fmul (fmul (reduction_of avg) rate) (of_int 100).
Definition volume_of (n : nat) (increase : float) : float :=
  fmul (of_nat n) (fadd (of_int 1) (fdiv increase (of_int 100))).
Definition cost_of (n : nat) : float :=
  fmul (of_nat n) new_cost_per_parcel_analysis.ORIGINAL_COST_PER_PARCEL.

Lemma projection_entries (df : DataFrame) (rate : float) :
  let m := new_cost_per_parcel_analysis.calculate_metrics df rate in
  let avg := mean (map delivery_time_business_days (data df)) in
  let n := length (data df) in
  m !! "average_volume_increase_per_day" = Some (PFloat rate) /\
  m !! "original_avg_delivery_time" = Some (PFloat avg) /\
  m !! "improved_avg_delivery_time" = Some (PFloat (improved_of avg)) /\
  m !! "delivery_time_reduction" = Some (PFloat (reduction_of avg)) /\
  m !! "volume_increase_percentage" = Some (PFloat (increase_of avg rate)) /\
  m !! "original_total_volume" = Some (PInt (Z.of_nat n)) /\
  m !! "new_total_volume" = Some (PFloat (volume_of n (increase_of avg rate))) /\
  m !! "original_total_cost" = Some (PFloat (cost_of n)) /\
  m !! "new_cost_per_parcel" =
    Some (PFloat (fdiv (cost_of n) (volume_of n (increase_of avg rate)))).
Proof. cbv zeta. repeat split; reflexivity. Qed.

(** [main] runs the projection at the three fixed rates, and tags each dict
    with its scenario. *)
Lemma main_results_scenarios (df : DataFrame) :
  new_cost_per_parcel_analysis.main_results df =
    [ <["scenario" := PStr "pessimistic"]>
        (new_cost_per_parcel_analysis.calculate_metrics df (Fin (1 # 100)));
      <["scenario" := PStr "neutral"]>
        (new_cost_per_parcel_analysis.calculate_metrics df (Fin (5 # 100)));
      <["scenario" := PStr "optimistic"]>
        (new_cost_per_parcel_analysis.calculate_metrics df (Fin (8 # 100))) ].
Proof. reflexivity. Qed.

Lemma improved_of_fin (a : Q) : improved_of (Fin a) = Fin (a * (9 # 10)).
Proof. reflexivity. Qed.

Lemma reduction_of_fin (a : Q) : reduction_of (Fin a) = Fin (a - a * (9 # 10)).
Proof. reflexivity. Qed.

Lemma increase_of_fin (a r : Q) :
  increase_of (Fin a) (Fin r) = Fin ((a - a * (9 # 10)) * r * inject_Z 100).
Proof. reflexivity. Qed.

Lemma volume_of_fin (n : nat) (i : Q) :
  volume_of n (Fin i) =
  Fin (inject_Z (Z.of_nat n) * (inject_Z 1 + i / inject_Z 100)).
Proof. reflexivity. Qed.

Lemma cost_of_fin (n : nat) : cost_of n = Fin (inject_Z (Z.of_nat n) * (681 # 100)).
Proof. reflexivity. Qed.

Lemma fdiv_positive (c v : Q) :
  0 < c -> fdiv (Fin c) (Fin v) = if Qzero v then Inf false else Fin (c / v).
Proof.
  intros Hc. unfold fdiv.
  assert (Hc0 : Qzero c = false) by (apply Qzero_false; lra).
  assert (Hcn : Qneg c = false).
  { unfold Qneg. apply Z.ltb_ge. unfold Qlt in Hc. simpl in Hc. lia. }
  rewrite Hc0, Hcn. reflexivity.
Qed.

(** C1: the fixed scenarios are the rates 0.01, 0.05 and 0.08, and for a
    non-empty table whose delivery times are all numeric and any rate [r] the
    dict holds the formula chain exactly: improved = 0.9 * avg,
    reduction = avg - improved, increase = reduction * r * 100,
    new volume = rows * (1 + increase / 100), cost = rows * 6.81, and the new
    cost per parcel is cost / new volume (an infinity if that volume is
    zero); and recomputing the new volume from the stored increase and row
    count gives the stored new volume. *)
Theorem cost_projection_formula_chain (df : DataFrame) (r : Q) :
  data df <> [] ->
  Forall (fun s => delivery_time_business_days s <> None) (data df) ->
  let m := new_cost_per_parcel_analysis.calculate_metrics df (Fin r) in
  let rows := length (data df) in
  let n := inject_Z (Z.of_nat rows) in
  new_cost_per_parcel_analysis.scenarios =
    [("pessimistic", Fin (1 # 100)); ("neutral", Fin (5 # 100));
     ("optimistic", Fin (8 # 100))] /\
  exists avg improved reduction increase volume cost : Q,
    avg == Qsum (dropna (map delivery_time_business_days (data df))) / n /\
    m !! "original_avg_delivery_time" = Some (PFloat (Fin avg)) /\
    m !! "improved_avg_delivery_time" = Some (PFloat (Fin improved)) /\
    improved == (9 # 10) * avg /\
    m !! "delivery_time_reduction" = Some (PFloat (Fin reduction)) /\
    reduction == avg - improved /\
    m !! "volume_increase_percentage" = Some (PFloat (Fin increase)) /\
    increase == reduction * r * 100 /\
    m !! "original_total_volume" = Some (PInt (Z.of_nat rows)) /\
    m !! "new_total_volume" = Some (PFloat (Fin volume)) /\
    volume == n * (1 + increase / 100) /\
    m !! "original_total_cost" = Some (PFloat (Fin cost)) /\
    cost == n * (681 # 100) /\
    m !! "new_cost_per_parcel" =
      Some (PFloat (if Qzero volume then Inf false else Fin (cost / volume))) /\
    volume_of rows (Fin increase) = Fin volume.
Proof.
  intros Hne Hnum m rows n. split; [reflexivity|].
  destruct (projection_entries df (Fin r))
    as (_ & Havg & Himp & Hred & Hinc & Hrows & Hvol & Hcost & Hnew).
  fold m in Havg, Himp, Hred, Hinc, Hrows, Hvol, Hcost, Hnew.
  rewrite (mean_all_present _ _ Hne Hnum) in Havg, Himp, Hred, Hinc, Hvol, Hnew.
  fold rows n in Havg, Himp, Hred, Hinc, Hrows, Hvol, Hcost, Hnew.
  set (avg := Qsum (dropna (map delivery_time_business_days (data df))) / n) in *.
  assert (Hn : 0 < n).
  { apply inject_nat_pos. subst rows. destruct (data df); [congruence | simpl; lia]. }
  rewrite improved_of_fin in Himp. rewrite reduction_of_fin in Hred.
  rewrite increase_of_fin in Hinc, Hvol, Hnew.
  rewrite volume_of_fin in Hvol, Hnew. rewrite cost_of_fin in Hcost, Hnew.
  fold n in Hvol, Hcost, Hnew.
  rewrite fdiv_positive in Hnew by lra.
  exists avg, (avg * (9 # 10)), (avg - avg * (9 # 10)),
    ((avg - avg * (9 # 10)) * r * inject_Z 100),
    (n * (inject_Z 1 + (avg - avg * (9 # 10)) * r * inject_Z 100 / inject_Z 100)),
    (n * (681 # 100)).
  repeat split; try assumption; try reflexivity.
  ring.
Qed.

Definition three_parcels : DataFrame :=
  {| data := [parcel 2023 1 15 (Some 2) (Some 10) (Some "Lost") "LYO1" "PAR1";
              parcel 2024 1 15 (Some 4) (Some 30) (Some "Lost") "XYZ1" "ABC1";
              parcel 2024 2 1 (Some 6) (Some 20) (Some "Damaged") "LYO1" "PAR1"];
     extra := ∅ |}.

Lemma cost_projection_formula_chain_witness :
  let m := new_cost_per_parcel_analysis.calculate_metrics three_parcels (Fin (5 # 100)) in
  let rows := length (data three_parcels) in
  let n := inject_Z (Z.of_nat rows) in
  new_cost_per_parcel_analysis.scenarios =
    [("pessimistic", Fin (1 # 100)); ("neutral", Fin (5 # 100));
     ("optimistic", Fin (8 # 100))] /\
  exists avg improved reduction increase volume cost : Q,
    avg == Qsum (dropna (map delivery_time_business_days (data three_parcels))) / n /\
    m !! "original_avg_delivery_time" = Some (PFloat (Fin avg)) /\
    m !! "improved_avg_delivery_time" = Some (PFloat (Fin improved)) /\
    improved == (9 # 10) * avg /\
    m !! "delivery_time_reduction" = Some (PFloat (Fin reduction)) /\
    reduction == avg - improved /\
    m !! "volume_increase_percentage" = Some (PFloat (Fin increase)) /\
    increase == reduction * (5 # 100) * 100 /\
    m !! "original_total_volume" = Some (PInt (Z.of_nat rows)) /\
    m !! "new_total_volume" = Some (PFloat (Fin volume)) /\
    volume == n * (1 + increase / 100) /\
    m !! "original_total_cost" = Some (PFloat (Fin cost)) /\
    cost == n * (681 # 100) /\
    m !! "new_cost_per_parcel" =
      Some (PFloat (if Qzero volume then Inf false else Fin (cost / volume))) /\
    volume_of rows (Fin increase) = Fin volume.
Proof.
  apply (cost_projection_formula_chain three_parcels (5 # 100)).
  - discriminate.
  - repeat constructor; discriminate.
Defined.

(** The neutral scenario on three parcels delivered in 2, 4 and 6 days:
    mean 4, improved 3.6, increase 2 percent, volume 3.06, cost 20.43. *)
Example neutral_three_parcels :
  let m := new_cost_per_parcel_analysis.calculate_metrics three_parcels (Fin (5 # 100)) in
  exists improved volume cost per_parcel : Q,
    m !! "improved_avg_delivery_time" = Some (PFloat (Fin improved)) /\
    improved == 36 # 10 /\
    m !! "new_total_volume" = Some (PFloat (Fin volume)) /\
    volume == 306 # 100 /\
    m !! "original_total_cost" = Some (PFloat (Fin cost)) /\
    cost == 2043 # 100 /\
    m !! "new_cost_per_parcel" = Some (PFloat (Fin per_parcel)) /\
    per_parcel == 2043 # 306.
Proof.
  cbv zeta. do 4 eexists. repeat split; try (vm_compute; reflexivity).
Qed.

Lemma Qdiv_le_divisor (c v w : Q) : 0 <= c -> 0 < v -> v <= w -> c / w <= c / v.
Proof.
  intros Hc Hv Hvw.
  apply Qle_shift_div_r; [lra|].
  assert (Hq : 0 <= c / v) by (apply Qle_shift_div_l; lra).
  assert (E : c == c / v * v) by (field; lra).
  rewrite E at 1.
  rewrite (Qmult_comm _ v), (Qmult_comm _ w).
  apply Qmult_le_compat_r; assumption.
Qed.

(** C10, amended: for a non-empty table with a non-negative mean delivery
    time and a non-negative rate, the improved time is at most the mean, the
    volume increase is non-negative, the new volume is at least the row
    count, and so the new cost per parcel is at most the one that the same
    table gets at rate 0.  At rate 0 the new volume is the row count, and the
    cost per parcel is the original total cost divided by the row count:
    6.81 before rounding.  What rounding makes of that quotient is the
    subject of [binary64] below; the four orderings stated here are kept by
    a rounding that is monotone. *)
Theorem cost_projection_bounds (df : DataFrame) (avg r : Q) :
  data df <> [] ->
  mean (map delivery_time_business_days (data df)) = Fin avg ->
  0 <= avg ->
  0 <= r ->
  let m := new_cost_per_parcel_analysis.calculate_metrics df (Fin r) in
  let m0 := new_cost_per_parcel_analysis.calculate_metrics df (Fin 0) in
  exists improved increase volume per_parcel volume0 per_parcel0 : Q,
    m !! "original_avg_delivery_time" = Some (PFloat (Fin avg)) /\
    m !! "improved_avg_delivery_time" = Some (PFloat (Fin improved)) /\
    m !! "volume_increase_percentage" = Some (PFloat (Fin increase)) /\
    m !! "new_total_volume" = Some (PFloat (Fin volume)) /\
    m !! "new_cost_per_parcel" = Some (PFloat (Fin per_parcel)) /\
    m0 !! "new_total_volume" = Some (PFloat (Fin volume0)) /\
    m0 !! "new_cost_per_parcel" = Some (PFloat (Fin per_parcel0)) /\
    improved <= avg /\
    0 <= increase /\
    inject_Z (Z.of_nat (length (data df))) <= volume /\
    volume0 == inject_Z (Z.of_nat (length (data df))) /\
    per_parcel <= per_parcel0.
Proof.
  intros Hne Hmean Havg0 Hr0 m m0.
  destruct (projection_entries df (Fin r))
    as (_ & Havg & Himp & _ & Hinc & _ & Hvol & _ & Hnew).
  destruct (projection_entries df (Fin 0))
    as (_ & _ & _ & _ & _ & _ & Hvol0 & _ & Hnew0).
  fold m in Havg, Himp, Hinc, Hvol, Hnew. fold m0 in Hvol0, Hnew0.
  rewrite Hmean in Havg, Himp, Hinc, Hvol, Hnew, Hvol0, Hnew0.
  rewrite improved_of_fin in Himp.
  rewrite increase_of_fin in Hinc, Hvol, Hnew, Hvol0, Hnew0.
  rewrite volume_of_fin in Hvol, Hnew, Hvol0, Hnew0. rewrite cost_of_fin in Hnew, Hnew0.
  set (n := inject_Z (Z.of_nat (length (data df)))) in *.
  assert (Hn : 0 < n).
  { apply inject_nat_pos. destruct (data df); [congruence | simpl; lia]. }
  change (inject_Z 100) with 100 in *. change (inject_Z 1) with 1 in *.
  set (increase := (avg - avg * (9 # 10)) * r * 100) in *.
  set (volume := n * (1 + increase / 100)) in *.
  set (volume0 := n * (1 + (avg - avg * (9 # 10)) * 0 * 100 / 100)) in *.
  assert (Hinc0 : 0 <= increase).
  { subst increase.
    assert (H : 0 <= (avg - avg * (9 # 10)) * r) by (apply Qmult_le_0_compat; lra).
    lra. }
  assert (Hvoln : n <= volume).
  { subst volume.
    assert (H : 0 <= n * (increase / 100)).
    { apply Qmult_le_0_compat; [lra|]. apply Qle_shift_div_l; lra. }
    lra. }
  assert (Hvol0n : volume0 == n) by (subst volume0; field).
  rewrite fdiv_positive in Hnew, Hnew0 by lra.
  rewrite Qzero_false in Hnew by lra.
  rewrite Qzero_false in Hnew0 by (rewrite Hvol0n; lra).
  exists (avg * (9 # 10)), increase, volume, (n * (681 # 100) / volume),
    volume0, (n * (681 # 100) / volume0).
  repeat split; try assumption.
  - lra.
  - apply Qdiv_le_divisor; [lra | rewrite Hvol0n; lra | rewrite Hvol0n; exact Hvoln].
Qed.

Lemma cost_projection_bounds_witness :
  let m := new_cost_per_parcel_analysis.calculate_metrics three_parcels (Fin (5 # 100)) in
  let m0 := new_cost_per_parcel_analysis.calculate_metrics three_parcels (Fin 0) in
  exists improved increase volume per_parcel volume0 per_parcel0 : Q,
    m !! "original_avg_delivery_time" = Some (PFloat (Fin (12 / 3))) /\
    m !! "improved_avg_delivery_time" = Some (PFloat (Fin improved)) /\
    m !! "volume_increase_percentage" = Some (PFloat (Fin increase)) /\
    m !! "new_total_volume" = Some (PFloat (Fin volume)) /\
    m !! "new_cost_per_parcel" = Some (PFloat (Fin per_parcel)) /\
    m0 !! "new_total_volume" = Some (PFloat (Fin volume0)) /\
    m0 !! "new_cost_per_parcel" = Some (PFloat (Fin per_parcel0)) /\
    improved <= 12 / 3 /\
    0 <= increase /\
    inject_Z (Z.of_nat (length (data three_parcels))) <= volume /\
    volume0 == inject_Z (Z.of_nat (length (data three_parcels))) /\
    per_parcel <= per_parcel0.
Proof.
  apply (cost_projection_bounds three_parcels (12 / 3) (5 # 100)).
  - discriminate.
  - vm_compute. reflexivity.
  - vm_compute. discriminate.
  - vm_compute. discriminate.
Defined.

(** ** Date preprocessing *)

Section Coercion.

Variable parse_date : string -> option Timestamp.

(** What preprocessing makes of one row: the compensation date is the
    parsed text of the row's own cell, missing when the cell is empty or
    is no date; nothing else changes. *)
Definition preprocessed (r : Shipment string) (r' : Shipment Timestamp) : Prop :=
  parse_date (shipped_date r) = Some (shipped_date r') /\
  compensated_at_date r' =
    match compensated_at_date r with
    | Some text => parse_date text
    | None => None
    end /\
  delivery_time_business_days r' = delivery_time_business_days r /\
  has_marketplace_cs_ticket r' = has_marketplace_cs_ticket r /\
  total_compensation r' = total_compensation r /\
  compensation_reason r' = compensation_reason r /\
  route r' = route r /\
  from_sc_code r' = from_sc_code r /\
  to_sc_code r' = to_sc_code r.

Lemma shipped_dates_parse (rows : list (Shipment string)) :
  Forall (fun r => parse_date (shipped_date r) <> None) rows ->
  exists shipped,
    mapM (to_datetime parse_date) (map shipped_date rows) = inr shipped /\
    Forall2 (fun r s => parse_date (shipped_date r) = Some s) rows shipped.
Proof.
  induction 1 as [|r rows Hr _ (shipped & Hm & Hall)]; simpl.
  - exists []. split; [reflexivity | constructor].
  - unfold to_datetime at 1. destruct (parse_date (shipped_date r)) as [t|] eqn:E;
      [|congruence].
    simpl. rewrite Hm. simpl. exists (t :: shipped). split; [reflexivity|].
    constructor; assumption.
Qed.

Lemma assign_dates_preprocessed (rows : list (Shipment string)) (shipped : list Timestamp) :
  Forall2 (fun r s => parse_date (shipped_date r) = Some s) rows shipped ->
  Forall2 preprocessed rows
    (assign_dates rows shipped
       (map (to_datetime_coerce parse_date) (map compensated_at_date rows))).
Proof.
  induction 1 as [|r s rows shipped Hs _ IH]; simpl; constructor; [|exact IH].
  unfold preprocessed. simpl. repeat split; try reflexivity. exact Hs.
Qed.

End Coercion.

(** A parser that knows three texts, for the examples. *)
Definition parse_sample (s : string) : option Timestamp :=
  if String.eqb s "2023-01-15" then Some (mkTimestamp 2023 1 15)
  else if String.eqb s "2023-01-20" then Some (mkTimestamp 2023 1 20)
  else if String.eqb s "2024-01-15" then Some (mkTimestamp 2024 1 15)
  else None.

Definition raw (shipped : string) (comp : option string) (amount : option Q)
  : Shipment string :=
  {| shipped_date := shipped;
     compensated_at_date := comp;
     delivery_time_business_days := Some 3;
     has_marketplace_cs_ticket := false;
     total_compensation := amount;
     compensation_reason := None;
     route := "IT->FR";
     from_sc_code := "LYO1";
     to_sc_code := "PAR1" |}.

Definition raw_files : list (list (Shipment string)) :=
  [ [raw "2023-01-15" (Some "2023-01-20") (Some 10);
     raw "2024-01-15" (Some "not a date") (Some 5)];
    [raw "2023-01-20" None None] ].

(** *** The compensation dates, column by column *)

Lemma mapM_length {A B : Type} (f : A -> result B) (l : list A) (l' : list B) :
  mapM f l = inr l' -> length l' = length l.
Proof.
  revert l'. induction l as [|a l IH]; intros l'; simpl.
  - intros H. injection H as <-. reflexivity.
  - destruct (f a) as [e|b]; simpl; [discriminate|].
    destruct (mapM f l) as [e|bs]; simpl; [discriminate|].
    intros H. injection H as <-. simpl. f_equal. apply IH. reflexivity.
Qed.

(** What preprocessing makes of a row, given the parser of the column of
    compensation dates: the date is the reading of the row's cell by that
    parser, missing when the cell is empty or is no date for it, and without
    a date there is no resolution time; the other cells are kept. *)
Definition coerced (parser : string -> option Timestamp)
    (r : Shipment string) (r' : Shipment Timestamp) : Prop :=
  compensated_at_date r' = to_datetime_coerce parser (compensated_at_date r) /\
  (compensated_at_date r' = None -> resolution_days r' = None) /\
  delivery_time_business_days r' = delivery_time_business_days r /\
  has_marketplace_cs_ticket r' = has_marketplace_cs_ticket r /\
  total_compensation r' = total_compensation r /\
  compensation_reason r' = compensation_reason r /\
  route r' = route r /\
  from_sc_code r' = from_sc_code r /\
  to_sc_code r' = to_sc_code r.

Lemma assign_dates_coerced (parser : string -> option Timestamp)
    (rows : list (Shipment string)) (shipped : list Timestamp) :
  length shipped = length rows ->
  let df := assign_dates rows shipped
              (map (to_datetime_coerce parser) (map compensated_at_date rows)) in
  map shipped_date df = shipped /\ Forall2 (coerced parser) rows df.
Proof.
  revert shipped. induction rows as [|r rows IH]; intros [|t shipped] Hlen;
    try discriminate; cbv zeta.
  - split; [reflexivity | constructor].
  - injection Hlen as Hlen. destruct (IH shipped Hlen) as [IH1 IH2]. simpl. split.
    + f_equal. exact IH1.
    + constructor; [|exact IH2].
      unfold coerced, resolution_days. simpl.
      split; [reflexivity|]. split; [intros ->; reflexivity|].
      repeat split; reflexivity.
Qed.

Section ColumnCoercion.

Variable guess_datetime_format : string -> option string.
Variable strptime : string -> string -> option Timestamp.
Variable parse : string -> option Timestamp.

(** Without a guess the library reads every text by itself, and the
    conversion is the one of [convert_dates] with that parser. *)
Lemma convert_dates_without_guess (rows : list (Shipment string)) :
  (forall text, guess_datetime_format text = None) ->
  by_column.convert_dates guess_datetime_format strptime parse rows
  = convert_dates parse rows.
Proof.
  intros Hnone.
  assert (H : forall cells,
            by_column.column_parser guess_datetime_format strptime parse cells = parse).
  { intros cells. unfold by_column.column_parser.
    destruct (by_column.first_non_null cells) as [text|]; [|reflexivity].
    rewrite Hnone. reflexivity. }
  unfold by_column.convert_dates, by_column.to_datetime_column,
    by_column.to_datetime_column_coerce, convert_dates.
  rewrite !H. reflexivity.
Qed.

(** C8, amended: a compensation date that is no date is never fatal.
    Whenever the column of shipment dates converts, preprocessing returns
    the table with all its rows, whatever the cells of [compensated_at_date]
    hold; a cell that the parser of that column gives no date becomes
    missing, and its row goes on with its other cells and without a
    resolution time.  The coercion is not cell by cell, though: the parser
    is the one of the column, decided by the first text of the column. *)
Theorem unparseable_compensation_date_coerced (files : list (list (Shipment string)))
    (shipped : list Timestamp) :
  let rows := concat files in
  let dates := map compensated_at_date rows in
  let parser := by_column.column_parser guess_datetime_format strptime parse in
  by_column.to_datetime_column guess_datetime_format strptime parse
    (map shipped_date rows) = inr shipped ->
  exists df,
    by_column.load_and_preprocess_data guess_datetime_format strptime parse files
      = Some df /\
    by_column.preprocess_data guess_datetime_format strptime parse rows = inr df /\
    map shipped_date (data df) = shipped /\
    Forall2 (coerced (parser dates)) rows (data df) /\
    (forall cells,
        by_column.first_non_null cells = by_column.first_non_null dates ->
        forall text, parser cells text = parser dates text).
Proof.
  intros rows dates parser Hshipped.
  pose proof (mapM_length _ _ _ Hshipped) as Hlen. rewrite length_map in Hlen.
  destruct (assign_dates_coerced (parser dates) rows shipped Hlen) as [Hs Hrows].
  assert (Hconv : by_column.convert_dates guess_datetime_format strptime parse rows =
            inr {| data := assign_dates rows shipped
                     (map (to_datetime_coerce (parser dates)) dates);
                   extra := ∅ |}).
  { unfold by_column.convert_dates. rewrite Hshipped. reflexivity. }
  eexists. split; [|split; [exact Hconv|split; [exact Hs|split; [exact Hrows|]]]].
  - unfold by_column.load_and_preprocess_data. fold rows. rewrite Hconv. reflexivity.
  - intros cells Hfirst text. subst parser. unfold by_column.column_parser.
    rewrite Hfirst. reflexivity.
Qed.

End ColumnCoercion.

(** A library that knows two formats, for the examples: the texts of
    [parse_sample] with the year first, and one text with the day first. *)
Definition sample_guess (text : string) : option string :=
  if present (parse_sample text) then Some "%Y-%m-%d"
  else if String.eqb text "25/01/2023" then Some "%d/%m/%Y"
  else None.

Definition sample_strptime (format text : string) : option Timestamp :=
  if String.eqb format "%Y-%m-%d" then parse_sample text
  else if String.eqb format "%d/%m/%Y" then
    if String.eqb text "25/01/2023" then Some (mkTimestamp 2023 1 25) else None
  else None.

Definition sample_parse (text : string) : option Timestamp :=
  match parse_sample text with
  | Some t => Some t
  | None => sample_strptime "%d/%m/%Y" text
  end.

(** Two rows whose compensation dates are written in two formats, and the
    second row alone. *)
Definition two_formats : list (list (Shipment string)) :=
  [ [raw "2023-01-15" (Some "2023-01-20") (Some 10);
     raw "2023-01-20" (Some "25/01/2023") (Some 5)] ].

Definition day_first_alone : list (list (Shipment string)) :=
  [ [raw "2023-01-20" (Some "25/01/2023") (Some 5)] ].

(** The same two rows after a row whose compensation date is no date, and
    after the same row with the cell left empty. *)
Definition no_date_first : list (list (Shipment string)) :=
  [ [raw "2024-01-15" (Some "not a date") (Some 7);
     raw "2023-01-15" (Some "2023-01-20") (Some 10);
     raw "2023-01-20" (Some "25/01/2023") (Some 5)] ].

Definition empty_first : list (list (Shipment string)) :=
  [ [raw "2024-01-15" None (Some 7);
     raw "2023-01-15" (Some "2023-01-20") (Some 10);
     raw "2023-01-20" (Some "25/01/2023") (Some 5)] ].

Definition compensation_dates (files : list (list (Shipment string)))
  : option (list (option Timestamp)) :=
  option_map (fun df => map compensated_at_date (data df))
    (by_column.load_and_preprocess_data sample_guess sample_strptime sample_parse files).

(** C8, as stated, fails: the coercion is not individual, and a text that is
    no date does affect the dates of other rows.  In [two_formats] the first
    compensation date is written year first, so the column is read in that
    format, and the second date, written day first, is coerced to a missing
    date although it is a date: the same row alone in the table keeps its
    date.  In [no_date_first] the first text is no date and gives no format,
    so every text is parsed by itself and the third row has its date; with
    that cell empty instead, the column is read year first and the third row
    loses its date. *)
Lemma coercion_depends_on_first_cell :
  compensation_dates two_formats = Some [Some (mkTimestamp 2023 1 20); None] /\
  compensation_dates day_first_alone = Some [Some (mkTimestamp 2023 1 25)] /\
  compensation_dates no_date_first
    = Some [None; Some (mkTimestamp 2023 1 20); Some (mkTimestamp 2023 1 25)] /\
  compensation_dates empty_first = Some [None; Some (mkTimestamp 2023 1 20); None].
Proof. repeat split; reflexivity. Qed.

Lemma unparseable_compensation_date_coerced_witness :
  let rows := concat raw_files in
  let dates := map compensated_at_date rows in
  let parser := by_column.column_parser sample_guess sample_strptime sample_parse in
  exists df,
    by_column.load_and_preprocess_data sample_guess sample_strptime sample_parse raw_files
      = Some df /\
    by_column.preprocess_data sample_guess sample_strptime sample_parse rows = inr df /\
    map shipped_date (data df)
      = [mkTimestamp 2023 1 15; mkTimestamp 2024 1 15; mkTimestamp 2023 1 20] /\
    Forall2 (coerced (parser dates)) rows (data df) /\
    (forall cells,
        by_column.first_non_null cells = by_column.first_non_null dates ->
        forall text, parser cells text = parser dates text).
Proof.
  apply (unparseable_compensation_date_coerced sample_guess sample_strptime sample_parse
           raw_files).
  reflexivity.
Defined.

(** The second row keeps its amount and loses its date. *)
Example coerced_row :
  option_map (fun df => map (fun r => (compensated_at_date r, total_compensation r)) (data df))
             (by_column.load_and_preprocess_data sample_guess sample_strptime sample_parse
                raw_files) =
  Some [(Some (mkTimestamp 2023 1 20), Some 10); (None, Some 5); (None, None)].
Proof. reflexivity. Qed.

(** ** Group-by *)

Definition string_lt (a b : string) : Prop := String.compare a b = Lt.

Lemma compare_as_OT (a b : string) : String.compare a b = String_as_OT.compare a b.
Proof.
  revert b. induction a as [|c a IH]; intros [|d b]; reflexivity.
Qed.

Lemma string_lt_trans (a b c : string) : string_lt a b -> string_lt b c -> string_lt a c.
Proof.
  unfold string_lt. rewrite !compare_as_OT.
  apply (@StrictOrder_Transitive _ _ String_as_OT.lt_strorder).
Qed.

Lemma string_lt_irrefl (a : string) : ~ string_lt a a.
Proof.
  unfold string_lt. rewrite compare_as_OT.
  apply (@StrictOrder_Irreflexive _ _ String_as_OT.lt_strorder).
Qed.

Lemma compare_Gt_lt (a b : string) : String.compare a b = Gt -> string_lt b a.
Proof.
  unfold string_lt. intros H. rewrite String.compare_antisym, H. reflexivity.
Qed.

Lemma In_insert_key (k k0 : string) (ks : list string) :
  In k (insert_key k0 ks) <-> k = k0 \/ In k ks.
Proof.
  induction ks as [|k' ks IH]; simpl.
  - intuition.
  - destruct (String.compare k0 k') eqn:E; simpl.
    + apply String.compare_eq_iff in E. subst. intuition.
    + intuition.
    + rewrite IH. intuition.
Qed.

Lemma insert_key_HdRel (a k0 : string) (ks : list string) :
  HdRel string_lt a ks -> string_lt a k0 -> HdRel string_lt a (insert_key k0 ks).
Proof.
  intros Hhd Hlt. destruct ks as [|k' ks]; simpl.
  - constructor. assumption.
  - destruct (String.compare k0 k'); constructor;
      [inversion Hhd | | inversion Hhd]; assumption.
Qed.

Lemma insert_key_sorted (k0 : string) (ks : list string) :
  Sorted string_lt ks -> Sorted string_lt (insert_key k0 ks).
Proof.
  induction 1 as [|k' ks Hs IH Hhd]; simpl.
  - repeat constructor.
  - destruct (String.compare k0 k') eqn:E.
    + constructor; assumption.
    + constructor; [constructor; assumption | constructor; exact E].
    + constructor; [exact IH|]. apply insert_key_HdRel; [assumption|].
      apply compare_Gt_lt. exact E.
Qed.

Lemma group_keys_sorted (keys : list (option string)) :
  StronglySorted string_lt (group_keys keys).
Proof.
  apply Sorted_StronglySorted; [exact string_lt_trans|].
  unfold group_keys. induction (dropna keys) as [|k ks IH]; simpl.
  - constructor.
  - apply insert_key_sorted. exact IH.
Qed.

Lemma sorted_NoDup (ks : list string) : StronglySorted string_lt ks -> NoDup ks.
Proof.
  induction 1 as [|k ks _ IH Hall]; constructor; [|exact IH].
  intros Hin. rewrite Forall_forall in Hall. apply (string_lt_irrefl k). auto.
Qed.

Lemma In_dropna {A : Type} (a : A) (s : list (option A)) :
  In a (dropna s) <-> In (Some a) s.
Proof.
  induction s as [|[b|] s IH]; simpl.
  - reflexivity.
  - rewrite IH. split; intros [H|H]; auto; left; congruence.
  - rewrite IH. split; [auto | intros [H|H]; [discriminate | assumption]].
Qed.

Lemma In_group_keys (k : string) (keys : list (option string)) :
  In k (group_keys keys) <-> In (Some k) keys.
Proof.
  rewrite <- In_dropna. unfold group_keys.
  induction (dropna keys) as [|k' ks IH]; simpl; [reflexivity|].
  rewrite In_insert_key, IH. intuition.
Qed.

(** The rows of the group of [k]. *)
Definition rows_with {A : Type} (key : A -> option string) (k : string) (l : list A)
  : list A :=
  filter (fun r => has_key k (key r)) l.

Lemma groupby_keyed {A : Type} (key : A -> option string) (l : list A) :
  groupby (map (fun r => (key r, r)) l) =
  map (fun k => (k, rows_with key k l)) (group_keys (map key l)).
Proof.
  unfold groupby. rewrite map_map. simpl.
  replace (map (fun r => key r) l) with (map key l) by reflexivity.
  apply map_ext. intros k. f_equal. unfold rows_with.
  induction l as [|a l IH]; simpl; [reflexivity|].
  destruct (has_key k (key a)); simpl; rewrite IH; reflexivity.
Qed.

Lemma combine_map_self {A B : Type} (f : A -> B) (l : list A) :
  combine (map f l) l = map (fun r => (f r, r)) l.
Proof. induction l as [|a l IH]; simpl; [|rewrite IH]; reflexivity. Qed.

(** ** The per-day reduction of the correlation helper *)

(** Equality of numbers as values (a rational has many fractions). *)
Definition feq (x y : float) : Prop :=
  match x, y with
  | Fin a, Fin b => a == b
  | Inf s, Inf t => s = t
  | NaN, NaN => True
  | _, _ => False
  end.

Lemma feq_refl (x : float) : feq x x.
Proof. destruct x; simpl; reflexivity. Qed.

Definition month_day (r : Shipment Timestamp) : string := strftime_md (shipped_date r).

Definition rows_of_day (k : string) (rows : list (Shipment Timestamp))
  : list (Shipment Timestamp) :=
  filter (fun r => String.eqb k (month_day r)) rows.

(** [out] is the per-day reduction of [rows]: one row for each month-day of
    [rows] on which both means are defined, holding the two means over all
    the rows of [rows] with that month-day. *)
Definition per_day_table (rows : list (Shipment Timestamp)) (out : list day_row) : Prop :=
  NoDup (map shipped_date_mmdd out) /\
  (forall k, In k (map shipped_date_mmdd out) <->
     (exists r, In r rows /\ month_day r = k /\ delivery_time_business_days r <> None) /\
     (exists r, In r rows /\ month_day r = k /\ total_compensation r <> None)) /\
  Forall (fun d =>
            feq (avg_delivery_time d)
                (mean (map delivery_time_business_days
                           (rows_of_day (shipped_date_mmdd d) rows))) /\
            feq (avg_compensation_amount d)
                (mean (map total_compensation (rows_of_day (shipped_date_mmdd d) rows))))
         out.

Lemma mean_defined {A : Type} (f : A -> option Q) (l : list A) :
  is_nan (mean (map f l)) = false <-> exists r, In r l /\ f r <> None.
Proof.
  unfold mean. induction l as [|a l IH]; simpl.
  - split; [discriminate | intros (r & [] & _)].
  - destruct (f a) as [q|] eqn:E; simpl.
    + split; [|reflexivity]. intros _. exists a. split; [left; reflexivity | congruence].
    + rewrite IH. split; intros (r & Hin & Hr).
      * exists r. split; [right; assumption | assumption].
      * destruct Hin as [<-|Hin]; [congruence|]. exists r. split; assumption.
Qed.

Lemma In_rows_of_day (k : string) (rows : list (Shipment Timestamp)) (r : Shipment Timestamp) :
  In r (rows_of_day k rows) <-> In r rows /\ month_day r = k.
Proof.
  unfold rows_of_day. rewrite filter_In, String.eqb_eq. split; intros [H1 H2]; auto.
Qed.

Lemma map_filter_map {A B C : Type} (f : B -> C) (g : A -> B) (P : B -> bool) (l : list A) :
  map f (filter P (map g l)) = map (fun a => f (g a)) (filter (fun a => P (g a)) l).
Proof.
  induction l as [|a l IH]; simpl; [reflexivity|].
  destruct (P (g a)); simpl; rewrite IH; reflexivity.
Qed.

(** The table that both scripts compute from the rows they group. *)
Definition reduce_days (rows : list (Shipment Timestamp)) : list day_row :=
  dropna_days
    (map agg_day (groupby (combine (map (fun r => Some (month_day r)) rows) rows))).

Lemma reduce_days_groups (rows : list (Shipment Timestamp)) :
  reduce_days rows =
  dropna_days
    (map (fun k => agg_day (k, rows_of_day k rows))
         (group_keys (map (fun r => Some (month_day r)) rows))).
Proof.
  unfold reduce_days. rewrite combine_map_self, groupby_keyed, map_map. reflexivity.
Qed.

Lemma reduce_days_per_day (rows : list (Shipment Timestamp)) :
  per_day_table rows (reduce_days rows).
Proof.
  rewrite reduce_days_groups. unfold per_day_table, dropna_days.
  set (ks := group_keys (map (fun r => Some (month_day r)) rows)).
  set (both := fun d : day_row =>
         (negb (is_nan (avg_delivery_time d)) &&
          negb (is_nan (avg_compensation_amount d)))%bool).
  rewrite (map_filter_map shipped_date_mmdd (fun k => agg_day (k, rows_of_day k rows))).
  simpl. rewrite map_id.
  split; [|split].
  - apply NoDup_filter, sorted_NoDup, group_keys_sorted.
  - intros k. rewrite filter_In. subst both. cbv beta.
    rewrite Bool.andb_true_iff, !Bool.negb_true_iff. unfold agg_day. simpl.
    rewrite !mean_defined. subst ks. rewrite In_group_keys, in_map_iff.
    split.
    + intros (_ & (r1 & Hr1 & Hd) & (r2 & Hr2 & Hc)).
      apply In_rows_of_day in Hr1, Hr2. destruct Hr1, Hr2.
      split; [exists r1 | exists r2]; auto.
    + intros ((r1 & Hr1 & Hk1 & Hd) & (r2 & Hr2 & Hk2 & Hc)).
      split; [|split].
      * exists r1. split; [congruence | assumption].
      * exists r1. split; [apply In_rows_of_day; auto | assumption].
      * exists r2. split; [apply In_rows_of_day; auto | assumption].
  - apply Forall_forall. intros d Hd. apply filter_In in Hd. destruct Hd as [Hd _].
    apply in_map_iff in Hd. destruct Hd as (k & <- & _). simpl.
    split; apply feq_refl.
Qed.

Lemma select_mask_and {A : Type} (p q : A -> bool) (l : list A) :
  select (mask_and (map p l) (map q l)) l = filter (fun r => (p r && q r)%bool) l.
Proof.
  induction l as [|a l IH]; simpl; [reflexivity|].
  destruct (p a && q a)%bool; rewrite IH; reflexivity.
Qed.

Definition lyo1_par1 (r : Shipment Timestamp) : bool :=
  (String.eqb (from_sc_code r) "LYO1" && String.eqb (to_sc_code r) "PAR1")%bool.

Lemma delivery_time_analyze_correlation (df : DataFrame) :
  delivery_time.analyze_correlation df =
  inr (reduce_days (data df),
       setitem df "shipped_date_mmdd" (StrCol (map (fun r => Some (month_day r)) (data df)))).
Proof.
  unfold delivery_time.analyze_correlation. cbv zeta.
  rewrite getitem_str_setitem. reflexivity.
Qed.

Lemma sc_review_analyze_correlation (df : DataFrame) :
  sc_review.analyze_correlation df = inr (reduce_days (filter lyo1_par1 (data df))).
Proof.
  unfold sc_review.analyze_correlation. cbv zeta.
  rewrite getitem_str_setitem. simpl. unfold loc. simpl data.
  rewrite select_mask_and. reflexivity.
Qed.

Lemma strftime_md_ignores_year (a b : Timestamp) :
  month a = month b -> day a = day b -> strftime_md a = strftime_md b.
Proof. unfold strftime_md. intros -> ->. reflexivity. Qed.

Definition two_years : DataFrame :=
  {| data := [parcel 2023 1 15 (Some 2) (Some 10) (Some "Lost") "LYO1" "PAR1";
              parcel 2024 1 15 (Some 4) (Some 30) (Some "Lost") "XYZ1" "ABC1"];
     extra := ∅ |}.

(** C6, as stated, fails for the helper of sc_review.py: of two rows shipped
    on 01-15 of 2023 and 2024, only the first from LYO1 to PAR1, its table
    holds the means of the first row alone (2 and 10), not those of both rows
    (3 and 20). *)
Lemma sc_review_reduction_not_whole_table :
  ~ (forall df, exists out,
       sc_review.analyze_correlation df = inr out /\ per_day_table (data df) out).
Proof.
  intros H. destruct (H two_years) as (out & Hout & _ & _ & Hall).
  rewrite sc_review_analyze_correlation in Hout. injection Hout as <-.
  vm_compute in Hall. inversion Hall as [|d l [Hd _] _]. discriminate Hd.
Qed.

Lemma digit_inj (a b : Z) :
  (0 <= a < 10)%Z -> (0 <= b < 10)%Z -> digit a = digit b -> a = b.
Proof.
  intros Ha Hb H. unfold digit in H.
  rewrite !Z.mod_small in H by assumption.
  apply (f_equal nat_of_ascii) in H.
  rewrite !nat_ascii_embedding in H by lia. lia.
Qed.

Lemma two_digits_inj (a b : Z) :
  (0 <= a < 100)%Z -> (0 <= b < 100)%Z -> two_digits a = two_digits b -> a = b.
Proof.
  intros Ha Hb H. unfold two_digits in H. injection H as Htens Hunits.
  apply digit_inj in Htens;
    [|split; [apply Z.div_pos | apply Z.div_lt_upper_bound]; lia ..].
  unfold digit in Hunits. apply (f_equal nat_of_ascii) in Hunits.
  rewrite !nat_ascii_embedding in Hunits
    by (pose proof (Z.mod_pos_bound a 10); pose proof (Z.mod_pos_bound b 10); lia).
  pose proof (Z.mod_pos_bound a 10). pose proof (Z.mod_pos_bound b 10).
  rewrite (Z.div_mod a 10), (Z.div_mod b 10) by lia. lia.
Qed.

(** On calendar dates the key tells month and day, and nothing else. *)
Lemma strftime_md_same_day (a b : Timestamp) :
  (1 <= month a <= 12)%Z -> (1 <= day a <= 31)%Z ->
  (1 <= month b <= 12)%Z -> (1 <= day b <= 31)%Z ->
  strftime_md a = strftime_md b <-> month a = month b /\ day a = day b.
Proof.
  intros Hma Hda Hmb Hdb. split.
  - unfold strftime_md. intros H. simpl in H.
    injection H as H1 H2 H3 H4. split.
    + apply two_digits_inj; [lia | lia |]. unfold two_digits. congruence.
    + apply two_digits_inj; [lia | lia |]. unfold two_digits. congruence.
  - intros [Hm Hd]. apply strftime_md_ignores_year; assumption.
Qed.

(** C6, amended: the helper of delivery_time.py reduces the whole table, the
    helper of sc_review.py reduces the rows from LYO1 to PAR1 only.  Each
    gives one row for every month-day (of the rows it reduces) on which both
    means are defined, holding the mean delivery time and the mean
    compensation amount over all those rows with that month-day; the
    month-day does not depend on the year. *)
Theorem per_day_reduction (df : DataFrame) :
  exists out df' out',
    delivery_time.analyze_correlation df = inr (out, df') /\
    data df' = data df /\
    per_day_table (data df) out /\
    sc_review.analyze_correlation df = inr out' /\
    per_day_table (filter lyo1_par1 (data df)) out' /\
    (forall a b : Timestamp,
        month a = month b -> day a = day b -> strftime_md a = strftime_md b).
Proof.
  exists (reduce_days (data df)),
    (setitem df "shipped_date_mmdd" (StrCol (map (fun r => Some (month_day r)) (data df)))),
    (reduce_days (filter lyo1_par1 (data df))).
  split; [apply delivery_time_analyze_correlation|].
  split; [reflexivity|].
  split; [apply reduce_days_per_day|].
  split; [apply sc_review_analyze_correlation|].
  split; [apply reduce_days_per_day|].
  exact strftime_md_ignores_year.
Qed.

(** Two rows shipped on 15 January of 2023 and of 2024 become one row of the
    table of delivery_time.py, with the means over both. *)
Example two_years_one_row :
  exists d df',
    delivery_time.analyze_correlation two_years = inr ([d], df') /\
    shipped_date_mmdd d = "01-15" /\
    feq (avg_delivery_time d) (Fin 3) /\
    feq (avg_compensation_amount d) (Fin 20).
Proof.
  rewrite delivery_time_analyze_correlation.
  eexists. eexists. split; [vm_compute; reflexivity|].
  split; [reflexivity|]. split; reflexivity.
Qed.

(** ** The compensation-reason breakdown *)

Definition compensated_rows (df : DataFrame) : list (Shipment Timestamp) :=
  filter (fun r => present (total_compensation r)) (data df).

(** The total compensated amount. *)
Definition total_compensated (df : DataFrame) : Q :=
  Qsum (dropna (map total_compensation (data df))).

Lemma compensation_by_reason_groups (df : DataFrame) :
  compensation_analysis.compensation_by_reason
    (compensation_analysis.analyze_compensations df) =
  map (fun k =>
         let g := rows_with compensation_reason k (compensated_rows df) in
         {| compensation_analysis.reason := k;
            compensation_analysis.count := Z.of_nat (length g);
            compensation_analysis.total_amount :=
              Fin (Qsum (dropna (map total_compensation g)));
            compensation_analysis.avg_amount := mean (map total_compensation g);
            compensation_analysis.transaction_weight :=
              fmul (fdiv (of_int (Z.of_nat (length g))) (of_nat (count_compensated df)))
                   (of_int 100);
            compensation_analysis.amount_weight :=
              fmul (fdiv (Fin (Qsum (dropna (map total_compensation g))))
                         (Fin (total_compensated df)))
                   (of_int 100) |})
      (group_keys (map compensation_reason (compensated_rows df))).
Proof.
  unfold compensation_analysis.analyze_compensations. cbv zeta.
  cbn [compensation_analysis.compensation_by_reason].
  rewrite len_dropna_total_compensation, data_dropna_total_compensation.
  fold (compensated_rows df).
  rewrite groupby_keyed, map_map.
  replace (dropna (map total_compensation (compensated_rows df)))
    with (dropna (map total_compensation (data df)))
    by (symmetry; apply dropna_map_filter).
  reflexivity.
Qed.

Lemma reasons_df_groups (df : DataFrame) :
  sc_review.analyze_compensation_reasons df =
  sort_values_desc sc_review.count
    (map (fun k =>
            let g := rows_with compensation_reason k (data df) in
            {| sc_review.reason := k;
               sc_review.count := Z.of_nat (length g);
               sc_review.average_compensation_amount := mean (map total_compensation g) |})
         (group_keys (map compensation_reason (data df)))).
Proof.
  unfold sc_review.analyze_compensation_reasons. cbv zeta.
  rewrite groupby_keyed, map_map. reflexivity.
Qed.

Section Sorting.

Context {A : Type} (key : A -> Z).

Definition descending (a b : A) : Prop := (key b <= key a)%Z.

Lemma insert_desc_perm (x : A) (l : list A) : Permutation (insert_desc key x l) (x :: l).
Proof.
  induction l as [|y l IH]; simpl; [reflexivity|].
  destruct (key y <=? key x)%Z; [reflexivity|].
  rewrite IH. apply perm_swap.
Qed.

Lemma sort_values_desc_perm (l : list A) : Permutation (sort_values_desc key l) l.
Proof.
  induction l as [|x l IH]; simpl; [reflexivity|].
  rewrite insert_desc_perm. constructor. exact IH.
Qed.

Lemma insert_desc_HdRel (a x : A) (l : list A) :
  HdRel descending a l -> descending a x -> HdRel descending a (insert_desc key x l).
Proof.
  intros Hhd Hx. destruct l as [|y l]; simpl; [constructor; assumption|].
  destruct (key y <=? key x)%Z; constructor; [assumption | inversion Hhd; assumption].
Qed.

Lemma insert_desc_sorted (x : A) (l : list A) :
  Sorted descending l -> Sorted descending (insert_desc key x l).
Proof.
  induction 1 as [|y l Hs IH Hhd]; simpl; [repeat constructor|].
  destruct (key y <=? key x)%Z eqn:E.
  - constructor; [constructor; assumption|]. constructor. unfold descending.
    apply Z.leb_le. exact E.
  - constructor; [exact IH|]. apply insert_desc_HdRel; [assumption|].
    unfold descending. apply Z.leb_gt in E. lia.
Qed.

Lemma sort_values_desc_sorted (l : list A) :
  StronglySorted descending (sort_values_desc key l).
Proof.
  apply Sorted_StronglySorted.
  - intros a b c. unfold descending. lia.
  - induction l as [|x l IH]; simpl; [constructor|].
    apply insert_desc_sorted. exact IH.
Qed.

End Sorting.

(** C7, as stated, fails for the breakdown of compensation_analysis.py: with
    two compensated rows for "Lost" and one for "Damaged" its table lists
    "Damaged" (count 1) before "Lost" (count 2). *)
Lemma breakdown_not_sorted_by_count :
  ~ (forall df,
       StronglySorted (descending compensation_analysis.count)
         (compensation_analysis.compensation_by_reason
            (compensation_analysis.analyze_compensations df))).
Proof.
  intros H. specialize (H three_parcels).
  rewrite compensation_by_reason_groups in H. vm_compute in H.
  inversion H as [|a l _ Hall]. inversion Hall as [|b l' Hle _].
  apply Hle. reflexivity.
Qed.

Example breakdown_order :
  map (fun row => (compensation_analysis.reason row, compensation_analysis.count row))
      (compensation_analysis.compensation_by_reason
         (compensation_analysis.analyze_compensations three_parcels)) =
  [("Damaged", 1%Z); ("Lost", 2%Z)].
Proof. reflexivity. Qed.

Lemma present_not_None {A : Type} (c : option A) : present c = true <-> c <> None.
Proof. destruct c; simpl; split; congruence. Qed.

Lemma In_compensated_rows (df : DataFrame) (r : Shipment Timestamp) :
  In r (compensated_rows df) <-> In r (data df) /\ total_compensation r <> None.
Proof. unfold compensated_rows. rewrite filter_In, present_not_None. reflexivity. Qed.

Lemma In_reason_keys (k : string) (rows : list (Shipment Timestamp)) :
  In k (group_keys (map compensation_reason rows)) <->
  exists r, In r rows /\ compensation_reason r = Some k.
Proof.
  rewrite In_group_keys, in_map_iff. split; intros (r & H1 & H2); exists r; auto.
Qed.

Lemma fdiv_counts (a : Z) (n : nat) :
  n <> 0%nat -> fdiv (of_int a) (of_nat n) = Fin (inject_Z a / inject_Z (Z.of_nat n)).
Proof.
  intros Hn. unfold fdiv, of_nat, of_int. rewrite Qzero_false; [reflexivity|].
  assert (H : 0 < inject_Z (Z.of_nat n)) by (apply inject_nat_pos; lia). lra.
Qed.

(** C7, amended: the breakdown of compensation_analysis.py is computed over
    the compensated rows, one row per reason among them, with the count, the
    total and the mean amount of the reason, its share of the compensated
    transactions and its share of the compensated amount; its rows are in
    ascending order of the reason, not sorted by count.  The table sorted by
    descending count is the one of sc_review.py, which groups all the rows
    that have a reason and holds the count and the mean amount only. *)
Theorem reason_breakdown (df : DataFrame) :
  let t := compensation_analysis.compensation_by_reason
             (compensation_analysis.analyze_compensations df) in
  let t' := sc_review.analyze_compensation_reasons df in
  StronglySorted string_lt (map compensation_analysis.reason t) /\
  (forall k, In k (map compensation_analysis.reason t) <->
     exists r, In r (data df) /\ total_compensation r <> None /\
               compensation_reason r = Some k) /\
  Forall (fun row =>
            let g := rows_with compensation_reason (compensation_analysis.reason row)
                       (compensated_rows df) in
            compensation_analysis.count row = Z.of_nat (length g) /\
            compensation_analysis.total_amount row =
              Fin (Qsum (dropna (map total_compensation g))) /\
            compensation_analysis.avg_amount row = mean (map total_compensation g) /\
            compensation_analysis.transaction_weight row =
              Fin (inject_Z (compensation_analysis.count row)
                   / inject_Z (Z.of_nat (count_compensated df)) * inject_Z 100) /\
            compensation_analysis.amount_weight row =
              fmul (fdiv (compensation_analysis.total_amount row)
                         (Fin (total_compensated df)))
                   (of_int 100))
         t /\
  StronglySorted (descending sc_review.count) t' /\
  NoDup (map sc_review.reason t') /\
  (forall k, In k (map sc_review.reason t') <->
     exists r, In r (data df) /\ compensation_reason r = Some k) /\
  Forall (fun row =>
            let g := rows_with compensation_reason (sc_review.reason row) (data df) in
            sc_review.count row = Z.of_nat (length g) /\
            sc_review.average_compensation_amount row = mean (map total_compensation g))
         t'.
Proof.
  intros t t'. subst t t'.
  rewrite compensation_by_reason_groups, reasons_df_groups.
  set (mk := fun k : string => _) at 1.
  assert (Hkeys : forall l, map compensation_analysis.reason (map mk l) = l).
  { intros l. rewrite map_map. subst mk. simpl. apply map_id. }
  split; [rewrite Hkeys; apply group_keys_sorted|].
  split.
  { intros k. rewrite Hkeys, In_reason_keys. split.
    - intros (r & Hr & Hk). apply In_compensated_rows in Hr. destruct Hr.
      exists r. auto.
    - intros (r & Hr & Hc & Hk). exists r. split; [|assumption].
      apply In_compensated_rows. auto. }
  split.
  { apply Forall_forall. intros row Hrow. apply in_map_iff in Hrow.
    destruct Hrow as (k & <- & Hk). subst mk. cbv beta zeta.
    cbn [compensation_analysis.reason compensation_analysis.count
         compensation_analysis.total_amount compensation_analysis.avg_amount
         compensation_analysis.transaction_weight compensation_analysis.amount_weight].
    repeat split; try reflexivity.
    rewrite fdiv_counts; [reflexivity|].
    apply In_reason_keys in Hk. destruct Hk as (r & Hr & _).
    unfold compensated_rows in Hr. unfold count_compensated.
    destruct (filter _ (data df)); [destruct Hr | discriminate]. }
  clear mk Hkeys.
  set (mk := fun k : string => _).
  set (ks := group_keys (map compensation_reason (data df))).
  pose proof (sort_values_desc_perm sc_review.count (map mk ks)) as Hperm.
  assert (Hkeys : map sc_review.reason (map mk ks) = ks).
  { rewrite map_map. subst mk. simpl. apply map_id. }
  split; [apply sort_values_desc_sorted|].
  split.
  { eapply Permutation_NoDup; [apply Permutation_map; symmetry; exact Hperm|].
    rewrite Hkeys. apply sorted_NoDup, group_keys_sorted. }
  split.
  { intros k. rewrite <- In_reason_keys. fold ks.
    transitivity (In k (map sc_review.reason (map mk ks))).
    - split; apply Permutation_in, Permutation_map;
        [exact Hperm | symmetry; exact Hperm].
    - rewrite Hkeys. reflexivity. }
  eapply Permutation_Forall; [symmetry; exact Hperm|].
  apply Forall_forall. intros row Hrow. apply in_map_iff in Hrow.
  destruct Hrow as (k & <- & _). subst mk. simpl. split; reflexivity.
Qed.

(** ** Sums over the groups *)

(** [Series.sum()] of a float64 column without missing cells. *)
Definition fsum (l : list float) : float := fold_right fadd (Fin 0) l.

Lemma fsum_Fin (qs : list Q) : fsum (map Fin qs) = Fin (Qsum qs).
Proof. induction qs as [|q qs IH]; simpl; [|rewrite IH]; reflexivity. Qed.

Lemma Qsum_map_ext {A : Type} (f g : A -> Q) (l : list A) :
  (forall a, f a == g a) -> Qsum (map f l) == Qsum (map g l).
Proof.
  intros H. induction l as [|a l IH]; simpl; [reflexivity|]. rewrite H, IH. reflexivity.
Qed.

Lemma Qsum_map_scale {A : Type} (f : A -> Q) (c : Q) (l : list A) :
  Qsum (map (fun a => f a * c) l) == Qsum (map f l) * c.
Proof. induction l as [|a l IH]; simpl; [|rewrite IH]; ring. Qed.

Lemma Qsum_ones {A : Type} (l : list A) :
  Qsum (map (fun _ => 1) l) == inject_Z (Z.of_nat (length l)).
Proof.
  induction l as [|a l IH]; [reflexivity|].
  change (length (a :: l)) with (S (length l)). rewrite Nat2Z.inj_succ.
  unfold Z.succ. rewrite inject_Z_plus. simpl Qsum. rewrite IH.
  change (inject_Z 1) with 1. ring.
Qed.

Definition amount_or_zero (c : option Q) : Q :=
  match c with
  | Some q => q
  | None => 0
  end.

Lemma Qsum_dropna {A : Type} (f : A -> option Q) (l : list A) :
  Qsum (dropna (map f l)) == Qsum (map (fun r => amount_or_zero (f r)) l).
Proof.
  induction l as [|a l IH]; simpl; [reflexivity|].
  destruct (f a); simpl; rewrite IH; ring.
Qed.

Lemma Qsum_miss (g : string -> Q) (x : Q) (k0 : string) (ks : list string) :
  ~ In k0 ks ->
  Qsum (map (fun k => if String.eqb k k0 then x + g k else g k) ks) == Qsum (map g ks).
Proof.
  induction ks as [|k ks IH]; simpl; intros Hnot; [reflexivity|].
  destruct (String.eqb k k0) eqn:E.
  - apply String.eqb_eq in E. exfalso. apply Hnot. left. assumption.
  - rewrite IH by tauto. reflexivity.
Qed.

Lemma Qsum_hit (g : string -> Q) (x : Q) (k0 : string) (ks : list string) :
  NoDup ks -> In k0 ks ->
  Qsum (map (fun k => if String.eqb k k0 then x + g k else g k) ks) == x + Qsum (map g ks).
Proof.
  induction 1 as [|k ks Hk _ IH]; simpl; intros Hin; [contradiction|].
  destruct (String.eqb k k0) eqn:E.
  - apply String.eqb_eq in E. subst k0. rewrite Qsum_miss by assumption. ring.
  - destruct Hin as [->|Hin]; [rewrite String.eqb_refl in E; discriminate|].
    rewrite IH by assumption. ring.
Qed.

(** Sums over the groups add up to the sum over the rows that have a key. *)
Lemma sum_groups {A : Type} (key : A -> option string) (w : A -> Q)
    (ks : list string) (l : list A) :
  NoDup ks ->
  (forall r k, In r l -> key r = Some k -> In k ks) ->
  Qsum (map (fun k => Qsum (map w (rows_with key k l))) ks) ==
  Qsum (map w (filter (fun r => present (key r)) l)).
Proof.
  intros Hnd. induction l as [|a l IH]; intros Hcover.
  - rewrite (Qsum_map_ext _ (fun _ => 0 * 0)) by (intros k; simpl; ring).
    rewrite Qsum_map_scale. simpl filter. simpl map at 2. simpl Qsum at 2. ring.
  - assert (IH' := IH (fun r k Hr => Hcover r k (or_intror Hr))).
    unfold rows_with in *. simpl filter.
    destruct (key a) as [k0|] eqn:E; simpl present; cbv iota.
    + rewrite (Qsum_map_ext _
        (fun k => if String.eqb k k0 then w a + Qsum (map w (filter (fun r => has_key k (key r)) l))
                  else Qsum (map w (filter (fun r => has_key k (key r)) l)))).
      * rewrite Qsum_hit; [|assumption|apply (Hcover a); [left; reflexivity | assumption]].
        simpl. rewrite IH'. reflexivity.
      * intros k. simpl. destruct (String.eqb k k0); reflexivity.
    + simpl has_key. cbv iota. exact IH'.
Qed.

Lemma filter_all {A : Type} (P : A -> bool) (l : list A) :
  Forall (fun a => P a = true) l -> filter P l = l.
Proof.
  induction 1 as [|a l Ha _ IH]; simpl; [reflexivity|]. rewrite Ha, IH. reflexivity.
Qed.

(** The weights of the breakdown add up to [s]. *)
Definition transaction_weights_sum (df : DataFrame) (s : Q) : Prop :=
  exists x,
    fsum (map compensation_analysis.transaction_weight
              (compensation_analysis.compensation_by_reason
                 (compensation_analysis.analyze_compensations df))) = Fin x /\
    x == s.

Definition amount_weights_sum (df : DataFrame) (s : Q) : Prop :=
  exists x,
    fsum (map compensation_analysis.amount_weight
              (compensation_analysis.compensation_by_reason
                 (compensation_analysis.analyze_compensations df))) = Fin x /\
    x == s.

(** Every compensated row has a reason. *)
Definition reasons_given (df : DataFrame) : Prop :=
  Forall (fun r => total_compensation r <> None -> compensation_reason r <> None) (data df).

Definition reason_missing : DataFrame :=
  {| data := [parcel 2023 1 15 (Some 2) (Some 10) (Some "Lost") "LYO1" "PAR1";
              parcel 2023 1 16 (Some 4) (Some 30) None "LYO1" "PAR1"];
     extra := ∅ |}.

Definition nothing_paid : DataFrame :=
  {| data := [parcel 2023 1 15 (Some 2) (Some 0) (Some "Lost") "LYO1" "PAR1"];
     extra := ∅ |}.

(** C5, as stated, fails: with two compensated rows of which one has no
    reason, the only group is "Lost", with transaction weight 50 and amount
    weight 25. *)
Lemma weights_not_always_100 :
  ~ (forall df, count_compensated df <> 0%nat ->
       transaction_weights_sum df 100 /\ amount_weights_sum df 100).
Proof.
  intros H. destruct (H reason_missing ltac:(discriminate)) as [(x & Hx & Hx100) _].
  vm_compute in Hx. injection Hx as <-. discriminate Hx100.
Qed.

(** A second way to fail: when the compensated amounts add up to zero the
    amount weight is 0/0, which is NaN. *)
Example amount_weight_of_nothing :
  reasons_given nothing_paid /\
  map compensation_analysis.amount_weight
      (compensation_analysis.compensation_by_reason
         (compensation_analysis.analyze_compensations nothing_paid)) = [NaN].
Proof. split; [repeat constructor; discriminate | reflexivity]. Qed.

Lemma group_counts_total (df : DataFrame) :
  reasons_given df ->
  Qsum (map (fun k => inject_Z (Z.of_nat
               (length (rows_with compensation_reason k (compensated_rows df)))))
            (group_keys (map compensation_reason (compensated_rows df))))
  == inject_Z (Z.of_nat (count_compensated df)).
Proof.
  intros Hgiven.
  rewrite (Qsum_map_ext _
    (fun k => Qsum (map (fun _ => 1)
                        (rows_with compensation_reason k (compensated_rows df)))))
    by (intros k; symmetry; apply Qsum_ones).
  rewrite sum_groups.
  - rewrite Qsum_ones. rewrite filter_all; [reflexivity|].
    apply Forall_forall. intros r Hr. apply In_compensated_rows in Hr.
    destruct Hr as [Hr Hc]. unfold reasons_given in Hgiven.
    rewrite Forall_forall in Hgiven. apply present_not_None. auto.
  - apply sorted_NoDup, group_keys_sorted.
  - intros r k Hr Hk. apply In_reason_keys. exists r. auto.
Qed.

Lemma group_amounts_total (df : DataFrame) :
  reasons_given df ->
  Qsum (map (fun k => Qsum (dropna (map total_compensation
               (rows_with compensation_reason k (compensated_rows df)))))
            (group_keys (map compensation_reason (compensated_rows df))))
  == total_compensated df.
Proof.
  intros Hgiven.
  rewrite (Qsum_map_ext _
    (fun k => Qsum (map (fun r => amount_or_zero (total_compensation r))
                        (rows_with compensation_reason k (compensated_rows df)))))
    by (intros k; apply Qsum_dropna).
  rewrite sum_groups.
  - rewrite filter_all.
    + rewrite <- Qsum_dropna. unfold compensated_rows, total_compensated.
      rewrite dropna_map_filter. reflexivity.
    + apply Forall_forall. intros r Hr. apply In_compensated_rows in Hr.
      destruct Hr as [Hr Hc]. unfold reasons_given in Hgiven.
      rewrite Forall_forall in Hgiven. apply present_not_None. auto.
  - apply sorted_NoDup, group_keys_sorted.
  - intros r k Hr Hk. apply In_reason_keys. exists r. auto.
Qed.

(** C5, amended: when some row is compensated and every compensated row has
    a reason, the transaction weights add up to 100; when moreover the
    compensated amounts do not add up to zero, the amount weights add up to
    100 as well (exact arithmetic). *)
Theorem weights_sum_to_100 (df : DataFrame) :
  count_compensated df <> 0%nat ->
  reasons_given df ->
  transaction_weights_sum df 100 /\
  (~ total_compensated df == 0 -> amount_weights_sum df 100).
Proof.
  intros Hsome Hgiven.
  assert (Hn : 0 < inject_Z (Z.of_nat (count_compensated df)))
    by (apply inject_nat_pos; lia).
  unfold transaction_weights_sum, amount_weights_sum.
  rewrite compensation_by_reason_groups, !map_map.
  cbv zeta.
  cbn [compensation_analysis.transaction_weight compensation_analysis.amount_weight].
  set (ks := group_keys (map compensation_reason (compensated_rows df))).
  split.
  - exists (Qsum (map (fun k =>
              inject_Z (Z.of_nat (length (rows_with compensation_reason k
                                            (compensated_rows df))))
              / inject_Z (Z.of_nat (count_compensated df)) * inject_Z 100) ks)).
    split.
    + rewrite <- fsum_Fin, map_map. f_equal. apply map_ext. intros k.
      rewrite fdiv_counts by assumption. reflexivity.
    + rewrite (Qsum_map_ext _
        (fun k => inject_Z (Z.of_nat (length (rows_with compensation_reason k
                                                (compensated_rows df))))
                  * (100 / inject_Z (Z.of_nat (count_compensated df)))))
        by (intros k; change (inject_Z 100) with 100; field; lra).
      rewrite Qsum_map_scale. subst ks. rewrite (group_counts_total df Hgiven).
      field. lra.
  - intros Htotal.
    exists (Qsum (map (fun k =>
              Qsum (dropna (map total_compensation
                      (rows_with compensation_reason k (compensated_rows df))))
              / total_compensated df * inject_Z 100) ks)).
    split.
    + rewrite <- fsum_Fin, map_map. f_equal. apply map_ext. intros k.
      unfold fdiv. rewrite (Qzero_false _ Htotal). reflexivity.
    + rewrite (Qsum_map_ext _
        (fun k => Qsum (dropna (map total_compensation
                          (rows_with compensation_reason k (compensated_rows df))))
                  * (100 / total_compensated df)))
        by (intros k; change (inject_Z 100) with 100; field; assumption).
      rewrite Qsum_map_scale. subst ks. rewrite (group_amounts_total df Hgiven).
      field. assumption.
Qed.

Lemma weights_sum_to_100_witness :
  transaction_weights_sum three_parcels 100 /\ amount_weights_sum three_parcels 100.
Proof.
  destruct (weights_sum_to_100 three_parcels) as [Htransactions Hamounts].
  - discriminate.
  - repeat constructor; discriminate.
  - split; [exact Htransactions|]. apply Hamounts. vm_compute. discriminate.
Defined.

(** Three compensated rows, two for "Lost" and one for "Damaged": the
    transaction weights are 1/3 and 2/3 of 100. *)
Example lost_and_damaged :
  exists damaged lost : Q,
    map compensation_analysis.transaction_weight
        (compensation_analysis.compensation_by_reason
           (compensation_analysis.analyze_compensations three_parcels))
      = [Fin damaged; Fin lost] /\
    damaged == 100 / 3 /\ lost == 200 / 3.
Proof. do 2 eexists. split; [vm_compute; reflexivity|]. split; reflexivity. Qed.

(** ** The cost projection in binary64

    [float] computes with exact rationals; the scripts compute in binary64,
    where every product, sum and quotient is rounded to the nearest double.
    [binary64.calculate_metrics] is lines 19 to 30 of
    new_cost_per_parcel_analysis.py over the doubles, on [len(df)] and on
    the mean of line 16. *)

Module binary64.

Import PrimFloat.
Local Open Scope float_scope.
Local Set Warnings "-inexact-float".

Record projection : Type := mkProjection {
  improved_avg_delivery_time : PrimFloat.float;
  delivery_time_reduction : PrimFloat.float;
  volume_increase_percentage : PrimFloat.float;
  new_total_volume : PrimFloat.float;
  original_total_cost : PrimFloat.float;
  new_cost_per_parcel : PrimFloat.float
}.

Definition ORIGINAL_COST_PER_PARCEL : PrimFloat.float := 6.81.

Definition calculate_metrics
    (total_shipments avg_delivery_time volume_increase_per_day : PrimFloat.float)
  : projection :=
  let improved_avg_delivery_time := avg_delivery_time * 0.90 in
  let delivery_time_reduction := avg_delivery_time - improved_avg_delivery_time in
  let volume_increase_percentage :=
    delivery_time_reduction * volume_increase_per_day * 100 in
  let new_total_volume := total_shipments * (1 + (volume_increase_percentage / 100)) in
  let original_total_cost := total_shipments * ORIGINAL_COST_PER_PARCEL in
  let new_cost_per_parcel := original_total_cost / new_total_volume in
  {| improved_avg_delivery_time := improved_avg_delivery_time;
     delivery_time_reduction := delivery_time_reduction;
     volume_increase_percentage := volume_increase_percentage;
     new_total_volume := new_total_volume;
     original_total_cost := original_total_cost;
     new_cost_per_parcel := new_cost_per_parcel |}.

End binary64.

Section Doubles.

Import PrimFloat.
Local Open Scope float_scope.
Local Set Warnings "-inexact-float".

(** C10, as stated, fails on the doubles.  A table of 13 rows, all delivered
    in 0 days, has the mean 0; at the neutral rate 0.05 the improved time is
    at most the mean, the increase is 0 and the new volume is 13, as
    claimed, but 13 * 6.81 is rounded to 88.53 and 88.53 / 13 to the double
    just above 6.81: the new cost per parcel exceeds 6.81.  It is the cost
    per parcel that the table gets at rate 0, as the amended claim says. *)
Lemma cost_above_original_cost :
  let p := binary64.calculate_metrics 13 0 0.05 in
  let p0 := binary64.calculate_metrics 13 0 0 in
  (binary64.improved_avg_delivery_time p <=? 0) = true /\
  (0 <=? binary64.volume_increase_percentage p) = true /\
  (13 <=? binary64.new_total_volume p) = true /\
  (binary64.original_total_cost p =? 88.53) = true /\
  (binary64.ORIGINAL_COST_PER_PARCEL <? binary64.new_cost_per_parcel p) = true /\
  (binary64.new_cost_per_parcel p =? 6.8100000000000005) = true /\
  (binary64.new_cost_per_parcel p <=? binary64.new_cost_per_parcel p0) = true.
Proof. cbv zeta. repeat split; reflexivity. Qed.

End Doubles.

(** * Further properties of the scripts *)

(** ** More on the metrics aggregator *)

Lemma analyze_to_text_entries (df : DataFrame) :
  exists r,
    delivery_time.analyze_to_text df = inr (r, with_resolution_time df) /\
    delivery_time.average_delivery_time r =
      mean (map delivery_time_business_days (data df)) /\
    delivery_time.on_time_delivery_rate r =
      mean_bool (le_scalar (map delivery_time_business_days (data df)) 5) /\
    delivery_time.compensation_rate r =
      mean_bool (notnull (map total_compensation (data df))) /\
    delivery_time.avg_compensation_amount r = mean (map total_compensation (data df)) /\
    delivery_time.cs_ticket_rate r = mean_bool (map has_marketplace_cs_ticket (data df)) /\
    delivery_time.resolution_time_avg r = mean (map resolution_days (data df)).
Proof.
  unfold delivery_time.analyze_to_text. cbv zeta. rewrite getitem_num_setitem. simpl.
  eexists. repeat split; reflexivity.
Qed.

Lemma count_true_le (s : list bool) : (count_true s <= length s)%nat.
Proof. unfold count_true. apply filter_length_le. Qed.

(** A rate of [calculate_metrics]: the mean of a mask, times 100. *)
Lemma percent_of_mask (s : list bool) :
  s <> [] ->
  fmul (mean_bool s) (of_int 100) =
    Fin (inject_Z (Z.of_nat (count_true s)) / inject_Z (Z.of_nat (length s)) * inject_Z 100).
Proof. intros H. rewrite mean_bool_nonempty by assumption. reflexivity. Qed.

Lemma fraction_bounds (c n : nat) :
  (c <= n)%nat -> (0 < n)%nat ->
  0 <= inject_Z (Z.of_nat c) / inject_Z (Z.of_nat n) /\
  inject_Z (Z.of_nat c) / inject_Z (Z.of_nat n) <= 1.
Proof.
  intros Hcn Hn.
  pose proof (inject_nat_pos n Hn). pose proof (inject_nat_nonneg c).
  pose proof (inject_nat_le c n Hcn).
  split; [apply Qle_shift_div_l | apply Qle_shift_div_r]; lra.
Qed.

Lemma length_le_scalar (s : list (option Q)) (k : Q) : length (le_scalar s k) = length s.
Proof. unfold le_scalar. apply length_map. Qed.

Lemma length_gt_scalar (s : list (option Q)) (k : Q) : length (gt_scalar s k) = length s.
Proof. unfold gt_scalar. apply length_map. Qed.

Lemma nonempty_length {A : Type} (l : list A) : l <> [] -> (0 < length l)%nat.
Proof. destruct l; [congruence | simpl; lia]. Qed.

Lemma map_nonempty {A B : Type} (f : A -> B) (l : list A) : l <> [] -> map f l <> [].
Proof. destruct l; [congruence | discriminate]. Qed.

Lemma count_true_cons (b : bool) (s : list bool) :
  count_true (b :: s) = if b then S (count_true s) else count_true s.
Proof. unfold count_true. simpl. destruct b; reflexivity. Qed.

Lemma count_true_all {A : Type} (p : A -> bool) (l : list A) :
  count_true (map p l) = length l <-> Forall (fun a => p a = true) l.
Proof.
  induction l as [|a l IH]; [split; [constructor | reflexivity]|].
  change (map p (a :: l)) with (p a :: map p l). rewrite count_true_cons.
  pose proof (count_true_le (map p l)) as Hle. rewrite length_map in Hle.
  simpl length. split.
  - intros H. destruct (p a) eqn:E; [|lia].
    constructor; [exact E | apply IH; lia].
  - intros H. inversion H as [|? ? Ha Hl]; subst. rewrite Ha.
    f_equal. apply IH. exact Hl.
Qed.

Lemma count_true_none {A : Type} (p : A -> bool) (l : list A) :
  count_true (map p l) = 0%nat <-> Forall (fun a => p a = false) l.
Proof.
  induction l as [|a l IH]; [split; [constructor | reflexivity]|].
  change (map p (a :: l)) with (p a :: map p l). rewrite count_true_cons.
  split.
  - intros H. destruct (p a) eqn:E; [discriminate|].
    constructor; [exact E | apply IH; exact H].
  - intros H. inversion H as [|? ? Ha Hl]; subst. rewrite Ha. apply IH. exact Hl.
Qed.

Lemma inject_nat_eq (a b : nat) :
  inject_Z (Z.of_nat a) == inject_Z (Z.of_nat b) <-> a = b.
Proof.
  split; [|intros ->; reflexivity].
  intros H. unfold Qeq in H. simpl in H. lia.
Qed.

(** A percentage [c / n * 100] of a count is 100 only for the full count,
    and 0 only for the count 0. *)
Lemma percent_full (c n : nat) :
  (0 < n)%nat ->
  (inject_Z (Z.of_nat c) / inject_Z (Z.of_nat n) * 100 == 100 <-> c = n).
Proof.
  intros Hn. pose proof (inject_nat_pos n Hn) as Hpos.
  rewrite <- inject_nat_eq.
  set (x := inject_Z (Z.of_nat c)) in *. set (y := inject_Z (Z.of_nat n)) in *.
  assert (E : x == x / y * y) by (field; lra).
  split; intros H.
  - assert (H1 : x / y == 1) by lra. rewrite E, H1. ring.
  - rewrite H. field. lra.
Qed.

Lemma percent_none (c n : nat) :
  (0 < n)%nat ->
  (inject_Z (Z.of_nat c) / inject_Z (Z.of_nat n) * 100 == 0 <-> c = 0%nat).
Proof.
  intros Hn. pose proof (inject_nat_pos n Hn) as Hpos.
  rewrite <- (inject_nat_eq c 0). change (inject_Z (Z.of_nat 0)) with 0.
  set (x := inject_Z (Z.of_nat c)) in *. set (y := inject_Z (Z.of_nat n)) in *.
  assert (E : x == x / y * y) by (field; lra).
  split; intros H.
  - assert (H1 : x / y == 0) by lra. rewrite E, H1. ring.
  - rewrite H. field. lra.
Qed.

(** A row delivered within [k] days, and one delivered after [k] days; a row
    without delivery time is neither. *)
Definition delivered_within (k : Q) (r : Shipment Timestamp) : bool :=
  match delivery_time_business_days r with
  | Some d => Qle_bool d k
  | None => false
  end.

Definition delivered_after (k : Q) (r : Shipment Timestamp) : bool :=
  match delivery_time_business_days r with
  | Some d => negb (Qle_bool d k)
  | None => false
  end.

(** X1: on a non-empty table the on-time rate of [calculate_metrics] is 100
    exactly when every row is delivered within 7 days and 0 exactly when
    none is; the late rate is 100 exactly when every row is delivered after
    7 days and 0 exactly when none is.  So one rate at 100 puts the other at
    0, and a row without delivery time, which is neither on time nor late,
    keeps both rates from 100. *)
Theorem on_time_and_late_rates (df : DataFrame) :
  data df <> [] ->
  exists m df' (on_time late : Q),
    delivery_time.calculate_metrics df = inr (m, df') /\
    m !! "on_time_delivery_rate" = Some (PFloat (Fin on_time)) /\
    m !! "late_delivery_rate" = Some (PFloat (Fin late)) /\
    (on_time == 100 <-> Forall (fun r => delivered_within 7 r = true) (data df)) /\
    (on_time == 0 <-> Forall (fun r => delivered_within 7 r = false) (data df)) /\
    (late == 100 <-> Forall (fun r => delivered_after 7 r = true) (data df)) /\
    (late == 0 <-> Forall (fun r => delivered_after 7 r = false) (data df)) /\
    (on_time == 100 -> late == 0) /\
    (late == 100 -> on_time == 0).
Proof.
  intros Hne.
  destruct (calculate_metrics_entries df) as (m & Hm & _ & Hon & Hlate & _).
  rewrite percent_of_mask in Hon by (unfold le_scalar; do 2 apply map_nonempty; assumption).
  rewrite percent_of_mask in Hlate
    by (unfold gt_scalar; do 2 apply map_nonempty; assumption).
  rewrite length_le_scalar, length_map in Hon.
  rewrite length_gt_scalar, length_map in Hlate.
  unfold le_scalar in Hon. unfold gt_scalar in Hlate. rewrite map_map in Hon, Hlate.
  change (map _ (data df)) with (map (delivered_within 7) (data df)) in Hon.
  change (map _ (data df)) with (map (delivered_after 7) (data df)) in Hlate.
  change (inject_Z 100) with 100 in Hon, Hlate.
  pose proof (nonempty_length _ Hne) as Hn.
  pose proof (percent_full (count_true (map (delivered_within 7) (data df))) _ Hn) as F1.
  pose proof (percent_none (count_true (map (delivered_within 7) (data df))) _ Hn) as N1.
  pose proof (percent_full (count_true (map (delivered_after 7) (data df))) _ Hn) as F2.
  pose proof (percent_none (count_true (map (delivered_after 7) (data df))) _ Hn) as N2.
  rewrite count_true_all in F1, F2. rewrite count_true_none in N1, N2.
  do 4 eexists. split; [exact Hm|]. split; [exact Hon|]. split; [exact Hlate|].
  split; [exact F1|]. split; [exact N1|]. split; [exact F2|]. split; [exact N2|].
  split.
  - intros H. apply N2. apply F1 in H. eapply Forall_impl; [|exact H].
    intros r. unfold delivered_within, delivered_after.
    destruct (delivery_time_business_days r); [intros ->; reflexivity | discriminate].
  - intros H. apply N1. apply F2 in H. eapply Forall_impl; [|exact H].
    intros r. unfold delivered_within, delivered_after.
    destruct (delivery_time_business_days r); [|discriminate].
    destruct (Qle_bool q 7); [discriminate | reflexivity].
Qed.

Definition one_undelivered : DataFrame :=
  {| data := [parcel 2023 1 15 (Some 2) (Some 10) (Some "Lost") "LYO1" "PAR1";
              parcel 2023 1 16 (Some 9) None None "LYO1" "PAR1";
              parcel 2023 1 17 None None None "LYO1" "PAR1"];
     extra := ∅ |}.

Lemma on_time_and_late_rates_witness :
  exists m df' (on_time late : Q),
    delivery_time.calculate_metrics one_undelivered = inr (m, df') /\
    m !! "on_time_delivery_rate" = Some (PFloat (Fin on_time)) /\
    m !! "late_delivery_rate" = Some (PFloat (Fin late)) /\
    (on_time == 100 <->
     Forall (fun r => delivered_within 7 r = true) (data one_undelivered)) /\
    (on_time == 0 <->
     Forall (fun r => delivered_within 7 r = false) (data one_undelivered)) /\
    (late == 100 <-> Forall (fun r => delivered_after 7 r = true) (data one_undelivered)) /\
    (late == 0 <-> Forall (fun r => delivered_after 7 r = false) (data one_undelivered)) /\
    (on_time == 100 -> late == 0) /\
    (late == 100 -> on_time == 0).
Proof. apply (on_time_and_late_rates one_undelivered). discriminate. Defined.

Lemma percent_bounds (s : list bool) :
  s <> [] ->
  exists q, fmul (mean_bool s) (of_int 100) = Fin q /\ 0 <= q /\ q <= 100.
Proof.
  intros Hs. rewrite percent_of_mask by assumption.
  destruct (fraction_bounds (count_true s) (length s)
              (count_true_le s) (nonempty_length s Hs)) as [H0 H1].
  eexists. split; [reflexivity|]. change (inject_Z 100) with 100.
  set (f := inject_Z (Z.of_nat (count_true s)) / inject_Z (Z.of_nat (length s))) in *.
  split; lra.
Qed.

(** X2: on a non-empty table the four rates of [calculate_metrics] are
    numbers between 0 and 100. *)
Theorem rates_are_percentages (df : DataFrame) :
  data df <> [] ->
  exists m df' (on_time late tickets compensated : Q),
    delivery_time.calculate_metrics df = inr (m, df') /\
    m !! "on_time_delivery_rate" = Some (PFloat (Fin on_time)) /\
    m !! "late_delivery_rate" = Some (PFloat (Fin late)) /\
    m !! "cs_ticket_rate" = Some (PFloat (Fin tickets)) /\
    m !! "compensation_rate" = Some (PFloat (Fin compensated)) /\
    (0 <= on_time /\ on_time <= 100) /\
    (0 <= late /\ late <= 100) /\
    (0 <= tickets /\ tickets <= 100) /\
    (0 <= compensated /\ compensated <= 100).
Proof.
  intros Hne.
  destruct (calculate_metrics_entries df) as (m & Hm & _ & Hon & Hlate & Ht & Hc & _).
  destruct (percent_bounds (le_scalar (map delivery_time_business_days (data df)) 7))
    as (a & Ha & Ha0); [unfold le_scalar; do 2 apply map_nonempty; assumption|].
  destruct (percent_bounds (gt_scalar (map delivery_time_business_days (data df)) 7))
    as (b & Hb & Hb0); [unfold gt_scalar; do 2 apply map_nonempty; assumption|].
  destruct (percent_bounds (map has_marketplace_cs_ticket (data df)))
    as (c & Hc' & Hc0); [apply map_nonempty; assumption|].
  destruct (percent_bounds (notnull (map total_compensation (data df))))
    as (d & Hd & Hd0); [unfold notnull; do 2 apply map_nonempty; assumption|].
  rewrite Ha in Hon. rewrite Hb in Hlate. rewrite Hc' in Ht. rewrite Hd in Hc.
  exists m, (with_resolution_time df), a, b, c, d. repeat split; tauto.
Qed.

Lemma rates_are_percentages_witness :
  exists m df' (on_time late tickets compensated : Q),
    delivery_time.calculate_metrics one_undelivered = inr (m, df') /\
    m !! "on_time_delivery_rate" = Some (PFloat (Fin on_time)) /\
    m !! "late_delivery_rate" = Some (PFloat (Fin late)) /\
    m !! "cs_ticket_rate" = Some (PFloat (Fin tickets)) /\
    m !! "compensation_rate" = Some (PFloat (Fin compensated)) /\
    (0 <= on_time /\ on_time <= 100) /\
    (0 <= late /\ late <= 100) /\
    (0 <= tickets /\ tickets <= 100) /\
    (0 <= compensated /\ compensated <= 100).
Proof. apply (rates_are_percentages one_undelivered). discriminate. Defined.

Lemma filter_length_all {A : Type} (P : A -> bool) (l : list A) :
  length (filter P l) = length l <-> Forall (fun a => P a = true) l.
Proof.
  induction l as [|a l IH]; [split; [constructor | reflexivity]|].
  pose proof (filter_length_le P l) as Hle. simpl.
  destruct (P a) eqn:E; simpl; split.
  - intros H. constructor; [exact E | apply IH; lia].
  - intros H. inversion H; subst. f_equal. apply IH. assumption.
  - intros H. lia.
  - intros H. inversion H; subst. congruence.
Qed.

(** X3: when some row is compensated, [compensation_rate] is above 0 and at
    most 100, and [shipment_weight] is at least 100; each of them is 100
    exactly when every row is compensated. *)
Theorem shipment_weight_at_least_100 (df : DataFrame) :
  count_compensated df <> 0%nat ->
  exists m df' (rate weight : Q),
    delivery_time.calculate_metrics df = inr (m, df') /\
    m !! "compensation_rate" = Some (PFloat (Fin rate)) /\
    m !! "shipment_weight" = Some (PFloat (Fin weight)) /\
    0 < rate /\ rate <= 100 /\
    100 <= weight /\
    (rate == 100 <-> Forall (fun r => total_compensation r <> None) (data df)) /\
    (weight == 100 <-> Forall (fun r => total_compensation r <> None) (data df)).
Proof.
  intros Hk.
  destruct (calculate_metrics_entries df) as (m & Hm & _ & _ & _ & _ & Hc & _ & _ & Hw & _).
  assert (Hne : data df <> []).
  { intros E. apply Hk. unfold count_compensated. rewrite E. reflexivity. }
  rewrite percent_of_mask in Hc by (unfold notnull; do 2 apply map_nonempty; assumption).
  rewrite count_true_notnull, length_dropna_filter in Hc.
  fold (count_compensated df) in Hc.
  replace (length (notnull (map total_compensation (data df)))) with (length (data df))
    in Hc by (unfold notnull; rewrite !length_map; reflexivity).
  destruct (Nat.eqb (count_compensated df) 0) eqn:E;
    [apply Nat.eqb_eq in E; contradiction|].
  pose proof (nonempty_length _ Hne) as Hlen.
  pose proof (inject_nat_pos _ Hlen) as Hn.
  assert (Hkpos : 0 < inject_Z (Z.of_nat (count_compensated df)))
    by (apply inject_nat_pos; lia).
  assert (Hkn : (count_compensated df <= length (data df))%nat)
    by (unfold count_compensated; apply filter_length_le).
  pose proof (inject_nat_le _ _ Hkn) as Hle.
  assert (Hall : count_compensated df = length (data df) <->
                 Forall (fun r => total_compensation r <> None) (data df)).
  { unfold count_compensated. rewrite filter_length_all.
    split; intros H; (eapply Forall_impl; [|exact H]); intros r; apply present_not_None. }
  pose proof (percent_full (count_compensated df) _ Hlen) as Hfull.
  change (inject_Z 100) with 100 in Hc, Hw.
  set (c := inject_Z (Z.of_nat (count_compensated df))) in *.
  set (n := inject_Z (Z.of_nat (length (data df)))) in *.
  assert (Hcn0 : 0 < c / n) by (apply Qlt_shift_div_l; lra).
  assert (Hcn1 : c / n <= 1) by (apply Qle_shift_div_r; lra).
  assert (Hnc1 : 1 <= n / c) by (apply Qle_shift_div_l; lra).
  do 4 eexists. split; [exact Hm|]. split; [exact Hc|]. split; [exact Hw|].
  split; [lra|]. split; [lra|]. split; [lra|]. split.
  - rewrite Hfull. exact Hall.
  - rewrite <- Hall, <- Hfull.
    assert (E1 : n / c * (c / n) == 1) by (field; split; lra).
    split; intros H.
    + assert (H1 : n / c == 1) by lra. rewrite H1 in E1. lra.
    + assert (H1 : c / n == 1) by lra. rewrite H1 in E1. lra.
Qed.

Lemma shipment_weight_at_least_100_witness :
  exists m df' (rate weight : Q),
    delivery_time.calculate_metrics one_undelivered = inr (m, df') /\
    m !! "compensation_rate" = Some (PFloat (Fin rate)) /\
    m !! "shipment_weight" = Some (PFloat (Fin weight)) /\
    0 < rate /\ rate <= 100 /\
    100 <= weight /\
    (rate == 100 <-> Forall (fun r => total_compensation r <> None) (data one_undelivered)) /\
    (weight == 100 <->
     Forall (fun r => total_compensation r <> None) (data one_undelivered)).
Proof. apply (shipment_weight_at_least_100 one_undelivered). discriminate. Defined.

Lemma setitem_twice (df : DataFrame) (name : string) (c c' : column) :
  setitem (setitem df name c) name c' = setitem df name c'.
Proof. unfold setitem. simpl. rewrite insert_insert_eq. reflexivity. Qed.

Lemma calculate_metrics_same_rows (df1 df2 : DataFrame) :
  data df1 = data df2 ->
  exists m,
    delivery_time.calculate_metrics df1 = inr (m, with_resolution_time df1) /\
    delivery_time.calculate_metrics df2 = inr (m, with_resolution_time df2).
Proof.
  destruct df1 as [rows e1], df2 as [rows2 e2]. simpl. intros <-.
  unfold delivery_time.calculate_metrics. cbv zeta.
  rewrite !len_dropna_total_compensation, !getitem_num_setitem.
  unfold count_compensated, len. simpl data.
  destruct (Nat.eqb _ 0) eqn:E; simpl.
  - eexists. split; reflexivity.
  - unfold int_truediv. apply Nat.eqb_neq in E.
    destruct (Z.of_nat _ =? 0)%Z eqn:E2; [apply Z.eqb_eq in E2; lia|].
    simpl. eexists. split; reflexivity.
Qed.

(** X4: computing the metrics again on the frame that a call has left gives
    the same dict and leaves the frame as it is: the column assigned by the
    call does not enter any metric, and assigning it again changes nothing. *)
Theorem calculate_metrics_twice (df : DataFrame) :
  exists m df',
    delivery_time.calculate_metrics df = inr (m, df') /\
    delivery_time.calculate_metrics df' = inr (m, df').
Proof.
  destruct (calculate_metrics_same_rows df (with_resolution_time df) eq_refl)
    as (m & H1 & H2).
  exists m, (with_resolution_time df). split; [exact H1|].
  rewrite H2. f_equal. f_equal. unfold with_resolution_time.
  rewrite setitem_twice. reflexivity.
Qed.

Lemma le_scalar_monotone (s : list (option Q)) (j k : Q) :
  j <= k -> (count_true (le_scalar s j) <= count_true (le_scalar s k))%nat.
Proof.
  intros Hjk. unfold count_true, le_scalar.
  induction s as [|[q|] s IH]; simpl; [lia| |exact IH].
  destruct (Qle_bool q j) eqn:Ej.
  - apply Qle_bool_iff in Ej.
    assert (Ek : Qle_bool q k = true) by (apply Qle_bool_iff; lra).
    rewrite Ek. simpl. lia.
  - destruct (Qle_bool q k); simpl; lia.
Qed.

(** X5: the two on-time rates use different thresholds, 5 days in
    [analyze_to_text] and 7 days in [calculate_metrics]; on the same
    non-empty table the rate of the report, as a percentage, is at most the
    rate of the metrics. *)
Theorem on_time_thresholds (df : DataFrame) :
  data df <> [] ->
  exists r m df' (report_rate metrics_rate : Q),
    delivery_time.analyze_to_text df = inr (r, df') /\
    delivery_time.calculate_metrics df = inr (m, df') /\
    delivery_time.on_time_delivery_rate r = Fin report_rate /\
    m !! "on_time_delivery_rate" = Some (PFloat (Fin metrics_rate)) /\
    report_rate * 100 <= metrics_rate.
Proof.
  intros Hne.
  destruct (calculate_metrics_entries df) as (m & Hm & _ & Hon & _).
  destruct (analyze_to_text_entries df) as (r & Hr & _ & Hrate & _).
  set (s := map delivery_time_business_days (data df)) in *.
  rewrite percent_of_mask in Hon by (unfold le_scalar; do 2 apply map_nonempty; assumption).
  rewrite mean_bool_nonempty in Hrate
    by (unfold le_scalar; do 2 apply map_nonempty; assumption).
  rewrite length_le_scalar in Hon, Hrate.
  assert (Hn : 0 < inject_Z (Z.of_nat (length s))).
  { apply inject_nat_pos. subst s. rewrite length_map. apply nonempty_length. assumption. }
  pose proof (inject_nat_le _ _ (le_scalar_monotone s 5 7 ltac:(lra))) as Hmono.
  do 5 eexists. split; [exact Hr|]. split; [exact Hm|]. split; [exact Hrate|].
  split; [exact Hon|].
  change (inject_Z 100) with 100.
  set (a := inject_Z (Z.of_nat (count_true (le_scalar s 5)))) in *.
  set (b := inject_Z (Z.of_nat (count_true (le_scalar s 7)))) in *.
  set (n := inject_Z (Z.of_nat (length s))) in *.
  assert (H : a / n <= b / n).
  { unfold Qdiv. apply Qmult_le_compat_r; [assumption|].
    apply Qinv_le_0_compat. lra. }
  lra.
Qed.

Lemma on_time_thresholds_witness :
  exists r m df' (report_rate metrics_rate : Q),
    delivery_time.analyze_to_text one_undelivered = inr (r, df') /\
    delivery_time.calculate_metrics one_undelivered = inr (m, df') /\
    delivery_time.on_time_delivery_rate r = Fin report_rate /\
    m !! "on_time_delivery_rate" = Some (PFloat (Fin metrics_rate)) /\
    report_rate * 100 <= metrics_rate.
Proof. apply (on_time_thresholds one_undelivered). discriminate. Defined.

(** ** The partition driver of delivery_time.py *)

Lemma select_map {A : Type} (p : A -> bool) (l : list A) :
  select (map p l) l = filter p l.
Proof.
  induction l as [|a l IH]; simpl; [reflexivity|].
  destruct (p a); rewrite IH; reflexivity.
Qed.

Lemma In_unique (x : string) (l : list string) : In x (unique l) <-> In x l.
Proof.
  induction l as [|y l IH]; simpl; [reflexivity|].
  rewrite filter_In, IH, Bool.negb_true_iff, String.eqb_neq.
  destruct (String.eqb_spec y x) as [->|Hne]; [tauto|].
  split; [tauto|]. intros [H|H]; [contradiction | right; split; [assumption | congruence]].
Qed.

Lemma NoDup_unique (l : list string) : NoDup (unique l).
Proof.
  induction l as [|y l IH]; simpl; constructor.
  - rewrite filter_In, Bool.negb_true_iff, String.eqb_neq. tauto.
  - apply NoDup_filter. exact IH.
Qed.

Definition pair_lt (a b : string * string) : Prop := pair_compare a b = Lt.

Lemma compare_same (s : string) : String.compare s s = Eq.
Proof.
  destruct (String.compare s s) eqn:E; [reflexivity| |].
  - exfalso. apply (string_lt_irrefl s). exact E.
  - exfalso. apply (string_lt_irrefl s). apply compare_Gt_lt. exact E.
Qed.

Lemma pair_compare_Eq (a b : string * string) : pair_compare a b = Eq -> a = b.
Proof.
  destruct a as [a1 a2], b as [b1 b2]. unfold pair_compare. simpl.
  destruct (String.compare a1 b1) eqn:E1; try discriminate.
  intros E2. apply String.compare_eq_iff in E1, E2. congruence.
Qed.

Lemma pair_compare_Gt (a b : string * string) : pair_compare a b = Gt -> pair_lt b a.
Proof.
  destruct a as [a1 a2], b as [b1 b2]. unfold pair_lt, pair_compare. simpl.
  destruct (String.compare a1 b1) eqn:E1; try discriminate.
  - intros E2. apply String.compare_eq_iff in E1. subst b1.
    rewrite compare_same. apply compare_Gt_lt. exact E2.
  - intros _. apply compare_Gt_lt in E1. unfold string_lt in E1. rewrite E1. reflexivity.
Qed.

Lemma pair_lt_cases (a b : string * string) :
  pair_lt a b <->
  string_lt (fst a) (fst b) \/ (fst a = fst b /\ string_lt (snd a) (snd b)).
Proof.
  unfold pair_lt, pair_compare, string_lt.
  destruct (String.compare (fst a) (fst b)) eqn:E.
  - apply String.compare_eq_iff in E. split; [auto|]. intros [H|[_ H]]; [discriminate|exact H].
  - tauto.
  - split; [discriminate|]. intros [H|[H _]]; [discriminate|].
    rewrite H, compare_same in E. discriminate.
Qed.

Lemma pair_lt_trans (a b c : string * string) : pair_lt a b -> pair_lt b c -> pair_lt a c.
Proof.
  rewrite !pair_lt_cases. intros [H1|[H1 H1']] [H2|[H2 H2']].
  - left. eapply string_lt_trans; eassumption.
  - left. rewrite <- H2. exact H1.
  - left. rewrite H1. exact H2.
  - right. split; [congruence|]. eapply string_lt_trans; eassumption.
Qed.

Lemma pair_lt_irrefl (a : string * string) : ~ pair_lt a a.
Proof.
  rewrite pair_lt_cases. intros [H|[_ H]]; exact (string_lt_irrefl _ H).
Qed.

Lemma In_insert_pair (k k0 : string * string) (ks : list (string * string)) :
  In k (insert_pair k0 ks) <-> k = k0 \/ In k ks.
Proof.
  induction ks as [|k' ks IH]; simpl.
  - intuition.
  - destruct (pair_compare k0 k') eqn:E; simpl.
    + apply pair_compare_Eq in E. subst. intuition.
    + intuition.
    + rewrite IH. intuition.
Qed.

Lemma insert_pair_HdRel (a k0 : string * string) (ks : list (string * string)) :
  HdRel pair_lt a ks -> pair_lt a k0 -> HdRel pair_lt a (insert_pair k0 ks).
Proof.
  intros Hhd Hlt. destruct ks as [|k' ks]; simpl.
  - constructor. assumption.
  - destruct (pair_compare k0 k'); constructor;
      [inversion Hhd | | inversion Hhd]; assumption.
Qed.

Lemma insert_pair_sorted (k0 : string * string) (ks : list (string * string)) :
  Sorted pair_lt ks -> Sorted pair_lt (insert_pair k0 ks).
Proof.
  induction 1 as [|k' ks Hs IH Hhd]; simpl.
  - repeat constructor.
  - destruct (pair_compare k0 k') eqn:E.
    + constructor; assumption.
    + constructor; [constructor; assumption | constructor; exact E].
    + constructor; [exact IH|]. apply insert_pair_HdRel; [assumption|].
      apply pair_compare_Gt. exact E.
Qed.

Lemma pair_keys_sorted (keys : list (option (string * string))) :
  StronglySorted pair_lt (pair_keys keys).
Proof.
  apply Sorted_StronglySorted; [exact pair_lt_trans|].
  unfold pair_keys. induction (dropna keys) as [|k ks IH]; simpl.
  - constructor.
  - apply insert_pair_sorted. exact IH.
Qed.

Lemma pair_keys_NoDup (keys : list (option (string * string))) : NoDup (pair_keys keys).
Proof.
  induction (pair_keys_sorted keys) as [|k ks _ IH Hall]; constructor; [|exact IH].
  intros Hin. rewrite Forall_forall in Hall. apply (pair_lt_irrefl k). auto.
Qed.

Lemma In_pair_keys (k : string * string) (keys : list (option (string * string))) :
  In k (pair_keys keys) <-> In (Some k) keys.
Proof.
  rewrite <- In_dropna. unfold pair_keys.
  induction (dropna keys) as [|k' ks IH]; simpl; [reflexivity|].
  rewrite In_insert_pair, IH. intuition.
Qed.

Lemma pair_eqb_eq (a b : string * string) : pair_eqb a b = true <-> a = b.
Proof.
  destruct a as [a1 a2], b as [b1 b2]. unfold pair_eqb. simpl.
  rewrite Bool.andb_true_iff, !String.eqb_eq. split; [intros [-> ->]; reflexivity|].
  intros H. injection H. auto.
Qed.

Section Partition.

Context {A K : Type} (eqb : K -> K -> bool).
Hypothesis eqb_eq : forall a b, eqb a b = true <-> a = b.

Lemma count_miss (f : K -> nat) (k0 : K) (ks : list K) :
  ~ In k0 ks ->
  list_sum (map (fun k => if eqb k k0 then S (f k) else f k) ks) = list_sum (map f ks).
Proof using eqb_eq.
  induction ks as [|k ks IH]; simpl; intros Hnot; [reflexivity|].
  destruct (eqb k k0) eqn:E.
  - apply eqb_eq in E. exfalso. apply Hnot. left. assumption.
  - rewrite IH by tauto. reflexivity.
Qed.

Lemma count_hit (f : K -> nat) (k0 : K) (ks : list K) :
  NoDup ks -> In k0 ks ->
  list_sum (map (fun k => if eqb k k0 then S (f k) else f k) ks) = S (list_sum (map f ks)).
Proof using eqb_eq.
  induction 1 as [|k ks Hk _ IH]; simpl; intros Hin; [contradiction|].
  destruct (eqb k k0) eqn:E.
  - apply eqb_eq in E. subst k0. rewrite count_miss by assumption. reflexivity.
  - destruct Hin as [->|Hin].
    + assert (H : eqb k0 k0 = true) by (apply eqb_eq; reflexivity). congruence.
    + rewrite IH by assumption. lia.
Qed.

(** Groups over distinct keys that cover the rows hold every row once. *)
Lemma groups_cover (key : A -> K) (ks : list K) (l : list A) :
  NoDup ks ->
  (forall r, In r l -> In (key r) ks) ->
  list_sum (map (fun k => length (filter (fun r => eqb k (key r)) l)) ks) = length l.
Proof using eqb_eq.
  intros Hnd. induction l as [|a l IH]; intros Hcover.
  - simpl. clear Hnd Hcover. induction ks as [|k ks IHk]; simpl; [reflexivity | exact IHk].
  - simpl filter. simpl length.
    rewrite <- (IH (fun r Hr => Hcover r (or_intror Hr))).
    rewrite <- (count_hit (fun k => length (filter (fun r => eqb k (key r)) l)) (key a) ks
                  Hnd (Hcover a (or_introl eq_refl))).
    f_equal. apply map_ext. intros k. destruct (eqb k (key a)); reflexivity.
Qed.

End Partition.

(** The dict that [calculate_metrics] returns. *)
Definition metrics_of (df : DataFrame) : gmap string pyval :=
  match delivery_time.calculate_metrics df with
  | inr (m, _) => m
  | inl _ => ∅
  end.

Lemma calculate_metrics_metrics_of (df : DataFrame) :
  delivery_time.calculate_metrics df = inr (metrics_of df, with_resolution_time df).
Proof.
  destruct (calculate_metrics_entries df) as (m & Hm & _).
  unfold metrics_of. rewrite Hm. reflexivity.
Qed.

Lemma count_parcels_metrics_of (df : DataFrame) :
  metrics_of df !! "count_parcels" = Some (PInt (Z.of_nat (length (data df)))).
Proof.
  destruct (calculate_metrics_entries df) as (m & Hm & _ & _ & _ & _ & _ & _ & Hn & _).
  unfold metrics_of. rewrite Hm. exact Hn.
Qed.

Lemma mapM_inr {A B : Type} (f : A -> result B) (g : A -> B) (l : list A) :
  (forall a, f a = inr (g a)) -> mapM f l = inr (map g l).
Proof.
  intros H. induction l as [|a l IH]; simpl; [reflexivity|].
  rewrite H, IH. reflexivity.
Qed.

(** What identifies an entry of the consolidated table: its two tags and
    its row count. *)
Definition entry_summary (m : gmap string pyval)
  : option pyval * option pyval * option pyval :=
  (m !! "type", m !! "identifier", m !! "count_parcels").

Definition rows_of_route (route0 : string) (rows : list (Shipment Timestamp))
  : list (Shipment Timestamp) :=
  filter (fun r => String.eqb (route r) route0) rows.

Definition rows_of_centers (key : string * string) (rows : list (Shipment Timestamp))
  : list (Shipment Timestamp) :=
  filter (fun r => pair_eqb key (from_sc_code r, to_sc_code r)) rows.

Definition route_entry (rows : list (Shipment Timestamp)) (route0 : string)
  : option pyval * option pyval * option pyval :=
  (Some (PStr "Route"), Some (PStr route0),
   Some (PInt (Z.of_nat (length (rows_of_route route0 rows))))).

Definition centers_entry (rows : list (Shipment Timestamp)) (key : string * string)
  : option pyval * option pyval * option pyval :=
  (Some (PStr "Sortation Center"), Some (PStr (fst key ++ " -> " ++ snd key)),
   Some (PInt (Z.of_nat (length (rows_of_centers key rows))))).

Lemma entry_summary_tagged (df : DataFrame) (type identifier : string) :
  entry_summary (delivery_time.tagged (metrics_of df) type identifier) =
  (Some (PStr type), Some (PStr identifier), Some (PInt (Z.of_nat (length (data df))))).
Proof.
  unfold entry_summary, delivery_time.tagged. cbv zeta.
  rewrite lookup_insert_ne by discriminate. rewrite lookup_insert_eq.
  rewrite lookup_insert_eq.
  rewrite !lookup_insert_ne by discriminate.
  rewrite count_parcels_metrics_of. reflexivity.
Qed.

Lemma analyze_and_consolidate_entries (df : DataFrame) :
  delivery_time.analyze_and_consolidate df =
  inr (map (fun route0 =>
              delivery_time.tagged
                (metrics_of (loc df (map (fun r => String.eqb (route r) route0) (data df))))
                "Route" route0)
           (unique (map route (data df)))
       ++ map (fun key : string * string =>
                 delivery_time.tagged
                   (metrics_of
                      (loc df (map (fun r => pair_eqb key (from_sc_code r, to_sc_code r))
                                   (data df))))
                   "Sortation Center" (fst key ++ " -> " ++ snd key))
              (pair_keys (map (fun r => Some (from_sc_code r, to_sc_code r)) (data df))))%list.
Proof.
  unfold delivery_time.analyze_and_consolidate. cbv zeta.
  erewrite mapM_inr; [|intros a; rewrite calculate_metrics_metrics_of; reflexivity].
  cbn [bind].
  erewrite mapM_inr; [|intros a; rewrite calculate_metrics_metrics_of; reflexivity].
  reflexivity.
Qed.

(** X6: [analyze_and_consolidate] always returns.  Its list holds one entry
    for each distinct route, in the order in which the routes first appear,
    tagged "Route" and with the route as identifier, and then one entry for
    each distinct pair of sortation centers, in ascending order of the pair,
    tagged "Sortation Center" and identified as "FROM -> TO"; each entry
    counts the rows of its partition. *)
Theorem consolidated_partitions (df : DataFrame) :
  exists out,
    delivery_time.analyze_and_consolidate df = inr out /\
    map entry_summary out =
      (map (route_entry (data df)) (unique (map route (data df)))
       ++ map (centers_entry (data df))
              (pair_keys (map (fun r => Some (from_sc_code r, to_sc_code r)) (data df))))%list /\
    NoDup (unique (map route (data df))) /\
    (forall route0, In route0 (unique (map route (data df))) <->
                    exists r, In r (data df) /\ route r = route0) /\
    StronglySorted pair_lt
      (pair_keys (map (fun r => Some (from_sc_code r, to_sc_code r)) (data df))) /\
    (forall key,
        In key (pair_keys (map (fun r => Some (from_sc_code r, to_sc_code r)) (data df))) <->
        exists r, In r (data df) /\ (from_sc_code r, to_sc_code r) = key).
Proof.
  eexists. split; [apply analyze_and_consolidate_entries|].
  split.
  { rewrite map_app, !map_map. f_equal; apply map_ext; intros k;
      rewrite entry_summary_tagged; unfold loc; simpl data; rewrite select_map; reflexivity. }
  split; [apply NoDup_unique|].
  split.
  { intros route0. rewrite In_unique, in_map_iff.
    split; intros (r & H1 & H2); exists r; split; assumption. }
  split; [apply pair_keys_sorted|].
  intros key. rewrite In_pair_keys, in_map_iff.
  split; intros (r & H1 & H2); exists r; split; congruence || assumption.
Qed.

Definition count_parcels_of (m : gmap string pyval) : Z :=
  match m !! "count_parcels" with
  | Some (PInt z) => z
  | _ => 0%Z
  end.

Definition has_type (type : string) (m : gmap string pyval) : bool :=
  match m !! "type" with
  | Some (PStr s) => String.eqb s type
  | _ => false
  end.

Definition Zsum (l : list Z) : Z := fold_right Z.add 0%Z l.

Lemma Zsum_of_nat {A : Type} (f : A -> nat) (l : list A) :
  Zsum (map (fun a => Z.of_nat (f a)) l) = Z.of_nat (list_sum (map f l)).
Proof. induction l as [|a l IH]; simpl; [reflexivity|]. rewrite IH. lia. Qed.

Lemma count_parcels_of_tagged (d : DataFrame) (type identifier : string) :
  count_parcels_of (delivery_time.tagged (metrics_of d) type identifier) =
  Z.of_nat (length (data d)).
Proof.
  pose proof (entry_summary_tagged d type identifier) as H.
  unfold entry_summary in H. injection H as _ _ H.
  unfold count_parcels_of. rewrite H. reflexivity.
Qed.

Lemma has_type_tagged (d : DataFrame) (type identifier t : string) :
  has_type t (delivery_time.tagged (metrics_of d) type identifier) = String.eqb type t.
Proof.
  pose proof (entry_summary_tagged d type identifier) as H.
  unfold entry_summary in H. injection H as H _ _.
  unfold has_type. rewrite H. reflexivity.
Qed.

Lemma filter_map_const {A B : Type} (P : B -> bool) (g : A -> B) (b : bool) (l : list A) :
  (forall a, P (g a) = b) ->
  filter P (map g l) = if b then map g l else [].
Proof.
  intros H. induction l as [|a l IH]; simpl; [destruct b; reflexivity|].
  rewrite H, IH. destruct b; reflexivity.
Qed.

Lemma routes_cover (rows : list (Shipment Timestamp)) :
  list_sum (map (fun route0 => length (rows_of_route route0 rows))
                (unique (map route rows))) = length rows.
Proof.
  assert (Heq : forall a b : string, String.eqb b a = true <-> a = b).
  { intros a b. rewrite String.eqb_eq. split; congruence. }
  apply (groups_cover (fun a b => String.eqb b a) Heq route).
  - apply NoDup_unique.
  - intros r Hr. apply In_unique, in_map. exact Hr.
Qed.

Lemma centers_cover (rows : list (Shipment Timestamp)) :
  list_sum (map (fun key => length (rows_of_centers key rows))
                (pair_keys (map (fun r => Some (from_sc_code r, to_sc_code r)) rows)))
  = length rows.
Proof.
  apply (groups_cover pair_eqb pair_eqb_eq (fun r => (from_sc_code r, to_sc_code r))).
  - apply pair_keys_NoDup.
  - intros r Hr. apply In_pair_keys.
    apply (in_map (fun r => Some (from_sc_code r, to_sc_code r))). exact Hr.
Qed.

(** X7: on a table in which every row has a route and both sortation
    centers (the rows of [Shipment] hold a text in each of the three cells;
    a table with a blank one is outside the model), the partitions of
    [analyze_and_consolidate] cover the table: the row counts of the "Route"
    entries add up to the number of rows of the table, so do those of the
    "Sortation Center" entries, and no entry is for an empty partition. *)
Theorem partitions_cover_rows (df : DataFrame) :
  exists out,
    delivery_time.analyze_and_consolidate df = inr out /\
    Zsum (map count_parcels_of (filter (has_type "Route") out))
      = Z.of_nat (length (data df)) /\
    Zsum (map count_parcels_of (filter (has_type "Sortation Center") out))
      = Z.of_nat (length (data df)) /\
    Forall (fun m => (1 <= count_parcels_of m)%Z) out.
Proof.
  eexists. split; [apply analyze_and_consolidate_entries|].
  set (routes := unique (map route (data df))).
  set (centers := pair_keys (map (fun r => Some (from_sc_code r, to_sc_code r)) (data df))).
  split; [|split].
  - rewrite filter_app.
    rewrite (filter_map_const _ _ true) by (intros a; apply has_type_tagged).
    rewrite (filter_map_const _ _ false) by (intros a; apply has_type_tagged).
    rewrite app_nil_r, map_map.
    rewrite (map_ext _ (fun route0 => Z.of_nat (length (rows_of_route route0 (data df))))).
    + rewrite Zsum_of_nat. subst routes. rewrite routes_cover. reflexivity.
    + intros route0. rewrite count_parcels_of_tagged. unfold loc. simpl data.
      rewrite select_map. reflexivity.
  - rewrite filter_app.
    rewrite (filter_map_const _ _ false) by (intros a; apply has_type_tagged).
    rewrite (filter_map_const _ _ true) by (intros a; apply has_type_tagged).
    simpl app. rewrite map_map.
    rewrite (map_ext _ (fun key => Z.of_nat (length (rows_of_centers key (data df))))).
    + rewrite Zsum_of_nat. subst centers. rewrite centers_cover. reflexivity.
    + intros key. rewrite count_parcels_of_tagged. unfold loc. simpl data.
      rewrite select_map. reflexivity.
  - apply Forall_app. split; apply Forall_forall; intros m Hm;
      apply in_map_iff in Hm; destruct Hm as (k & <- & Hk);
      rewrite count_parcels_of_tagged; unfold loc; simpl data; rewrite select_map.
    + apply In_unique, in_map_iff in Hk. destruct Hk as (r & Hr & Hin).
      assert (H : In r (filter (fun r => String.eqb (route r) k) (data df))).
      { apply filter_In. split; [assumption|]. apply String.eqb_eq. assumption. }
      destruct (filter _ (data df)); [destruct H | simpl; lia].
    + apply In_pair_keys, in_map_iff in Hk. destruct Hk as (r & Hr & Hin).
      assert (H : In r (filter (fun r => pair_eqb k (from_sc_code r, to_sc_code r)) (data df))).
      { apply filter_In. split; [assumption|]. apply pair_eqb_eq. congruence. }
      destruct (filter _ (data df)); [destruct H | simpl; lia].
Qed.

(** Three parcels on two routes and two pairs of centers. *)
Example consolidated_three :
  option_map (map entry_summary)
    (match delivery_time.analyze_and_consolidate
             {| data := [parcel 2023 1 15 (Some 2) (Some 10) (Some "Lost") "LYO1" "PAR1";
                         parcel 2024 1 15 (Some 4) None None "ABC1" "XYZ1";
                         parcel 2024 2 1 (Some 6) None None "LYO1" "PAR1"];
                extra := ∅ |} with
     | inr out => Some out
     | inl _ => None
     end) =
  Some [(Some (PStr "Route"), Some (PStr "IT->FR"), Some (PInt 3));
        (Some (PStr "Sortation Center"), Some (PStr "ABC1 -> XYZ1"), Some (PInt 1));
        (Some (PStr "Sortation Center"), Some (PStr "LYO1 -> PAR1"), Some (PInt 2))].
Proof. vm_compute. reflexivity. Qed.

(** ** The order of the per-day tables *)

Lemma ascii_compare_of_nat (x y : nat) :
  (x < 256)%nat -> (y < 256)%nat ->
  Ascii.compare (ascii_of_nat x) (ascii_of_nat y) = Nat.compare x y.
Proof.
  intros Hx Hy. unfold Ascii.compare.
  rewrite N2Nat.inj_compare.
  change (N.to_nat (N_of_ascii (ascii_of_nat x))) with (nat_of_ascii (ascii_of_nat x)).
  change (N.to_nat (N_of_ascii (ascii_of_nat y))) with (nat_of_ascii (ascii_of_nat y)).
  rewrite !nat_ascii_embedding by assumption. reflexivity.
Qed.

Lemma digit_compare (a b : Z) :
  Ascii.compare (digit a) (digit b) = Z.compare (a mod 10) (b mod 10).
Proof.
  unfold digit.
  pose proof (Z.mod_pos_bound a 10 ltac:(lia)).
  pose proof (Z.mod_pos_bound b 10 ltac:(lia)).
  rewrite ascii_compare_of_nat by lia.
  rewrite <- Nat2Z.inj_compare.
  destruct (Z.compare_spec (a mod 10) (b mod 10)) as [E|E|E].
  - apply Z.compare_eq_iff. lia.
  - apply Z.compare_lt_iff. lia.
  - apply Z.compare_gt_iff. lia.
Qed.

Lemma two_digits_compare (a b : Z) :
  (0 <= a < 100)%Z -> (0 <= b < 100)%Z ->
  String.compare (two_digits a) (two_digits b) = Z.compare a b.
Proof.
  intros Ha Hb. unfold two_digits. cbn [String.compare].
  rewrite !digit_compare.
  assert (Hta : (0 <= a / 10 < 10)%Z)
    by (split; [apply Z.div_pos | apply Z.div_lt_upper_bound]; lia).
  assert (Htb : (0 <= b / 10 < 10)%Z)
    by (split; [apply Z.div_pos | apply Z.div_lt_upper_bound]; lia).
  rewrite (Z.mod_small (a / 10)), (Z.mod_small (b / 10)) by assumption.
  pose proof (Z.mod_pos_bound a 10 ltac:(lia)).
  pose proof (Z.mod_pos_bound b 10 ltac:(lia)).
  pose proof (Z.div_mod a 10 ltac:(lia)). pose proof (Z.div_mod b 10 ltac:(lia)).
  destruct (Z.compare_spec (a / 10) (b / 10)) as [E|E|E];
    destruct (Z.compare_spec (a mod 10) (b mod 10)) as [E'|E'|E'];
    symmetry; try (apply Z.compare_eq_iff; lia);
    try (apply Z.compare_lt_iff; lia); apply Z.compare_gt_iff; lia.
Qed.

(** Month before month, or the same month and day before day. *)
Definition calendar_lt (a b : Timestamp) : Prop :=
  (month a < month b)%Z \/ (month a = month b /\ (day a < day b)%Z).

Definition calendar_date (t : Timestamp) : Prop :=
  (1 <= month t <= 12)%Z /\ (1 <= day t <= 31)%Z.

Lemma compare_two_then (a1 a2 b1 b2 : ascii) (s t : string) :
  String.compare (String a1 (String a2 s)) (String b1 (String b2 t)) =
  match String.compare (String a1 (String a2 EmptyString))
                       (String b1 (String b2 EmptyString)) with
  | Eq => String.compare s t
  | c => c
  end.
Proof.
  cbn [String.compare].
  destruct (Ascii.compare a1 b1); [|reflexivity|reflexivity].
  destruct (Ascii.compare a2 b2); reflexivity.
Qed.

Lemma strftime_md_order (a b : Timestamp) :
  calendar_date a -> calendar_date b ->
  (string_lt (strftime_md a) (strftime_md b) <-> calendar_lt a b).
Proof.
  intros [Hma Hda] [Hmb Hdb]. unfold string_lt, strftime_md, calendar_lt.
  change (String.compare (two_digits (month a) ++ "-" ++ two_digits (day a))
                         (two_digits (month b) ++ "-" ++ two_digits (day b)))
    with (String.compare
            (String (digit (month a / 10)) (String (digit (month a))
               (String "-" (two_digits (day a)))))
            (String (digit (month b / 10)) (String (digit (month b))
               (String "-" (two_digits (day b)))))).
  rewrite compare_two_then.
  change (String (digit (month a / 10)) (String (digit (month a)) EmptyString))
    with (two_digits (month a)).
  change (String (digit (month b / 10)) (String (digit (month b)) EmptyString))
    with (two_digits (month b)).
  rewrite two_digits_compare by lia.
  destruct (Z.compare_spec (month a) (month b)) as [E|E|E].
  - cbn [String.compare]. unfold Ascii.compare. rewrite N.compare_refl.
    change (String.compare (two_digits (day a)) (two_digits (day b)) = Lt <->
            (month a < month b)%Z \/ month a = month b /\ (day a < day b)%Z).
    rewrite two_digits_compare by lia. rewrite Z.compare_lt_iff. lia.
  - split; [intros _; left; assumption | reflexivity].
  - split; [discriminate | lia].
Qed.

Lemma StronglySorted_keys {A : Type} (key : A -> string) (l : list A) :
  StronglySorted string_lt (map key l) ->
  StronglySorted (fun a b => string_lt (key a) (key b)) l.
Proof.
  induction l as [|a l IH]; simpl; intros H; [constructor|].
  inversion H as [|x xs Hs Hall]; subst. constructor; [apply IH; assumption|].
  rewrite Forall_map in Hall. exact Hall.
Qed.

Lemma sorted_filter {A : Type} (R : A -> A -> Prop) (P : A -> bool) (l : list A) :
  StronglySorted R l -> StronglySorted R (filter P l).
Proof.
  induction 1 as [|a l _ IH Hall]; simpl; [constructor|].
  destruct (P a); [|exact IH]. constructor; [exact IH|].
  rewrite Forall_forall in *. intros x Hx. apply filter_In in Hx. apply Hall. tauto.
Qed.

Lemma reduce_days_sorted (rows : list (Shipment Timestamp)) :
  StronglySorted string_lt (map shipped_date_mmdd (reduce_days rows)).
Proof.
  rewrite reduce_days_groups. unfold dropna_days.
  rewrite (map_filter_map shipped_date_mmdd (fun k => agg_day (k, rows_of_day k rows))).
  simpl. rewrite map_id.
  apply sorted_filter, group_keys_sorted.
Qed.

Lemma delivery_time_analyze_seasonal_patterns (df : DataFrame) :
  delivery_time.analyze_seasonal_patterns df =
  inr (reduce_days (data df),
       setitem df "shipped_month_day" (StrCol (map (fun r => Some (month_day r)) (data df)))).
Proof.
  unfold delivery_time.analyze_seasonal_patterns. cbv zeta.
  rewrite getitem_str_setitem. reflexivity.
Qed.

(** X8: when the shipment dates are calendar dates, the per-day table of
    [analyze_correlation], which is also the table that
    [analyze_seasonal_patterns] plots, lists the days in the order of the
    calendar: of two rows of the table, the earlier one holds the earlier
    month, or the same month and the earlier day. *)
Theorem per_day_rows_in_calendar_order (df : DataFrame) :
  Forall (fun r => calendar_date (shipped_date r)) (data df) ->
  exists out df1 df2,
    delivery_time.analyze_correlation df = inr (out, df1) /\
    delivery_time.analyze_seasonal_patterns df = inr (out, df2) /\
    StronglySorted
      (fun d1 d2 =>
         forall r1 r2,
           In r1 (data df) -> In r2 (data df) ->
           month_day r1 = shipped_date_mmdd d1 ->
           month_day r2 = shipped_date_mmdd d2 ->
           calendar_lt (shipped_date r1) (shipped_date r2))
      out.
Proof.
  intros Hdates. rewrite Forall_forall in Hdates.
  do 3 eexists. split; [apply delivery_time_analyze_correlation|].
  split; [apply delivery_time_analyze_seasonal_patterns|].
  pose proof (StronglySorted_keys shipped_date_mmdd _ (reduce_days_sorted (data df))) as Hs.
  induction Hs as [|d l _ IH Hall]; constructor; [exact IH|].
  rewrite Forall_forall in *. intros d2 Hd2 r1 r2 Hr1 Hr2 H1 H2.
  apply strftime_md_order; [apply Hdates; assumption | apply Hdates; assumption|].
  unfold month_day in H1, H2. rewrite H1, H2. apply Hall. exact Hd2.
Qed.

Definition december_first : DataFrame :=
  {| data := [parcel 2023 12 1 (Some 2) (Some 10) (Some "Lost") "LYO1" "PAR1";
              parcel 2024 2 10 (Some 4) (Some 30) (Some "Lost") "LYO1" "PAR1";
              parcel 2022 2 9 (Some 6) (Some 20) (Some "Damaged") "LYO1" "PAR1"];
     extra := ∅ |}.

Lemma per_day_rows_in_calendar_order_witness :
  exists out df1 df2,
    delivery_time.analyze_correlation december_first = inr (out, df1) /\
    delivery_time.analyze_seasonal_patterns december_first = inr (out, df2) /\
    StronglySorted
      (fun d1 d2 =>
         forall r1 r2,
           In r1 (data december_first) -> In r2 (data december_first) ->
           month_day r1 = shipped_date_mmdd d1 ->
           month_day r2 = shipped_date_mmdd d2 ->
           calendar_lt (shipped_date r1) (shipped_date r2))
      out.
Proof.
  apply (per_day_rows_in_calendar_order december_first).
  repeat constructor; simpl; lia.
Defined.

Example december_last :
  map shipped_date_mmdd (reduce_days (data december_first)) = ["02-09"; "02-10"; "12-01"].
Proof. reflexivity. Qed.

(** ** Runs of the scripts *)

(** The first shipment date that is no date. *)
Definition first_unparseable (parse_date : string -> option Timestamp)
    (rows : list (Shipment string)) : option string :=
  find (fun text => negb (present (parse_date text))) (map shipped_date rows).

Lemma to_datetime_fails (parse_date : string -> option Timestamp) (texts : list string)
    (text : string) :
  find (fun t => negb (present (parse_date t))) texts = Some text ->
  mapM (to_datetime parse_date) texts = inl (DateParseError text).
Proof.
  induction texts as [|t texts IH]; simpl; [discriminate|].
  unfold to_datetime at 1. destruct (parse_date t) eqn:E; simpl.
  - intros H. rewrite (IH H). reflexivity.
  - intros H. injection H as <-. reflexivity.
Qed.

Lemma convert_dates_fails (parse_date : string -> option Timestamp)
    (rows : list (Shipment string)) (text : string) :
  first_unparseable parse_date rows = Some text ->
  convert_dates parse_date rows = inl (DateParseError text).
Proof.
  intros H. unfold convert_dates. rewrite (to_datetime_fails _ _ _ H). reflexivity.
Qed.

Lemma convert_dates_succeeds (parse_date : string -> option Timestamp)
    (rows : list (Shipment string)) :
  Forall (fun r => parse_date (shipped_date r) <> None) rows ->
  exists d,
    convert_dates parse_date rows = inr {| data := d; extra := ∅ |} /\
    Forall2 (preprocessed parse_date) rows d.
Proof.
  intros Hshipped.
  destruct (shipped_dates_parse parse_date rows Hshipped) as (shipped & Hm & Hall).
  eexists. split.
  - unfold convert_dates. rewrite Hm. reflexivity.
  - apply assign_dates_preprocessed. exact Hall.
Qed.

(** X9: a shipment date that is no date stops every script, in two ways:
    [load_and_preprocess_data] of delivery_time.py catches the exception and
    returns [None], after which [main] runs no analysis and ends normally;
    compensation_analysis.py and new_cost_per_parcel_analysis.py convert the
    dates outside any [try], so their [main] raises, on the first such
    text. *)
Theorem unparseable_shipment_date (parse_date : string -> option Timestamp)
    (files : list (list (Shipment string))) (text : string) :
  first_unparseable parse_date (concat files) = Some text ->
  delivery_time.load_and_preprocess_data parse_date files = None /\
  delivery_time.main parse_date files = inr None /\
  compensation_analysis.preprocess_data parse_date (concat files)
    = inl (DateParseError text) /\
  compensation_analysis.main parse_date files = inl (Raised (DateParseError text)) /\
  new_cost_per_parcel_analysis.main parse_date files = inl (DateParseError text).
Proof.
  intros H. pose proof (convert_dates_fails _ _ _ H) as Hfail.
  assert (Hload : delivery_time.load_and_preprocess_data parse_date files = None).
  { unfold delivery_time.load_and_preprocess_data. rewrite Hfail. reflexivity. }
  split; [exact Hload|]. split.
  { unfold delivery_time.main. rewrite Hload. reflexivity. }
  split; [exact Hfail|]. split.
  - unfold compensation_analysis.main, compensation_analysis.load_data,
      compensation_analysis.preprocess_data. rewrite Hfail. reflexivity.
  - unfold new_cost_per_parcel_analysis.main. rewrite Hfail. reflexivity.
Qed.

Definition bad_files : list (list (Shipment string)) :=
  [ [raw "2023-01-15" None None]; [raw "15 janvier" None None; raw "?" None None] ].

Lemma unparseable_shipment_date_witness :
  delivery_time.load_and_preprocess_data parse_sample bad_files = None /\
  delivery_time.main parse_sample bad_files = inr None /\
  compensation_analysis.preprocess_data parse_sample (concat bad_files)
    = inl (DateParseError "15 janvier") /\
  compensation_analysis.main parse_sample bad_files
    = inl (Raised (DateParseError "15 janvier")) /\
  new_cost_per_parcel_analysis.main parse_sample bad_files
    = inl (DateParseError "15 janvier").
Proof. apply (unparseable_shipment_date parse_sample bad_files). reflexivity. Defined.

(** X10: when the shipment dates parse, [main] of delivery_time.py runs the
    four analyses and raises nothing.  The consolidation is computed from the
    frame as loaded and assigns nothing on it; the three later passes leave
    the rows as loaded and assign one column each, so that the frame ends
    with exactly [shipped_month_day], [shipped_date_mmdd] and
    [resolution_time] added; the seasonal table and the correlation table
    are the same table. *)
Theorem main_run (parse_date : string -> option Timestamp)
    (files : list (list (Shipment string))) :
  Forall (fun r => parse_date (shipped_date r) <> None) (concat files) ->
  exists df o,
    delivery_time.load_and_preprocess_data parse_date files = Some df /\
    delivery_time.main parse_date files = inr (Some o) /\
    delivery_time.analyze_and_consolidate df = inr (delivery_time.consolidated_data o) /\
    delivery_time.seasonal_table o = delivery_time.correlation_table o /\
    data (delivery_time.final_frame o) = data df /\
    extra (delivery_time.final_frame o) =
      <["resolution_time" := NumCol (map resolution_days (data df))]>
        (<["shipped_date_mmdd" := StrCol (map (fun r => Some (month_day r)) (data df))]>
           (<["shipped_month_day" := StrCol (map (fun r => Some (month_day r)) (data df))]>
              ∅)).
Proof.
  intros Hshipped.
  destruct (convert_dates_succeeds parse_date _ Hshipped) as (d & Hconv & _).
  set (df := {| data := d; extra := ∅ |}) in *.
  assert (Hload : delivery_time.load_and_preprocess_data parse_date files = Some df).
  { unfold delivery_time.load_and_preprocess_data. rewrite Hconv. reflexivity. }
  assert (Hmain : exists c r,
            delivery_time.analyze_and_consolidate df = inr c /\
            delivery_time.main parse_date files =
              inr (Some (delivery_time.mkOutputs c (reduce_days d) (reduce_days d) r
                           (with_resolution_time
                              (setitem
                                 (setitem df "shipped_month_day"
                                    (StrCol (map (fun r => Some (month_day r)) d)))
                                 "shipped_date_mmdd"
                                 (StrCol (map (fun r => Some (month_day r)) d))))))).
  { eexists. unfold delivery_time.main. rewrite Hload.
    rewrite analyze_and_consolidate_entries. cbn [bind].
    rewrite delivery_time_analyze_seasonal_patterns. cbn [bind snd fst].
    rewrite delivery_time_analyze_correlation. cbn [bind snd fst].
    match goal with
    | |- context [delivery_time.analyze_to_text ?X] =>
        destruct (analyze_to_text_entries X) as (r & Hr & _); rewrite Hr
    end.
    cbn [bind snd fst]. exists r. split; reflexivity. }
  destruct Hmain as (c & r & Hc & Hmain).
  exists df. eexists. split; [exact Hload|]. split; [exact Hmain|].
  cbn [delivery_time.consolidated_data delivery_time.seasonal_table
       delivery_time.correlation_table delivery_time.final_frame].
  split; [exact Hc|]. split; [reflexivity|]. split; reflexivity.
Qed.

Lemma main_run_witness :
  exists df o,
    delivery_time.load_and_preprocess_data parse_sample raw_files = Some df /\
    delivery_time.main parse_sample raw_files = inr (Some o) /\
    delivery_time.analyze_and_consolidate df = inr (delivery_time.consolidated_data o) /\
    delivery_time.seasonal_table o = delivery_time.correlation_table o /\
    data (delivery_time.final_frame o) = data df /\
    extra (delivery_time.final_frame o) =
      <["resolution_time" := NumCol (map resolution_days (data df))]>
        (<["shipped_date_mmdd" := StrCol (map (fun r => Some (month_day r)) (data df))]>
           (<["shipped_month_day" := StrCol (map (fun r => Some (month_day r)) (data df))]>
              ∅)).
Proof.
  apply (main_run parse_sample raw_files).
  repeat constructor; vm_compute; discriminate.
Defined.

(** ** The amounts summary of compensation_analysis.py *)

(** The compensation amounts of the table. *)
Definition amounts (df : DataFrame) : list Q := dropna (map total_compensation (data df)).

Lemma amounts_of_compensated (df : DataFrame) :
  dropna (map total_compensation (data (dropna_total_compensation df))) = amounts df.
Proof. rewrite data_dropna_total_compensation. apply dropna_map_filter. Qed.

Lemma length_amounts (df : DataFrame) : length (amounts df) = count_compensated df.
Proof. unfold amounts, count_compensated. apply length_dropna_filter. Qed.

Lemma Qle_bool_false (a b : Q) : Qle_bool a b = false -> b < a.
Proof.
  intros H. apply Qnot_le_lt. intros Hle. apply Qle_bool_iff in Hle. congruence.
Qed.

Lemma fold_max_bounds (l : list Q) (x : Q) :
  x <= fold_left Qmax2 l x /\
  Forall (fun y => y <= fold_left Qmax2 l x) l /\
  In (fold_left Qmax2 l x) (x :: l).
Proof.
  revert x. induction l as [|y l IH]; intros x; simpl.
  - split; [lra|]. split; [constructor | left; reflexivity].
  - destruct (IH (Qmax2 x y)) as (H1 & H2 & H3).
    assert (Hx : x <= Qmax2 x y /\ y <= Qmax2 x y).
    { unfold Qmax2. destruct (Qle_bool x y) eqn:E.
      - apply Qle_bool_iff in E. split; lra.
      - apply Qle_bool_false in E. split; lra. }
    destruct Hx as [Hx Hy].
    split; [eapply Qle_trans; eassumption|].
    split; [constructor; [eapply Qle_trans; eassumption | exact H2]|].
    destruct H3 as [H3|H3]; [|right; right; exact H3].
    rewrite <- H3. unfold Qmax2. destruct (Qle_bool x y); [right; left | left]; reflexivity.
Qed.

Lemma fold_min_bounds (l : list Q) (x : Q) :
  fold_left Qmin2 l x <= x /\
  Forall (fun y => fold_left Qmin2 l x <= y) l /\
  In (fold_left Qmin2 l x) (x :: l).
Proof.
  revert x. induction l as [|y l IH]; intros x; simpl.
  - split; [lra|]. split; [constructor | left; reflexivity].
  - destruct (IH (Qmin2 x y)) as (H1 & H2 & H3).
    assert (Hx : Qmin2 x y <= x /\ Qmin2 x y <= y).
    { unfold Qmin2. destruct (Qle_bool x y) eqn:E.
      - apply Qle_bool_iff in E. split; lra.
      - apply Qle_bool_false in E. split; lra. }
    destruct Hx as [Hx Hy].
    split; [eapply Qle_trans; eassumption|].
    split; [constructor; [eapply Qle_trans; eassumption | exact H2]|].
    destruct H3 as [H3|H3]; [|right; right; exact H3].
    rewrite <- H3. unfold Qmin2. destruct (Qle_bool x y); [left | right; left]; reflexivity.
Qed.

(** X11: when some row is compensated, the minimum and the maximum of the
    amounts summary are defined, each is the amount of a compensated row,
    and every compensated amount lies between them; rows without an amount
    do not enter. *)
Theorem minimum_and_maximum_amounts (df : DataFrame) :
  count_compensated df <> 0%nat ->
  exists lo hi : Q,
    compensation_analysis.min_compensation df = Fin lo /\
    compensation_analysis.max_compensation df = Fin hi /\
    In lo (amounts df) /\
    In hi (amounts df) /\
    Forall (fun a => lo <= a /\ a <= hi) (amounts df).
Proof.
  intros Hk.
  unfold compensation_analysis.min_compensation, compensation_analysis.max_compensation.
  rewrite !amounts_of_compensated.
  pose proof (length_amounts df) as Hlen.
  destruct (amounts df) as [|x l] eqn:E; [simpl in Hlen; congruence|].
  destruct (fold_max_bounds l x) as (Hmax1 & Hmax2 & Hmax3).
  destruct (fold_min_bounds l x) as (Hmin1 & Hmin2 & Hmin3).
  exists (fold_left Qmin2 l x), (fold_left Qmax2 l x).
  split; [reflexivity|]. split; [reflexivity|].
  split; [exact Hmin3|]. split; [exact Hmax3|].
  constructor; [split; assumption|].
  rewrite Forall_forall in *. intros y Hy. split; [apply Hmin2 | apply Hmax2]; exact Hy.
Qed.

Lemma minimum_and_maximum_amounts_witness :
  exists lo hi : Q,
    compensation_analysis.min_compensation three_parcels = Fin lo /\
    compensation_analysis.max_compensation three_parcels = Fin hi /\
    In lo (amounts three_parcels) /\
    In hi (amounts three_parcels) /\
    Forall (fun a => lo <= a /\ a <= hi) (amounts three_parcels).
Proof. apply (minimum_and_maximum_amounts three_parcels). discriminate. Defined.

Example summary_of_three :
  compensation_analysis.min_compensation three_parcels = Fin 10 /\
  compensation_analysis.median_compensation three_parcels = Fin 20 /\
  compensation_analysis.max_compensation three_parcels = Fin 30.
Proof. repeat split; reflexivity. Qed.

(** X12: when no row is compensated the total is 0, the mean, the median,
    the maximum and the minimum are NaN, and the breakdown by reason has no
    row; nothing is raised. *)
Theorem no_compensation_summary (df : DataFrame) :
  count_compensated df = 0%nat ->
  let a := compensation_analysis.analyze_compensations df in
  compensation_analysis.total_compensated_transactions a = 0%nat /\
  compensation_analysis.total_compensation_amount a = Fin 0 /\
  compensation_analysis.avg_compensation a = NaN /\
  compensation_analysis.median_compensation df = NaN /\
  compensation_analysis.max_compensation df = NaN /\
  compensation_analysis.min_compensation df = NaN /\
  compensation_analysis.compensation_by_reason a = [].
Proof.
  intros Hk a. subst a.
  assert (Hrows : compensated_rows df = []).
  { unfold count_compensated in Hk. unfold compensated_rows.
    destruct (filter _ (data df)); [reflexivity | discriminate]. }
  assert (Ham : amounts df = []).
  { pose proof (length_amounts df) as H. rewrite Hk in H.
    destruct (amounts df); [reflexivity | discriminate]. }
  split.
  { unfold compensation_analysis.analyze_compensations. cbv zeta.
    cbn [compensation_analysis.total_compensated_transactions].
    rewrite len_dropna_total_compensation. exact Hk. }
  split.
  { unfold compensation_analysis.analyze_compensations. cbv zeta.
    cbn [compensation_analysis.total_compensation_amount].
    rewrite amounts_of_compensated, Ham. reflexivity. }
  split.
  { unfold compensation_analysis.analyze_compensations. cbv zeta.
    cbn [compensation_analysis.avg_compensation]. unfold mean.
    rewrite amounts_of_compensated, Ham. reflexivity. }
  unfold compensation_analysis.median_compensation, compensation_analysis.max_compensation,
    compensation_analysis.min_compensation.
  rewrite amounts_of_compensated, Ham.
  repeat (split; [reflexivity|]).
  rewrite compensation_by_reason_groups, Hrows. reflexivity.
Qed.

Definition nothing_compensated : DataFrame :=
  {| data := [parcel 2023 1 15 (Some 2) None None "LYO1" "PAR1";
              parcel 2023 1 16 (Some 4) None (Some "Lost") "LYO1" "PAR1"];
     extra := ∅ |}.

Lemma no_compensation_summary_witness :
  let a := compensation_analysis.analyze_compensations nothing_compensated in
  compensation_analysis.total_compensated_transactions a = 0%nat /\
  compensation_analysis.total_compensation_amount a = Fin 0 /\
  compensation_analysis.avg_compensation a = NaN /\
  compensation_analysis.median_compensation nothing_compensated = NaN /\
  compensation_analysis.max_compensation nothing_compensated = NaN /\
  compensation_analysis.min_compensation nothing_compensated = NaN /\
  compensation_analysis.compensation_by_reason a = [].
Proof. apply (no_compensation_summary nothing_compensated). reflexivity. Defined.

(** ** More on the breakdown by reason *)

Lemma rows_with_nonempty (df : DataFrame) (k : string) :
  In k (group_keys (map compensation_reason (compensated_rows df))) ->
  rows_with compensation_reason k (compensated_rows df) <> [].
Proof.
  intros Hk. apply In_reason_keys in Hk. destruct Hk as (r & Hr & Hreason).
  assert (H : In r (rows_with compensation_reason k (compensated_rows df))).
  { unfold rows_with. apply filter_In. split; [assumption|].
    rewrite Hreason. simpl. apply String.eqb_refl. }
  intros E. rewrite E in H. destruct H.
Qed.

Lemma rows_with_length_le {A : Type} (key : A -> option string) (k : string) (l : list A) :
  (length (rows_with key k l) <= length l)%nat.
Proof. unfold rows_with. apply filter_length_le. Qed.

(** X13: every row of the breakdown of [analyze_compensations] is for a
    reason that occurs: its count is at least 1 and at most the number of
    compensated rows, and its transaction weight is a number above 0 and at
    most 100. *)
Theorem breakdown_rows_consistent (df : DataFrame) :
  Forall (fun row =>
            (1 <= compensation_analysis.count row)%Z /\
            (compensation_analysis.count row <= Z.of_nat (count_compensated df))%Z /\
            exists weight : Q,
              compensation_analysis.transaction_weight row = Fin weight /\
              0 < weight /\ weight <= 100)
         (compensation_analysis.compensation_by_reason
            (compensation_analysis.analyze_compensations df)).
Proof.
  rewrite compensation_by_reason_groups. apply Forall_forall. intros row Hrow.
  apply in_map_iff in Hrow. destruct Hrow as (k & <- & Hk). cbv zeta.
  cbn [compensation_analysis.count compensation_analysis.transaction_weight].
  pose proof (rows_with_nonempty df k Hk) as Hne.
  pose proof (rows_with_length_le compensation_reason k (compensated_rows df)) as Hle.
  set (g := rows_with compensation_reason k (compensated_rows df)) in *.
  pose proof (nonempty_length g Hne) as Hlen.
  assert (HN : count_compensated df = length (compensated_rows df)) by reflexivity.
  split; [lia|]. split; [lia|].
  rewrite fdiv_counts by lia.
  assert (Hg : 0 < inject_Z (Z.of_nat (length g))) by (apply inject_nat_pos; lia).
  assert (Hn : 0 < inject_Z (Z.of_nat (count_compensated df)))
    by (apply inject_nat_pos; lia).
  assert (Hgn : inject_Z (Z.of_nat (length g)) <= inject_Z (Z.of_nat (count_compensated df)))
    by (apply inject_nat_le; lia).
  eexists. split; [reflexivity|].
  cbn [fmul of_int]. change (inject_Z 100) with 100.
  set (c := inject_Z (Z.of_nat (length g))) in *.
  set (n := inject_Z (Z.of_nat (count_compensated df))) in *.
  assert (H0 : 0 < c / n) by (apply Qlt_shift_div_l; lra).
  assert (H1 : c / n <= 1) by (apply Qle_shift_div_r; lra).
  split; lra.
Qed.

(** The compensated rows that have a reason. *)
Definition count_with_reason (df : DataFrame) : nat :=
  length (filter (fun r => present (compensation_reason r)) (compensated_rows df)).

Lemma Qsum_inject {A : Type} (f : A -> Z) (l : list A) :
  Qsum (map (fun a => inject_Z (f a)) l) == inject_Z (Zsum (map f l)).
Proof.
  induction l as [|a l IH]; [reflexivity|].
  change (Qsum (map (fun a => inject_Z (f a)) (a :: l)))
    with (inject_Z (f a) + Qsum (map (fun a => inject_Z (f a)) l)).
  change (Zsum (map f (a :: l))) with (f a + Zsum (map f l))%Z.
  rewrite IH, inject_Z_plus. reflexivity.
Qed.

Lemma group_sizes_total (rows : list (Shipment Timestamp)) :
  Zsum (map (fun k => Z.of_nat (length (rows_with compensation_reason k rows)))
            (group_keys (map compensation_reason rows)))
  = Z.of_nat (length (filter (fun r => present (compensation_reason r)) rows)).
Proof.
  apply inject_Z_injective. rewrite <- Qsum_inject.
  rewrite (Qsum_map_ext _
    (fun k => Qsum (map (fun _ => 1) (rows_with compensation_reason k rows))))
    by (intros k; symmetry; apply Qsum_ones).
  rewrite sum_groups.
  - apply Qsum_ones.
  - apply sorted_NoDup, group_keys_sorted.
  - intros r k Hr Hk. apply In_reason_keys. exists r. auto.
Qed.

(** X14: the counts of the breakdown add up to the number of compensated
    rows that have a reason.  That number is at most the number of
    compensated rows, which is the denominator of the transaction weights,
    and equal to it exactly when every compensated row has a reason: a
    compensated row without reason is in the denominator and in no group. *)
Theorem breakdown_counts_total (df : DataFrame) :
  let a := compensation_analysis.analyze_compensations df in
  Zsum (map compensation_analysis.count (compensation_analysis.compensation_by_reason a))
    = Z.of_nat (count_with_reason df) /\
  compensation_analysis.total_compensated_transactions a = count_compensated df /\
  (count_with_reason df <= count_compensated df)%nat /\
  (count_with_reason df = count_compensated df <-> reasons_given df).
Proof.
  cbv zeta. split; [|split; [|split]].
  - rewrite compensation_by_reason_groups, map_map. cbv zeta.
    cbn [compensation_analysis.count]. apply group_sizes_total.
  - unfold compensation_analysis.analyze_compensations. cbv zeta.
    cbn [compensation_analysis.total_compensated_transactions].
    apply len_dropna_total_compensation.
  - unfold count_with_reason. apply filter_length_le.
  - unfold count_with_reason.
    change (count_compensated df) with (length (compensated_rows df)).
    rewrite filter_length_all. unfold reasons_given.
    rewrite !Forall_forall. split.
    + intros H r Hr Hc. apply present_not_None. apply H.
      apply In_compensated_rows. split; assumption.
    + intros H r Hr. apply In_compensated_rows in Hr. destruct Hr as [Hr Hc].
      apply present_not_None. apply H; assumption.
Qed.

(** ** The seasonal table of compensation_analysis.py *)

Lemma groupby_pairs_keyed {A : Type} (key : A -> option (string * string)) (l : list A) :
  groupby_pairs (map (fun r => (key r, r)) l) =
  map (fun k => (k, filter (fun r => has_pair k (key r)) l)) (pair_keys (map key l)).
Proof.
  unfold groupby_pairs. rewrite map_map. simpl.
  replace (map (fun r => key r) l) with (map key l) by reflexivity.
  apply map_ext. intros k. f_equal.
  induction l as [|a l IH]; simpl; [reflexivity|].
  destruct (has_pair k (key a)); simpl; rewrite IH; reflexivity.
Qed.

Lemma has_duplicates_NoDup (l : list (string * string)) :
  NoDup l -> has_duplicates l = false.
Proof.
  induction 1 as [|x l Hx _ IH]; simpl; [reflexivity|].
  rewrite IH, Bool.orb_false_r.
  destruct (existsb (pair_eqb x) l) eqn:E; [|reflexivity].
  apply existsb_exists in E. destruct E as (y & Hy & Heq).
  apply pair_eqb_eq in Heq. subst y. contradiction.
Qed.

Lemma filter_key_absent {V : Type} (v : string * string -> V) (k0 : string * string)
    (ks : list (string * string)) :
  ~ In k0 ks ->
  filter (fun e => pair_eqb k0 (fst e)) (map (fun k => (k, v k)) ks) = [].
Proof.
  induction ks as [|k ks IH]; simpl; intros Hnot; [reflexivity|].
  destruct (pair_eqb k0 k) eqn:E.
  - apply pair_eqb_eq in E. exfalso. apply Hnot. left. congruence.
  - apply IH. tauto.
Qed.

Lemma filter_key_present {V : Type} (v : string * string -> V) (k0 : string * string)
    (ks : list (string * string)) :
  NoDup ks -> In k0 ks ->
  filter (fun e => pair_eqb k0 (fst e)) (map (fun k => (k, v k)) ks) = [(k0, v k0)].
Proof.
  induction 1 as [|k ks Hk _ IH]; simpl; intros Hin; [contradiction|].
  destruct (pair_eqb k0 k) eqn:E.
  - apply pair_eqb_eq in E. subst k. rewrite filter_key_absent by assumption. reflexivity.
  - destruct Hin as [->|Hin]; [|apply IH; assumption].
    assert (H : pair_eqb k0 k0 = true) by (apply pair_eqb_eq; reflexivity). congruence.
Qed.

(** The rows shipped on the month-day [i] whose reason is [c]. *)
Definition day_reason_rows (i c : string) (rows : list (Shipment Timestamp))
  : list (Shipment Timestamp) :=
  filter (fun r => (String.eqb i (month_day r) && has_key c (compensation_reason r))%bool)
         rows.

Definition day_reason_key (r : Shipment Timestamp) : option (string * string) :=
  key_pair (Some (month_day r)) (compensation_reason r).

Lemma has_pair_day_reason (i c : string) (r : Shipment Timestamp) :
  has_pair (i, c) (day_reason_key r) =
  (String.eqb i (month_day r) && has_key c (compensation_reason r))%bool.
Proof.
  unfold day_reason_key, key_pair. destruct (compensation_reason r); simpl.
  - reflexivity.
  - rewrite Bool.andb_false_r. reflexivity.
Qed.

Lemma In_day_reason_keys (i c : string) (rows : list (Shipment Timestamp)) :
  In (i, c) (pair_keys (map day_reason_key rows)) <->
  exists r, In r rows /\ month_day r = i /\ compensation_reason r = Some c.
Proof.
  rewrite In_pair_keys, in_map_iff. unfold day_reason_key, key_pair. split.
  - intros (r & Hk & Hr). exists r. destruct (compensation_reason r); [|discriminate].
    injection Hk as -> ->. auto.
  - intros (r & Hr & Hi & Hc). exists r. rewrite Hc, Hi. auto.
Qed.

(** The grouped table, before it is reshaped. *)
Definition sums_by_day_and_reason (rows : list (Shipment Timestamp))
  : list (string * string * float) :=
  map (fun k => (k, Fin (Qsum (dropna (map total_compensation
                                          (day_reason_rows (fst k) (snd k) rows))))))
      (pair_keys (map day_reason_key rows)).

Lemma In_pair_or_not (k : string * string) (ks : list (string * string)) :
  In k ks \/ ~ In k ks.
Proof.
  destruct (existsb (pair_eqb k) ks) eqn:E.
  - left. apply existsb_exists in E. destruct E as (y & Hy & Heq).
    apply pair_eqb_eq in Heq. congruence.
  - right. intros Hin.
    assert (H : existsb (pair_eqb k) ks = true).
    { apply existsb_exists. exists k. split; [assumption | apply pair_eqb_eq; reflexivity]. }
    congruence.
Qed.

Lemma cell_of_sums (rows : list (Shipment Timestamp)) (i c : string) :
  (let v := cell_of (sums_by_day_and_reason rows) i c in if is_nan v then Fin 0 else v) =
  Fin (Qsum (dropna (map total_compensation (day_reason_rows i c rows)))).
Proof.
  unfold cell_of, sums_by_day_and_reason. cbv zeta.
  destruct (In_pair_or_not (i, c) (pair_keys (map day_reason_key rows))) as [Hin|Hnot].
  - rewrite (filter_key_present _ _ _ (pair_keys_NoDup _) Hin). reflexivity.
  - rewrite (filter_key_absent _ _ _ Hnot). simpl.
    assert (Hnone : day_reason_rows i c rows = []).
    { destruct (day_reason_rows i c rows) as [|r l] eqn:E; [reflexivity|].
      exfalso. apply Hnot. apply In_day_reason_keys.
      assert (Hr : In r (day_reason_rows i c rows)) by (rewrite E; left; reflexivity).
      unfold day_reason_rows in Hr. apply filter_In in Hr. destruct Hr as [Hr Hb].
      apply Bool.andb_true_iff in Hb. destruct Hb as [Hb1 Hb2].
      apply String.eqb_eq in Hb1. exists r. split; [assumption|]. split; [congruence|].
      destruct (compensation_reason r) as [c'|]; [|discriminate].
      simpl in Hb2. apply String.eqb_eq in Hb2. congruence. }
    rewrite Hnone. reflexivity.
Qed.

Lemma combine_keyed {A B C : Type} (g : A -> B) (f : B * A -> C) (l : list A) :
  combine (map f (combine (map g l) l)) l = map (fun r => (f (g r, r), r)) l.
Proof.
  rewrite combine_map_self, map_map.
  apply (combine_map_self (fun r => f (g r, r))).
Qed.

Lemma grouped_sums (rows : list (Shipment Timestamp)) :
  map (fun g : (string * string) * list (Shipment Timestamp) =>
         (fst g, Fin (Qsum (dropna (map total_compensation (snd g))))))
      (groupby_pairs (map (fun r => (day_reason_key r, r)) rows))
  = sums_by_day_and_reason rows.
Proof.
  rewrite groupby_pairs_keyed, map_map. unfold sums_by_day_and_reason.
  apply map_ext. intros [i c]. simpl. do 5 f_equal.
  unfold day_reason_rows. apply filter_ext. intros r. apply has_pair_day_reason.
Qed.

Lemma sums_have_no_nan (rows : list (Shipment Timestamp)) :
  filter (fun e : string * string * float => negb (is_nan (snd e)))
         (sums_by_day_and_reason rows) = sums_by_day_and_reason rows.
Proof.
  apply filter_all. apply Forall_forall. intros e He.
  unfold sums_by_day_and_reason in He. apply in_map_iff in He.
  destruct He as (k & <- & _). reflexivity.
Qed.

Lemma sums_keys (rows : list (Shipment Timestamp)) :
  map fst (sums_by_day_and_reason rows) = pair_keys (map day_reason_key rows).
Proof. unfold sums_by_day_and_reason. rewrite map_map. simpl. apply map_id. Qed.

(** The table that [analyze_seasonal_patterns] reshapes and fills. *)
Definition seasonal_pivot (rows : list (Shipment Timestamp)) : pivot_table :=
  let t := sums_by_day_and_reason rows in
  let index := group_keys (map (fun e => Some (fst (fst e))) t) in
  let columns := group_keys (map (fun e => Some (snd (fst e))) t) in
  {| index := index;
     columns := columns;
     values :=
       map (fun i =>
              map (fun c => Fin (Qsum (dropna (map total_compensation
                                                  (day_reason_rows i c rows)))))
                  columns)
           index |}.

Lemma compensation_analyze_seasonal_patterns (df : DataFrame) :
  compensation_analysis.analyze_seasonal_patterns df =
  inr (seasonal_pivot (data df),
       setitem df "shipped_month_day"
         (StrCol (map (fun r => Some (month_day r)) (data df)))).
Proof.
  unfold compensation_analysis.analyze_seasonal_patterns. cbv zeta.
  rewrite getitem_str_setitem. cbn [lift ret bind2]. simpl data.
  rewrite (combine_keyed (fun r => Some (strftime_md (shipped_date r)))
             (fun dr => key_pair (fst dr) (compensation_reason (snd dr)))).
  change (map (fun r => (key_pair (fst (Some (strftime_md (shipped_date r)), r))
                                  (compensation_reason
                                     (snd (Some (strftime_md (shipped_date r)), r))), r))
              (data df))
    with (map (fun r => (day_reason_key r, r)) (data df)).
  rewrite grouped_sums, sums_have_no_nan.
  unfold pivot. rewrite sums_keys, (has_duplicates_NoDup _ (pair_keys_NoDup _)).
  cbn [bind2]. unfold fillna, seasonal_pivot. cbv zeta. cbn [index columns values].
  do 3 f_equal. rewrite map_map. apply map_ext. intros i.
  rewrite map_map. apply map_ext. intros c. apply cell_of_sums.
Qed.

(** X16: [analyze_seasonal_patterns] of compensation_analysis.py always
    returns: the reshaping never meets two rows with the same labels.  The
    index of its table holds, in ascending order, the month-days of the rows
    that have a reason; the columns hold, in ascending order, the reasons;
    and the cell of a month-day and a reason is the sum of the compensation
    amounts of the rows shipped on that month-day with that reason, 0 when
    there is no such row. *)
Theorem seasonal_table_cells (df : DataFrame) :
  exists p df',
    compensation_analysis.analyze_seasonal_patterns df = inr (p, df') /\
    StronglySorted string_lt (index p) /\
    StronglySorted string_lt (columns p) /\
    (forall i, In i (index p) <->
       exists r, In r (data df) /\ month_day r = i /\ compensation_reason r <> None) /\
    (forall c, In c (columns p) <->
       exists r, In r (data df) /\ compensation_reason r = Some c) /\
    values p =
      map (fun i =>
             map (fun c => Fin (Qsum (dropna (map total_compensation
                                                 (day_reason_rows i c (data df))))))
                 (columns p))
          (index p).
Proof.
  do 2 eexists. split; [apply compensation_analyze_seasonal_patterns|].
  unfold seasonal_pivot. cbv zeta. cbn [index columns values].
  split; [apply group_keys_sorted|]. split; [apply group_keys_sorted|].
  split; [|split; [|reflexivity]].
  - intros i. rewrite In_group_keys, in_map_iff. split.
    + intros (e & He & Hin). apply (in_map fst) in Hin. rewrite sums_keys in Hin.
      destruct e as [[i' c] v]. simpl in *. injection He as ->.
      apply In_day_reason_keys in Hin. destruct Hin as (r & Hr & Hi & Hc).
      exists r. split; [assumption|]. split; [assumption | congruence].
    + intros (r & Hr & Hi & Hc). destruct (compensation_reason r) as [c|] eqn:E; [|congruence].
      assert (Hin : In (i, c) (pair_keys (map day_reason_key (data df))))
        by (apply In_day_reason_keys; exists r; auto).
      rewrite <- sums_keys in Hin. apply in_map_iff in Hin.
      destruct Hin as (e & He & Hin). exists e. split; [rewrite He; reflexivity | assumption].
  - intros c. rewrite In_group_keys, in_map_iff. split.
    + intros (e & He & Hin). apply (in_map fst) in Hin. rewrite sums_keys in Hin.
      destruct e as [[i c'] v]. simpl in *. injection He as ->.
      apply In_day_reason_keys in Hin. destruct Hin as (r & Hr & Hi & Hc).
      exists r. split; assumption.
    + intros (r & Hr & Hc).
      assert (Hin : In (month_day r, c) (pair_keys (map day_reason_key (data df))))
        by (apply In_day_reason_keys; exists r; auto).
      rewrite <- sums_keys in Hin. apply in_map_iff in Hin.
      destruct Hin as (e & He & Hin). exists e. split; [rewrite He; reflexivity | assumption].
Qed.

(** Two "Lost" on 15 January, one "Damaged" on 1 February. *)
Example seasonal_pivot_three :
  let p := seasonal_pivot (data three_parcels) in
  index p = ["01-15"; "02-01"] /\
  columns p = ["Damaged"; "Lost"] /\
  values p = [[Fin 0; Fin (10 + (30 + 0))]; [Fin (20 + 0); Fin 0]].
Proof. repeat split; reflexivity. Qed.

(** ** More on the cost projection *)

Lemma projection_monotone (df : DataFrame) (avg r1 r2 : Q) :
  data df <> [] ->
  mean (map delivery_time_business_days (data df)) = Fin avg ->
  0 <= avg ->
  0 <= r1 ->
  r1 <= r2 ->
  let m1 := new_cost_per_parcel_analysis.calculate_metrics df (Fin r1) in
  let m2 := new_cost_per_parcel_analysis.calculate_metrics df (Fin r2) in
  exists v1 v2 c1 c2 : Q,
    m1 !! "new_total_volume" = Some (PFloat (Fin v1)) /\
    m2 !! "new_total_volume" = Some (PFloat (Fin v2)) /\
    m1 !! "new_cost_per_parcel" = Some (PFloat (Fin c1)) /\
    m2 !! "new_cost_per_parcel" = Some (PFloat (Fin c2)) /\
    inject_Z (Z.of_nat (length (data df))) <= v1 /\
    v1 <= v2 /\
    c2 <= c1.
Proof.
  intros Hne Hmean Havg Hr1 Hr12 m1 m2.
  destruct (projection_entries df (Fin r1)) as (_ & _ & _ & _ & _ & _ & Hv1 & _ & Hc1).
  destruct (projection_entries df (Fin r2)) as (_ & _ & _ & _ & _ & _ & Hv2 & _ & Hc2).
  fold m1 in Hv1, Hc1. fold m2 in Hv2, Hc2.
  rewrite Hmean, increase_of_fin, volume_of_fin in Hv1, Hv2, Hc1, Hc2.
  rewrite cost_of_fin in Hc1, Hc2.
  pose proof (inject_nat_pos _ (nonempty_length _ Hne)) as Hn.
  set (n := inject_Z (Z.of_nat (length (data df)))) in *.
  change (inject_Z 100) with 100 in *. change (inject_Z 1) with 1 in *.
  set (d := avg - avg * (9 # 10)) in *.
  assert (Hd : 0 <= d) by (subst d; lra).
  assert (H1 : 0 <= d * r1) by (apply Qmult_le_0_compat; lra).
  assert (H12 : d * r1 <= d * r2).
  { rewrite (Qmult_comm d r1), (Qmult_comm d r2). apply Qmult_le_compat_r; assumption. }
  set (v1 := n * (1 + d * r1 * 100 / 100)) in *.
  set (v2 := n * (1 + d * r2 * 100 / 100)) in *.
  assert (E1 : v1 == n + n * (d * r1)) by (subst v1; field).
  assert (E2 : v2 == n + n * (d * r2)) by (subst v2; field).
  assert (Hn1 : 0 <= n * (d * r1)) by (apply Qmult_le_0_compat; lra).
  assert (Hn12 : n * (d * r1) <= n * (d * r2)).
  { rewrite (Qmult_comm n (d * r1)), (Qmult_comm n (d * r2)).
    apply Qmult_le_compat_r; lra. }
  assert (Hnv1 : n <= v1) by lra.
  assert (Hv12 : v1 <= v2) by lra.
  rewrite fdiv_positive in Hc1, Hc2 by lra.
  rewrite Qzero_false in Hc1 by lra. rewrite Qzero_false in Hc2 by lra.
  exists v1, v2, (n * (681 # 100) / v1), (n * (681 # 100) / v2).
  repeat split; try assumption.
  apply Qdiv_le_divisor; lra.
Qed.

(** X18: for a non-empty table with a non-negative mean delivery time, the
    three dicts that [main] collects are those of the pessimistic, the
    neutral and the optimistic scenario, in this order; along this order the
    new total volume does not go down, starting at or above the row count,
    and the new cost per parcel does not go up. *)
Theorem scenario_costs_ordered (df : DataFrame) (avg : Q) :
  data df <> [] ->
  mean (map delivery_time_business_days (data df)) = Fin avg ->
  0 <= avg ->
  exists d1 d2 d3 (v1 v2 v3 c1 c2 c3 : Q),
    new_cost_per_parcel_analysis.main_results df = [d1; d2; d3] /\
    d1 !! "scenario" = Some (PStr "pessimistic") /\
    d2 !! "scenario" = Some (PStr "neutral") /\
    d3 !! "scenario" = Some (PStr "optimistic") /\
    d1 !! "new_total_volume" = Some (PFloat (Fin v1)) /\
    d2 !! "new_total_volume" = Some (PFloat (Fin v2)) /\
    d3 !! "new_total_volume" = Some (PFloat (Fin v3)) /\
    d1 !! "new_cost_per_parcel" = Some (PFloat (Fin c1)) /\
    d2 !! "new_cost_per_parcel" = Some (PFloat (Fin c2)) /\
    d3 !! "new_cost_per_parcel" = Some (PFloat (Fin c3)) /\
    inject_Z (Z.of_nat (length (data df))) <= v1 /\ v1 <= v2 /\ v2 <= v3 /\
    c3 <= c2 /\ c2 <= c1.
Proof.
  intros Hne Hmean Havg.
  destruct (projection_monotone df avg (1 # 100) (5 # 100) Hne Hmean Havg
              ltac:(lra) ltac:(lra))
    as (v1 & v2 & c1 & c2 & Hv1 & Hv2 & Hc1 & Hc2 & Hn1 & H12 & C21).
  destruct (projection_monotone df avg (5 # 100) (8 # 100) Hne Hmean Havg
              ltac:(lra) ltac:(lra))
    as (v2' & v3 & c2' & c3 & Hv2' & Hv3 & Hc2' & Hc3 & _ & H23 & C32).
  rewrite Hv2 in Hv2'. injection Hv2' as <-.
  rewrite Hc2 in Hc2'. injection Hc2' as <-.
  do 3 eexists. exists v1, v2, v3, c1, c2, c3.
  split; [apply main_results_scenarios|].
  rewrite !lookup_insert_eq, !lookup_insert_ne by discriminate.
  repeat (split; [first [reflexivity | assumption]|]).
  assumption.
Qed.

Lemma scenario_costs_ordered_witness :
  exists d1 d2 d3 (v1 v2 v3 c1 c2 c3 : Q),
    new_cost_per_parcel_analysis.main_results three_parcels = [d1; d2; d3] /\
    d1 !! "scenario" = Some (PStr "pessimistic") /\
    d2 !! "scenario" = Some (PStr "neutral") /\
    d3 !! "scenario" = Some (PStr "optimistic") /\
    d1 !! "new_total_volume" = Some (PFloat (Fin v1)) /\
    d2 !! "new_total_volume" = Some (PFloat (Fin v2)) /\
    d3 !! "new_total_volume" = Some (PFloat (Fin v3)) /\
    d1 !! "new_cost_per_parcel" = Some (PFloat (Fin c1)) /\
    d2 !! "new_cost_per_parcel" = Some (PFloat (Fin c2)) /\
    d3 !! "new_cost_per_parcel" = Some (PFloat (Fin c3)) /\
    inject_Z (Z.of_nat (length (data three_parcels))) <= v1 /\ v1 <= v2 /\ v2 <= v3 /\
    c3 <= c2 /\ c2 <= c1.
Proof.
  apply (scenario_costs_ordered three_parcels (12 / 3)).
  - discriminate.
  - vm_compute. reflexivity.
  - vm_compute. discriminate.
Defined.

(** X19: on a table without rows the projection raises nothing: the row
    count and the original total cost are 0, and the mean, the improved
    mean, the reduction, the volume increase, the new volume and the new
    cost per parcel are all NaN, whatever the rate. *)
Theorem projection_of_no_rows (df : DataFrame) (rate : float) :
  data df = [] ->
  let m := new_cost_per_parcel_analysis.calculate_metrics df rate in
  m !! "original_total_volume" = Some (PInt 0) /\
  (exists cost : Q, m !! "original_total_cost" = Some (PFloat (Fin cost)) /\ cost == 0) /\
  m !! "original_avg_delivery_time" = Some (PFloat NaN) /\
  m !! "improved_avg_delivery_time" = Some (PFloat NaN) /\
  m !! "delivery_time_reduction" = Some (PFloat NaN) /\
  m !! "volume_increase_percentage" = Some (PFloat NaN) /\
  m !! "new_total_volume" = Some (PFloat NaN) /\
  m !! "new_cost_per_parcel" = Some (PFloat NaN).
Proof.
  intros Hempty m.
  destruct (projection_entries df rate)
    as (_ & Havg & Himp & Hred & Hinc & Hrows & Hvol & Hcost & Hnew).
  fold m in Havg, Himp, Hred, Hinc, Hrows, Hvol, Hcost, Hnew.
  rewrite Hempty in *. simpl in Havg, Himp, Hred, Hinc, Hrows, Hvol, Hnew.
  split; [exact Hrows|]. split.
  { eexists. split; [exact Hcost|]. reflexivity. }
  repeat split; assumption.
Qed.

Lemma projection_of_no_rows_witness :
  let m := new_cost_per_parcel_analysis.calculate_metrics no_rows (Fin (5 # 100)) in
  m !! "original_total_volume" = Some (PInt 0) /\
  (exists cost : Q, m !! "original_total_cost" = Some (PFloat (Fin cost)) /\ cost == 0) /\
  m !! "original_avg_delivery_time" = Some (PFloat NaN) /\
  m !! "improved_avg_delivery_time" = Some (PFloat NaN) /\
  m !! "delivery_time_reduction" = Some (PFloat NaN) /\
  m !! "volume_increase_percentage" = Some (PFloat NaN) /\
  m !! "new_total_volume" = Some (PFloat NaN) /\
  m !! "new_cost_per_parcel" = Some (PFloat NaN).
Proof. apply (projection_of_no_rows no_rows (Fin (5 # 100))). reflexivity. Defined.

(** ** More on the reasons table of sc_review.py *)

Lemma Zsum_perm (l l' : list Z) : Permutation l l' -> Zsum l = Zsum l'.
Proof. induction 1; simpl; lia. Qed.

(** X20: in the reasons table of [analyze_compensation_reasons] every count
    is at least 1, and the counts add up to the number of rows of the table
    that have a reason (compensated or not); rows without a reason are
    counted nowhere. *)
Theorem reason_counts_total (df : DataFrame) :
  Forall (fun row => (1 <= sc_review.count row)%Z)
         (sc_review.analyze_compensation_reasons df) /\
  Zsum (map sc_review.count (sc_review.analyze_compensation_reasons df))
  = Z.of_nat (length (filter (fun r => present (compensation_reason r)) (data df))).
Proof.
  rewrite reasons_df_groups.
  set (mk := fun k : string => _).
  set (ks := group_keys (map compensation_reason (data df))).
  pose proof (sort_values_desc_perm sc_review.count (map mk ks)) as Hperm.
  split.
  - eapply Permutation_Forall; [symmetry; exact Hperm|].
    apply Forall_forall. intros row Hrow. apply in_map_iff in Hrow.
    destruct Hrow as (k & <- & Hk). subst mk. cbn [sc_review.count].
    apply In_reason_keys in Hk. destruct Hk as (r & Hr & Hreason).
    assert (H : In r (rows_with compensation_reason k (data df))).
    { unfold rows_with. apply filter_In. split; [assumption|].
      rewrite Hreason. simpl. apply String.eqb_refl. }
    destruct (rows_with compensation_reason k (data df)); [destruct H | simpl; lia].
  - rewrite (Zsum_perm _ _ (Permutation_map sc_review.count Hperm)).
    rewrite map_map. subst mk. cbn [sc_review.count]. apply group_sizes_total.
Qed.

(** ** The column fallback of sc_review.py *)

Lemma has_column_cons (c name : string) (columns : list string) :
  sc_review.has_column (c :: columns) name
  = (String.eqb name c || sc_review.has_column columns name)%bool.
Proof. reflexivity. Qed.

Lemma length_alternate {A : Type} (a b : A) (n : nat) :
  length (sc_review.alternate a b n) = n.
Proof. unfold sc_review.alternate. rewrite length_map, length_seq. reflexivity. Qed.

Lemma alternate_SS {A : Type} (a b : A) (n : nat) :
  sc_review.alternate a b (S (S n)) = a :: b :: sc_review.alternate a b n.
Proof.
  unfold sc_review.alternate. simpl. f_equal. f_equal.
  rewrite <- seq_shift, <- seq_shift, !map_map. reflexivity.
Qed.

Lemma length_zip_with_same {A B C : Type} (f : A -> B -> C) (l : list A) (l' : list B) :
  length l' = length l -> length (zip_with f l l') = length l.
Proof.
  revert l'. induction l as [|a l IH]; intros [|b l']; simpl; try discriminate;
    [reflexivity|].
  intros H. injection H as H. rewrite (IH _ H). reflexivity.
Qed.

Lemma len_set_column {A : Type} (set : Shipment Timestamp -> A -> Shipment Timestamp)
    (cells : list A) (df : DataFrame) :
  length cells = len df -> len (sc_review.set_column set cells df) = len df.
Proof. intros H. unfold len, sc_review.set_column. simpl. apply length_zip_with_same, H. Qed.

(** A column computed from a row that the assignment does not touch. *)
Lemma map_zip_with_kept {A B : Type} (set : Shipment Timestamp -> A -> Shipment Timestamp)
    (g : Shipment Timestamp -> B) (rows : list (Shipment Timestamp)) (cells : list A) :
  (forall r v, g (set r v) = g r) ->
  length cells = length rows ->
  map g (zip_with set rows cells) = map g rows.
Proof.
  intros Hg. revert cells. induction rows as [|r rows IH]; intros [|c cells]; simpl;
    try discriminate; [reflexivity|].
  intros H. injection H as H. rewrite Hg, (IH _ H). reflexivity.
Qed.

(** The column that the assignment sets. *)
Lemma map_zip_with_set {A : Type} (set : Shipment Timestamp -> A -> Shipment Timestamp)
    (g : Shipment Timestamp -> A) (rows : list (Shipment Timestamp)) (cells : list A) :
  (forall r v, g (set r v) = v) ->
  length cells = length rows ->
  map g (zip_with set rows cells) = cells.
Proof.
  intros Hg. revert cells. induction rows as [|r rows IH]; intros [|c cells]; simpl;
    try discriminate; [reflexivity|].
  intros H. injection H as H. rewrite Hg, (IH _ H). reflexivity.
Qed.

(** *** The loop over the required columns *)

Lemma fill_column_present (column : string) (df : DataFrame) (columns : list string) :
  sc_review.has_column columns column = true ->
  sc_review.fill_column column (df, columns) = inr (df, columns).
Proof. intros H. unfold sc_review.fill_column. simpl fst. simpl snd. rewrite H. reflexivity. Qed.

(** A turn of the loop succeeds on a frame that has its shipment dates, keeps
    the number of rows, and adds no other name than its own. *)
Lemma fill_column_runs (column : string) (df : DataFrame) (columns : list string) :
  sc_review.has_column columns "shipped_date" = true ->
  exists df' columns',
    sc_review.fill_column column (df, columns) = inr (df', columns') /\
    len df' = len df /\
    sc_review.has_column columns' "shipped_date" = true /\
    forall name, name <> column ->
      sc_review.has_column columns' name = sc_review.has_column columns name.
Proof.
  intros Hs. unfold sc_review.fill_column. simpl fst. simpl snd.
  destruct (sc_review.has_column columns column) eqn:Hc.
  { exists df, columns. auto. }
  assert (Hadd : sc_review.has_column (column :: columns) "shipped_date" = true).
  { rewrite has_column_cons, Hs. apply Bool.orb_true_r. }
  assert (Hother : forall name, name <> column ->
            sc_review.has_column (column :: columns) name
            = sc_review.has_column columns name).
  { intros name Hne. rewrite has_column_cons.
    apply String.eqb_neq in Hne. rewrite Hne. reflexivity. }
  repeat match goal with
  | |- context [if String.eqb column ?c then _ else _] =>
      destruct (String.eqb column c) eqn:?
  end;
  try (eexists; eexists; split; [reflexivity|]; split; [|split; assumption];
       apply len_set_column;
       first [ apply length_alternate
             | rewrite length_map, length_seq; reflexivity ]).
  - match goal with
    | H : String.eqb column "shipped_date" = true |- _ =>
        apply String.eqb_eq in H; subst column; congruence
    end.
  - exists df, columns. auto.
Qed.

Lemma fill_columns_run (names : list string) (df : DataFrame) (columns : list string) :
  sc_review.has_column columns "shipped_date" = true ->
  exists df' columns',
    sc_review.fill_columns names (df, columns) = inr (df', columns') /\
    len df' = len df /\
    sc_review.has_column columns' "shipped_date" = true /\
    forall name, ~ In name names ->
      sc_review.has_column columns' name = sc_review.has_column columns name.
Proof.
  revert df columns. induction names as [|column names IH]; intros df columns Hs.
  { exists df, columns. simpl. auto. }
  destruct (fill_column_runs column df columns Hs) as (df1 & c1 & H1 & Hlen1 & Hs1 & Hn1).
  destruct (IH df1 c1 Hs1) as (df2 & c2 & H2 & Hlen2 & Hs2 & Hn2).
  exists df2, c2. simpl. rewrite H1. cbn [bind2]. split; [exact H2|].
  split; [congruence|]. split; [exact Hs2|].
  intros name Hname. rewrite Hn2, Hn1; [reflexivity| |]; intros E; apply Hname.
  - left. congruence.
  - right. exact E.
Qed.

Lemma fill_columns_app (names names' : list string) (state : DataFrame * list string) :
  sc_review.fill_columns (names ++ names') state
  = bind2 (sc_review.fill_columns names state) (sc_review.fill_columns names').
Proof.
  revert state. induction names as [|c names IH]; intros state; simpl; [reflexivity|].
  destruct (sc_review.fill_column c state); simpl; [reflexivity | apply IH].
Qed.

(** *** The conversion of the shipment dates *)

Lemma to_datetime_cases (parse_date : string -> option Timestamp) (texts : list string) :
  match find (fun t => negb (present (parse_date t))) texts with
  | Some text => mapM (to_datetime parse_date) texts = inl (DateParseError text)
  | None => exists shipped, mapM (to_datetime parse_date) texts = inr shipped
  end.
Proof.
  induction texts as [|t texts IH]; simpl; [exists []; reflexivity|].
  unfold to_datetime at 1 3. destruct (parse_date t) eqn:E; simpl; [|reflexivity].
  destruct (find _ texts).
  - rewrite IH. reflexivity.
  - destruct IH as (shipped & ->). eexists. reflexivity.
Qed.

(** X21: once the files are read, [main] of sc_review.py fails in exactly
    three ways, all of them on the two date columns and before the loop over
    the required columns: the
    table has no column [shipped_date]; or it has one and a shipment date is
    no date, the first such text being reported; or the shipment dates are
    dates and the table has no column [compensated_at_date].  So the loop
    never fails, and its branch for [shipped_date], which would assign 31
    dates whatever the number of rows, is never taken: the look-up of the
    column has raised before. *)
Theorem sc_review_main_failures (parse_date : string -> option Timestamp)
    (files : list (list (Shipment string))) (columns : list string) (e : exn2) :
  sc_review.main parse_date files columns = inl e <->
  (sc_review.has_column columns "shipped_date" = false /\
   e = Raised (KeyError "shipped_date")) \/
  (sc_review.has_column columns "shipped_date" = true /\
   exists text,
     first_unparseable parse_date (concat files) = Some text /\
     e = Raised (DateParseError text)) \/
  (sc_review.has_column columns "shipped_date" = true /\
   first_unparseable parse_date (concat files) = None /\
   sc_review.has_column columns "compensated_at_date" = false /\
   e = Raised (KeyError "compensated_at_date")).
Proof.
  unfold sc_review.main. cbv zeta.
  destruct (sc_review.has_column columns "shipped_date") eqn:Hs.
  2:{ cbn [bind2]. split.
      - intros H. injection H as <-. left. auto.
      - intros [[_ ->] | [[H _] | [H _]]]; [reflexivity | discriminate | discriminate]. }
  pose proof (to_datetime_cases parse_date (map shipped_date (concat files))) as Hconv.
  unfold first_unparseable.
  destruct (find _ (map shipped_date (concat files))) as [text|].
  { rewrite Hconv. cbn [lift bind2]. split.
    - intros H. injection H as <-. right. left. split; [reflexivity|]. exists text. auto.
    - intros [[H _] | [(_ & text' & H & ->) | (_ & H & _)]]; try discriminate.
      injection H as <-. reflexivity. }
  destruct Hconv as (shipped & ->). cbn [lift bind2].
  destruct (sc_review.has_column columns "compensated_at_date") eqn:Hc.
  2:{ cbn [bind2]. split.
      - intros H. injection H as <-. right. right. auto.
      - intros [[H _] | [(_ & text' & H & _) | (_ & _ & _ & ->)]];
          [discriminate | discriminate | reflexivity]. }
  cbn [bind2].
  match goal with
  | |- context [sc_review.fill_columns ?names (?df, columns)] =>
      destruct (fill_columns_run names df columns Hs) as (df' & columns' & -> & _)
  end.
  cbn [bind2 fst]. rewrite sc_review_analyze_correlation. cbn [lift bind2].
  split; [discriminate|].
  intros [[H _] | [(_ & text' & H & _) | (_ & _ & H & _)]]; discriminate.
Qed.

(** *** What the two analyses read of a row *)

Definition day_cells (r : Shipment Timestamp) : string * option Q * option Q :=
  (month_day r, delivery_time_business_days r, total_compensation r).

Definition reason_cells (r : Shipment Timestamp) : option string * option Q :=
  (compensation_reason r, total_compensation r).

Lemma map_through {A B C : Type} (g : A -> B) (h : B -> C) (l l' : list A) :
  map g l = map g l' -> map (fun a => h (g a)) l = map (fun a => h (g a)) l'.
Proof. intros H. rewrite <- (map_map g h l), <- (map_map g h l'), H. reflexivity. Qed.

Lemma map_filter_through {A B C : Type} (g : A -> B) (h : B -> C) (P : B -> bool)
    (l l' : list A) :
  map g l = map g l' ->
  map (fun a => h (g a)) (filter (fun a => P (g a)) l)
  = map (fun a => h (g a)) (filter (fun a => P (g a)) l').
Proof.
  intros H. rewrite <- (map_filter_map h g P l), <- (map_filter_map h g P l'), H.
  reflexivity.
Qed.

Lemma reduce_days_cells (rows rows' : list (Shipment Timestamp)) :
  map day_cells rows = map day_cells rows' -> reduce_days rows = reduce_days rows'.
Proof.
  intros H. rewrite !reduce_days_groups.
  assert (Hkeys : map (fun r => Some (month_day r)) rows
                  = map (fun r => Some (month_day r)) rows')
    by exact (map_through day_cells (fun c => Some (fst (fst c))) _ _ H).
  rewrite Hkeys. f_equal. apply map_ext. intros k. unfold agg_day, rows_of_day.
  cbn [fst snd]. f_equal.
  - exact (f_equal mean
             (map_filter_through day_cells (fun c => snd (fst c))
                (fun c => String.eqb k (fst (fst c))) _ _ H)).
  - exact (f_equal mean
             (map_filter_through day_cells (fun c => snd c)
                (fun c => String.eqb k (fst (fst c))) _ _ H)).
Qed.

Lemma reasons_cells (df df' : DataFrame) :
  map reason_cells (data df) = map reason_cells (data df') ->
  sc_review.analyze_compensation_reasons df = sc_review.analyze_compensation_reasons df'.
Proof.
  intros H. rewrite !reasons_df_groups. cbv zeta.
  assert (Hkeys : map compensation_reason (data df) = map compensation_reason (data df'))
    by exact (map_through reason_cells (fun c => fst c) _ _ H).
  rewrite Hkeys. f_equal. apply map_ext. intros k.
  assert (Hcells : map total_compensation (rows_with compensation_reason k (data df))
                   = map total_compensation (rows_with compensation_reason k (data df')))
    by exact (map_filter_through reason_cells (fun c => snd c)
                (fun c => has_key k (fst c)) _ _ H).
  rewrite Hcells. f_equal.
  rewrite <- (length_map total_compensation (rows_with compensation_reason k (data df))),
          <- (length_map total_compensation (rows_with compensation_reason k (data df'))),
          Hcells.
  reflexivity.
Qed.

(** *** Service centers that are not in the files *)

(** The rows in the 1st, 3rd, 5th ... place. *)
Fixpoint evens {A : Type} (l : list A) : list A :=
  match l with
  | a :: _ :: l' => a :: evens l'
  | _ => l
  end.

Lemma list_pair_ind {A : Type} (P : list A -> Prop) :
  P [] -> (forall a, P [a]) -> (forall a b l, P l -> P (a :: b :: l)) -> forall l, P l.
Proof.
  intros H0 H1 H2. fix IH 1. intros [|a [|b l]]; [exact H0 | apply H1 | apply H2, IH].
Qed.

Definition mock_centers (rows : list (Shipment Timestamp)) : list (Shipment Timestamp) :=
  zip_with sc_review.with_to_sc_code
    (zip_with sc_review.with_from_sc_code rows
       (sc_review.alternate "LYO1" "XYZ1" (length rows)))
    (sc_review.alternate "PAR1" "ABC1" (length rows)).

Lemma mock_centers_filter (rows : list (Shipment Timestamp)) :
  filter lyo1_par1 (mock_centers rows)
  = map (fun r => sc_review.with_to_sc_code (sc_review.with_from_sc_code r "LYO1") "PAR1")
        (evens rows).
Proof.
  unfold mock_centers. induction rows as [| a | a b rows IH] using list_pair_ind.
  - reflexivity.
  - reflexivity.
  - cbn [length]. rewrite !alternate_SS. cbn [zip_with]. 
    change (filter lyo1_par1 (?x :: ?y :: ?l)) with (x :: filter lyo1_par1 l).
    rewrite IH. reflexivity.
Qed.

Definition has_columns (columns names : list string) : bool :=
  forallb (sc_review.has_column columns) names.

Lemma fill_columns_mock_centers (df : DataFrame) (columns : list string) :
  has_columns columns
    ["shipped_date"; "route"; "delivery_time_business_days"; "total_compensation";
     "compensation_reason"] = true ->
  sc_review.has_column columns "from_sc_code" = false ->
  sc_review.has_column columns "to_sc_code" = false ->
  sc_review.fill_columns sc_review.required_columns (df, columns)
  = inr ({| data := mock_centers (data df); extra := extra df |},
         "to_sc_code" :: "from_sc_code" :: columns).
Proof.
  intros Hhas Hfrom Hto. unfold has_columns in Hhas. cbn [forallb] in Hhas.
  destruct (andb_prop _ _ Hhas) as [Hshipped H1].
  destruct (andb_prop _ _ H1) as [Hroute H2].
  destruct (andb_prop _ _ H2) as [Hdays H3].
  destruct (andb_prop _ _ H3) as [Htotal H4].
  destruct (andb_prop _ _ H4) as [Hreason _].
  assert (Hpresent : forall (d : DataFrame) name,
            sc_review.has_column columns name = true ->
            sc_review.fill_column name
              (d, "to_sc_code" :: "from_sc_code" :: columns)
            = inr (d, "to_sc_code" :: "from_sc_code" :: columns)).
  { intros d name H. apply fill_column_present.
    rewrite !has_column_cons, H, !Bool.orb_true_r. reflexivity. }
  unfold sc_review.required_columns. cbn [sc_review.fill_columns].
  rewrite (fill_column_present _ _ _ Hroute). cbn [bind2].
  assert (H5 : sc_review.fill_column "from_sc_code" (df, columns)
               = inr (sc_review.set_column sc_review.with_from_sc_code
                        (sc_review.alternate "LYO1" "XYZ1" (len df)) df,
                      "from_sc_code" :: columns)).
  { unfold sc_review.fill_column. cbn [fst snd]. rewrite Hfrom. reflexivity. }
  rewrite H5. cbn [bind2].
  assert (H6 : forall d,
            sc_review.fill_column "to_sc_code" (d, "from_sc_code" :: columns)
            = inr (sc_review.set_column sc_review.with_to_sc_code
                     (sc_review.alternate "PAR1" "ABC1" (len d)) d,
                   "to_sc_code" :: "from_sc_code" :: columns)).
  { intros d. unfold sc_review.fill_column. cbn [fst snd].
    rewrite has_column_cons, Hto. reflexivity. }
  rewrite H6. cbn [bind2].
  rewrite (Hpresent _ _ Hdays). cbn [bind2].
  rewrite (Hpresent _ _ Htotal). cbn [bind2].
  rewrite (Hpresent _ _ Hshipped). cbn [bind2].
  rewrite (Hpresent _ _ Hreason). cbn [bind2].
  rewrite len_set_column by apply length_alternate.
  reflexivity.
Qed.

(** X22: when the files have neither [from_sc_code] nor [to_sc_code] (and
    have the other columns), [main] of sc_review.py invents both, LYO1 and
    PAR1 for the rows in the 1st, 3rd, 5th ... place and other centers for the
    rest.  The per-day table is then the reduction of every other row of the
    files, and the reasons table is that of all the rows. *)
Theorem mock_centers_keep_every_other_row (parse_date : string -> option Timestamp)
    (files : list (list (Shipment string))) (columns : list string) (df : DataFrame) :
  convert_dates parse_date (concat files) = inr df ->
  has_columns columns
    ["shipped_date"; "compensated_at_date"; "route"; "delivery_time_business_days";
     "total_compensation"; "compensation_reason"] = true ->
  sc_review.has_column columns "from_sc_code" = false ->
  sc_review.has_column columns "to_sc_code" = false ->
  sc_review.main parse_date files columns
  = inr (reduce_days (evens (data df)), sc_review.analyze_compensation_reasons df).
Proof.
  intros Hconv Hhas Hfrom Hto.
  unfold has_columns in Hhas. cbn [forallb] in Hhas.
  destruct (andb_prop _ _ Hhas) as [Hshipped H1].
  destruct (andb_prop _ _ H1) as [Hcomp Hrest].
  unfold convert_dates in Hconv. unfold sc_review.main. cbv zeta.
  rewrite Hshipped, Hcomp.
  destruct (mapM (to_datetime parse_date) (map shipped_date (concat files)))
    as [e|shipped]; [discriminate|].
  cbn [bind ret] in Hconv. injection Hconv as <-.
  cbn [lift bind2].
  rewrite fill_columns_mock_centers;
    [ | unfold has_columns; cbn [forallb]; rewrite Hshipped; exact Hrest
      | exact Hfrom | exact Hto ].
  cbn [bind2 fst data extra]. rewrite sc_review_analyze_correlation. cbn [lift bind2 data].
  rewrite mock_centers_filter. f_equal. f_equal.
  - apply reduce_days_cells. rewrite map_map. reflexivity.
  - apply reasons_cells. cbn [data]. unfold mock_centers.
    rewrite map_zip_with_kept; [rewrite map_zip_with_kept| |]; try reflexivity.
    + apply length_alternate.
    + rewrite length_zip_with_same; apply length_alternate.
Qed.

Definition without_centers : list string :=
  ["shipped_date"; "compensated_at_date"; "delivery_time_business_days";
   "has_marketplace_cs_ticket"; "total_compensation"; "compensation_reason"; "route"].

Lemma mock_centers_keep_every_other_row_witness :
  exists df,
    convert_dates parse_sample (concat raw_files) = inr df /\
    sc_review.main parse_sample raw_files without_centers
    = inr (reduce_days (evens (data df)), sc_review.analyze_compensation_reasons df).
Proof.
  eexists. split; [reflexivity|].
  apply (mock_centers_keep_every_other_row parse_sample raw_files without_centers);
    reflexivity.
Defined.

(** *** Files that have every column *)

Lemma main_after_dates (parse_date : string -> option Timestamp)
    (files : list (list (Shipment string))) (columns : list string) :
  sc_review.has_column columns "shipped_date" = true ->
  sc_review.has_column columns "compensated_at_date" = true ->
  sc_review.main parse_date files columns
  = bind2 (lift (convert_dates parse_date (concat files)))
      (fun df =>
         bind2 (sc_review.fill_columns sc_review.required_columns (df, columns))
           (fun state =>
              inr (reduce_days (filter lyo1_par1 (data (fst state))),
                   sc_review.analyze_compensation_reasons (fst state)))).
Proof.
  intros Hs Hc. unfold sc_review.main, convert_dates. cbv zeta. rewrite Hs, Hc.
  destruct (mapM (to_datetime parse_date) (map shipped_date (concat files)));
    [reflexivity|].
  cbn [bind ret lift bind2].
  destruct (sc_review.fill_columns _ _) as [e|state]; [reflexivity|].
  cbn [bind2]. rewrite sc_review_analyze_correlation. reflexivity.
Qed.

Lemma fill_columns_present (names : list string) (df : DataFrame) (columns : list string) :
  has_columns columns names = true ->
  sc_review.fill_columns names (df, columns) = inr (df, columns).
Proof.
  unfold has_columns. induction names as [|c names IH]; cbn [forallb]; [reflexivity|].
  intros H. apply andb_prop in H. destruct H as [Hc H].
  cbn [sc_review.fill_columns]. rewrite (fill_column_present _ _ _ Hc). cbn [bind2].
  apply IH, H.
Qed.

(** X23: when the files have all the columns that [main] of sc_review.py asks
    for, no cell is invented: the two analyses run on the table as read,
    with its dates converted. *)
Theorem files_with_every_column (parse_date : string -> option Timestamp)
    (files : list (list (Shipment string))) (columns : list string) (df : DataFrame) :
  convert_dates parse_date (concat files) = inr df ->
  has_columns columns ("compensated_at_date" :: sc_review.required_columns) = true ->
  sc_review.main parse_date files columns
  = inr (reduce_days (filter lyo1_par1 (data df)),
         sc_review.analyze_compensation_reasons df).
Proof.
  intros Hconv Hhas.
  unfold has_columns in Hhas. cbn [forallb] in Hhas.
  destruct (andb_prop _ _ Hhas) as [Hcomp Hrequired].
  assert (Hshipped : sc_review.has_column columns "shipped_date" = true).
  { unfold sc_review.required_columns in Hrequired. cbn [forallb] in Hrequired.
    repeat (apply andb_prop in Hrequired; destruct Hrequired as [? Hrequired]).
    assumption. }
  rewrite (main_after_dates _ _ _ Hshipped Hcomp), Hconv. cbn [lift bind2].
  rewrite (fill_columns_present _ _ _ Hrequired). reflexivity.
Qed.

Definition every_column : list string :=
  ["shipped_date"; "compensated_at_date"; "delivery_time_business_days";
   "has_marketplace_cs_ticket"; "total_compensation"; "compensation_reason"; "route";
   "from_sc_code"; "to_sc_code"].

Lemma files_with_every_column_witness :
  exists df,
    convert_dates parse_sample (concat raw_files) = inr df /\
    sc_review.main parse_sample raw_files every_column
    = inr (reduce_days (filter lyo1_par1 (data df)),
           sc_review.analyze_compensation_reasons df).
Proof.
  eexists. split; [reflexivity|].
  apply (files_with_every_column parse_sample raw_files every_column); reflexivity.
Defined.

(** *** Reasons that are not in the files *)

Lemma nat_pair_ind (P : nat -> Prop) :
  P 0%nat -> P 1%nat -> (forall n, P n -> P (S (S n))) -> forall n, P n.
Proof.
  intros H0 H1 H2. fix IH 1. intros [|[|n]]; [exact H0 | exact H1 | apply H2, IH].
Qed.

Definition mock_reasons (n : nat) : list (option string) :=
  sc_review.alternate (Some "Reason A") (Some "Reason B") n.

Lemma mock_reasons_keys (n : nat) :
  group_keys (mock_reasons (S (S n))) = ["Reason A"; "Reason B"].
Proof.
  unfold mock_reasons. induction n as [| | n IH] using nat_pair_ind.
  - reflexivity.
  - reflexivity.
  - rewrite alternate_SS. unfold group_keys in *. cbn [dropna]. 
    cbn [fold_right]. rewrite IH. reflexivity.
Qed.

Lemma mock_reasons_counts (n : nat) :
  length (filter (has_key "Reason A") (mock_reasons n)) = Nat.div2 (S n) /\
  length (filter (has_key "Reason B") (mock_reasons n)) = Nat.div2 n.
Proof.
  unfold mock_reasons. induction n as [| | n [IHa IHb]] using nat_pair_ind.
  - split; reflexivity.
  - split; reflexivity.
  - rewrite alternate_SS.
    change (filter (has_key "Reason A") (Some "Reason A" :: Some "Reason B" :: ?l))
      with (Some "Reason A" :: filter (has_key "Reason A") l).
    change (filter (has_key "Reason B") (Some "Reason A" :: Some "Reason B" :: ?l))
      with (Some "Reason B" :: filter (has_key "Reason B") l).
    cbn [length]. rewrite IHa, IHb. split; reflexivity.
Qed.

Lemma length_rows_with {A : Type} (key : A -> option string) (k : string) (l : list A) :
  length (rows_with key k l) = length (filter (has_key k) (map key l)).
Proof.
  unfold rows_with. induction l as [|a l IH]; simpl; [reflexivity|].
  destruct (has_key k (key a)); simpl; rewrite IH; reflexivity.
Qed.

Lemma div2_step (n : nat) : (Nat.div2 n <= Nat.div2 (S n))%nat.
Proof.
  induction n as [| | n IH] using nat_pair_ind; [simpl; lia | simpl; lia |].
  change (Nat.div2 (S (S n))) with (S (Nat.div2 n)).
  change (Nat.div2 (S (S (S n)))) with (S (Nat.div2 (S n))). lia.
Qed.

(** X24: when the files have no column [compensation_reason], [main] of
    sc_review.py invents one, Reason A for the rows in the 1st, 3rd, 5th ...
    place and Reason B for the others.  For two rows or more the reasons
    table has then exactly these two rows, in this order, and their counts
    are the two halves of the number of rows, the larger half first,
    whichever other columns the files have. *)
Theorem mock_reasons_table (parse_date : string -> option Timestamp)
    (files : list (list (Shipment string))) (columns : list string) :
  Forall (fun r => parse_date (shipped_date r) <> None) (concat files) ->
  has_columns columns ["shipped_date"; "compensated_at_date"] = true ->
  sc_review.has_column columns "compensation_reason" = false ->
  (2 <= length (concat files))%nat ->
  exists correlation reasons,
    sc_review.main parse_date files columns = inr (correlation, reasons) /\
    map (fun row => (sc_review.reason row, sc_review.count row)) reasons
    = [("Reason A", Z.of_nat (Nat.div2 (S (length (concat files)))));
       ("Reason B", Z.of_nat (Nat.div2 (length (concat files))))].
Proof.
  intros Hparse Hhas Hreason Hrows.
  unfold has_columns in Hhas. cbn [forallb] in Hhas.
  destruct (andb_prop _ _ Hhas) as [Hshipped H1].
  destruct (andb_prop _ _ H1) as [Hcomp _].
  destruct (convert_dates_succeeds parse_date _ Hparse) as (d & Hconv & Hd).
  apply Forall2_length in Hd.
  rewrite (main_after_dates _ _ _ Hshipped Hcomp), Hconv. cbn [lift bind2].
  change sc_review.required_columns
    with (["route"; "from_sc_code"; "to_sc_code"; "delivery_time_business_days";
           "total_compensation"; "shipped_date"] ++ ["compensation_reason"])%list.
  rewrite fill_columns_app.
  match goal with
  | |- context [sc_review.fill_columns ?names (?df, columns)] =>
      destruct (fill_columns_run names df columns Hshipped)
        as (df' & columns' & -> & Hlen & _ & Hsame)
  end.
  cbn [bind2 sc_review.fill_columns].
  assert (Hfill : sc_review.fill_column "compensation_reason" (df', columns')
                  = inr (sc_review.set_column sc_review.with_compensation_reason
                           (mock_reasons (len df')) df',
                         "compensation_reason" :: columns')).
  { unfold sc_review.fill_column. cbn [fst snd].
    rewrite Hsame, Hreason; [reflexivity|].
    cbn [In]. intros H. repeat (destruct H as [H|H]; [discriminate|]). exact H. }
  rewrite Hfill. cbn [bind2 fst]. eexists. eexists. split; [reflexivity|].
  assert (Hkeys : map compensation_reason
                    (data (sc_review.set_column sc_review.with_compensation_reason
                             (mock_reasons (len df')) df'))
                  = mock_reasons (len df')).
  { apply map_zip_with_set; [reflexivity | apply length_alternate]. }
  rewrite reasons_df_groups. cbv zeta. rewrite Hkeys.
  assert (Hn : exists n, len df' = S (S n)).
  { rewrite Hlen. unfold len. cbn [data]. rewrite <- Hd.
    destruct (length (concat files)) as [|[|n]]; [lia | lia | exists n; reflexivity]. }
  destruct Hn as (n & Hn).
  assert (Hfiles : length (concat files) = S (S n)).
  { rewrite <- Hn, Hlen. unfold len. cbn [data]. exact Hd. }
  rewrite Hn in *. rewrite mock_reasons_keys.
  destruct (mock_reasons_counts (S (S n))) as [Ha Hb].
  cbn [map]. rewrite !length_rows_with, Hkeys, Ha, Hb.
  unfold sort_values_desc. cbn [fold_right insert_desc sc_review.count].
  pose proof (div2_step (S (S n))) as Hle.
  apply Nat2Z.inj_le, Z.leb_le in Hle. rewrite Hle.
  cbn [map sc_review.reason sc_review.count]. rewrite Hfiles. reflexivity.
Qed.

Definition without_reasons : list string :=
  ["shipped_date"; "compensated_at_date"; "delivery_time_business_days";
   "total_compensation"; "from_sc_code"; "to_sc_code"].

Lemma mock_reasons_table_witness :
  exists correlation reasons,
    sc_review.main parse_sample raw_files without_reasons = inr (correlation, reasons) /\
    map (fun row => (sc_review.reason row, sc_review.count row)) reasons
    = [("Reason A", Z.of_nat (Nat.div2 (S (length (concat raw_files)))));
       ("Reason B", Z.of_nat (Nat.div2 (length (concat raw_files))))].
Proof.
  apply (mock_reasons_table parse_sample raw_files without_reasons).
  - repeat constructor; vm_compute; discriminate.
  - reflexivity.
  - reflexivity.
  - simpl. lia.
Defined.
